(** * vscode-neovim: layout reconciler, viewport tracker, event bus and
      input routing, as a shallow embedding of the TypeScript sources.

    Host objects (TextDocument, TextEditor) are reference stable in the
    extension host and are used as keys of JS [Map]s; they are modelled as
    references into a [Host] store.  JS [Map]s whose iteration order is
    observed by the code ([find] over the entries) are insertion-ordered
    association lists; maps and sets that are only read by key are stdpp
    [gmap]s and [gset]s.  JS numbers holding ids and line numbers are [Z];
    a JS string is a [string], one character for one code unit.  An [async]
    method is run to its end against fixed answers of the host and of the
    backend; its effects are kept in program order. *)

From Stdlib Require Import ZArith String Ascii List Bool Lia.
From stdpp Require Import base option list gmap strings pretty.
Import ListNotations.

#[local] Open Scope string_scope.
#[local] Open Scope list_scope.
#[local] Open Scope Z_scope.

(** ** JS [Map] with observable insertion order *)

Module JsMap.
Section Ops.
Context {K V : Type} `{EqDecision K}.

(** [m.get(k)] : [None] is [undefined]. *)
Fixpoint get (m : list (K * V)) (k : K) : option V :=
  match m with
  | [] => None
  | (k', v) :: r => if decide (k' = k) then Some v else get r k
  end.

(** [m.has(k)] *)
Definition has (m : list (K * V)) (k : K) : bool :=
  match get m k with Some _ => true | None => false end.

(** [m.set(k, v)] : an existing key keeps its place in the iteration
    order, a new key is appended. *)
Fixpoint set (m : list (K * V)) (k : K) (v : V) : list (K * V) :=
  match m with
  | [] => [(k, v)]
  | (k', v') :: r =>
      if decide (k' = k) then (k', v) :: r else (k', v') :: set r k v
  end.

(** [m.delete(k)] *)
Fixpoint delete (m : list (K * V)) (k : K) : list (K * V) :=
  match m with
  | [] => []
  | (k', v') :: r =>
      if decide (k' = k) then delete r k else (k', v') :: delete r k
  end.

(** [[...m].find(pred)] : first entry, in insertion order. *)
Fixpoint find (pred : K * V -> bool) (m : list (K * V)) : option (K * V) :=
  match m with
  | [] => None
  | kv :: r => if pred kv then Some kv else find pred r
  end.
End Ops.
End JsMap.

(** ** JS primitives used by the sources *)

(** [s.startsWith(p)] *)
Definition startsWith (s p : string) : bool := String.prefix p s.

(** [s.substring(n)] for [0 <= n]. *)
Fixpoint substring_from (n : nat) (s : string) : string :=
  match n, s with
  | O, _ => s
  | S _, EmptyString => EmptyString
  | S k, String _ r => substring_from k r
  end.

(** [/:\/\//.test(s)] : the text [://] occurs in [s]. *)
Fixpoint includes (sub s : string) : bool :=
  String.prefix sub s
  || match s with
     | EmptyString => false
     | String _ r => includes sub r
     end.

(** White space skipped by [parseInt] (the ASCII part of it). *)
Definition is_white_space (c : ascii) : bool :=
  match Ascii.nat_of_ascii c with
  | 9%nat | 10%nat | 11%nat | 12%nat | 13%nat | 32%nat => true
  | _ => false
  end.

Fixpoint skip_white_space (s : string) : string :=
  match s with
  | EmptyString => EmptyString
  | String c r => if is_white_space c then skip_white_space r else s
  end.

Definition digit_value (c : ascii) : option Z :=
  let n := Ascii.nat_of_ascii c in
  if (48 <=? n)%nat && (n <=? 57)%nat then Some (Z.of_nat n - 48) else None.

(** The longest prefix of decimal digits, as a number; [acc] is [None]
    until a digit was read. *)
Fixpoint parse_digits (s : string) (acc : option Z) : option Z :=
  match s with
  | EmptyString => acc
  | String c r =>
      match digit_value c with
      | Some d => parse_digits r (Some (10 * default 0 acc + d))
      | None => acc
      end
  end.

(** [parseInt(s, 10)] : [None] is [NaN].  Leading white space, an optional
    sign, then the longest run of digits; what follows is ignored. *)
Definition parseInt (s : string) : option Z :=
  match skip_white_space s with
  | String "-"%char r => Z.opp <$> parse_digits r None
  | String "+"%char r => parse_digits r None
  | r => parse_digits r None
  end.

(** [s.split(sep)] for a separator that is not empty : [s] is cut at every
    occurrence of [sep], found from left to right.  [skip] counts the code
    units of a separator still to pass over, [cur] is the piece being read. *)
Fixpoint split_go (sep : string) (skip : nat) (cur s : string) : list string :=
  match s with
  | EmptyString => [cur]
  | String c r =>
      match skip with
      | S k => split_go sep k cur r
      | O =>
          if String.prefix sep s
          then cur :: split_go sep (String.length sep - 1) EmptyString r
          else split_go sep O (String.append cur (String c EmptyString)) r
      end
  end.

Definition split (sep s : string) : list string := split_go sep 0 EmptyString s.

(** [lines.join(sep)] *)
Fixpoint join (sep : string) (l : list string) : string :=
  match l with
  | [] => EmptyString
  | [x] => x
  | x :: r => String.append x (String.append sep (join sep r))
  end.

(** ** Host objects *)

Definition TextDocument := positive.
Definition TextEditor := positive.

Record Uri := mkUri {
  scheme : string;
  authority : string;
  path : string;
}.

(** [vscode.Range], lines only. *)
Record Range := mkRange {
  start_line : Z;
  end_line : Z;
}.

Inductive EndOfLine := LF | CRLF.

Inductive TextEditorLineNumbersStyle := Off | On | Relative.

Record TextEditorOptions := mkOptions {
  insertSpaces : bool;
  tabSize : Z;
  lineNumbers : TextEditorLineNumbersStyle;
}.

Record TextDocumentData := mkDoc {
  uri : Uri;
  uri_toString : string;        (* document.uri.toString() *)
  isClosed : bool;
  eol : EndOfLine;
  getText : string;
}.

(** [document.eol === EndOfLine.LF ? "\n" : "\r\n"] *)
Definition eol_string (e : EndOfLine) : string :=
  match e with
  | LF => String (Ascii.ascii_of_nat 10) EmptyString
  | CRLF => String (Ascii.ascii_of_nat 13)
              (String (Ascii.ascii_of_nat 10) EmptyString)
  end.

Record TextEditorData := mkEditor {
  document : TextDocument;
  viewColumn : option Z;
  visibleRanges : list Range;
  selection_active_line : Z;
  options : TextEditorOptions;
}.

(** What [workspace.openTextDocument] is called with. *)
Inductive OpenTarget :=
| OpenUri (u : Uri)
| OpenParsed (s : string).       (* Uri.parse(s, true) *)

(** The objects behind the references, and what the extension host answers
    when the code reads [window] and [workspace] or awaits one of their
    calls ([None] : the returned promise rejects). *)
Record Host := mkHost {
  documents : TextDocument -> TextDocumentData;
  editors : TextEditor -> TextEditorData;
  visibleTextEditors : list TextEditor;
  activeTextEditor : option TextEditor;
  textDocuments : list TextDocument;
  openTextDocument : OpenTarget -> option TextDocument;
  showTextDocument : TextDocument -> option TextEditor;
}.

(** What the backend answers. *)
Record Backend := mkBackend {
  buffers : list (Z * list string);          (* client.buffers: id, lines *)
  windows : list (Z * Z);                    (* client.windows: id, buffer id *)
  nvim_set_current_win : Z -> option string; (* [Some msg] : rejects *)
}.

(** ** Effects of the managers, in program order *)

Inductive RpcArg :=
| AInt (n : Z)
| AStr (s : string)
| ABool (b : bool)
| AInts (l : list Z)
| AStrs (l : list string).

Inductive ClientCall :=
| Lua (code : string) (args : list RpcArg)
| ExecuteLua (code : string) (args : list RpcArg)
| Request (method : string) (args : list RpcArg)
| CallAtomic (requests : list (string * list RpcArg))
| CallFunction (fname : string) (args : list RpcArg)
| BufListen (bufId : Z) (event : string)
| BufAttach (bufId : Z) (sendBuffer : bool).

Inductive LogMsg :=
| UnableToDetermineWindow (editor : TextEditor)
| ErrorMessage (msg : string).

Inductive TimerTask :=
| AdjustCursor (closeWinId bufId : Z) (doc : TextDocument) (editor : TextEditor)
| CloseWindow (closeWinId bufId : Z).

Inductive Effect :=
| Client (c : ClientCall)
| LoggerError (m : LogMsg)
| PromiseResolve (p : nat)                       (* ManualPromise.resolve() *)
| OpenTextDocument (target : OpenTarget)
| ShowTextDocument (doc : TextDocument) (viewColumn : option Z) (preview : bool)
| SetEditorOptions (editor : TextEditor) (insertSpaces : bool) (tabSize : Z)
| OnBufferInit (bufId : Z) (doc : TextDocument)
| UpdateNeovimCursorPosition (editor : TextEditor)
| SetTimeout (ms : Z) (task : TimerTask).

(** ** State, effects and exceptions threaded through a method *)

Inductive Completion (A : Type) :=
| Returned (a : A)
| Threw.
Arguments Returned {A} a.
Arguments Threw {A}.

Definition M (S A : Type) : Type := S -> Completion A * S * list Effect.

Definition ret {S A} (a : A) : M S A := fun s => (Returned a, s, []).

Definition bind {S A B} (m : M S A) (k : A -> M S B) : M S B :=
  fun s =>
    match m s with
    | (Returned a, s1, t1) =>
        let '(r, s2, t2) := k a s1 in (r, s2, t1 ++ t2)
    | (Threw, s1, t1) => (Threw, s1, t1)
    end.

Definition get_state {S} : M S S := fun s => (Returned s, s, []).
Definition modify {S} (f : S -> S) : M S unit := fun s => (Returned tt, f s, []).
Definition emit {S} (e : Effect) : M S unit := fun s => (Returned tt, s, [e]).
Definition throw {S A} : M S A := fun s => (Threw, s, []).

(** [try { m } catch { h }] *)
Definition try_catch {S A} (m : M S A) (h : M S A) : M S A :=
  fun s =>
    match m s with
    | (Returned a, s1, t1) => (Returned a, s1, t1)
    | (Threw, s1, t1) => let '(r, s2, t2) := h s1 in (r, s2, t1 ++ t2)
    end.

(** [if (c) m] *)
Definition when {S} (c : bool) (m : M S unit) : M S unit :=
  if c then m else ret tt.

Notation "'let*' x ':=' m 'in' k" := (bind m (fun x => k))
  (at level 10, x pattern, m at level 100, k at level 200).
Notation "m ';;;' k" := (bind m (fun _ => k))
  (at level 100, k at level 200, right associativity).

(** ** Redraw batches carried by the event bus ([EventBusData<"redraw">]) *)

Record WinPosArgs := mkWinPos {
  wp_grid : Z; wp_win : Z;
  wp_start_row : Z; wp_start_col : Z; wp_width : Z; wp_height : Z;
}.

Record WinViewportArgs := mkWinViewport {
  wv_grid : Z; wv_win : Z;
  wv_topline : Z; wv_botline : Z; wv_curline : Z; wv_curcol : Z;
  wv_line_count : Z; wv_scroll_delta : Z;
}.

Inductive RedrawEvent :=
| win_close (args : list Z)
| win_external_pos (args : list (Z * Z))
| win_pos (args : list WinPosArgs)
| win_viewport (args : list WinViewportArgs)
| grid_destroy (args : list Z)
| other_redraw (name : string).

(** ** Layout reconciler ([BufferManager]) *)

Module BufferManager.

Definition BUFFER_NAME_PREFIX : string := "__vscode_neovim__-".
Definition BUFFER_SCHEME : string := "vscode-neovim".

Record TabConfiguration := mkTab {
  tc_tabSize : Z;
  tc_insertSpaces : bool;
}.

(** The fields of the class.  A [ManualPromise] and a
    [CancellationTokenSource] are references: [new] takes the next index,
    [cancelled] holds the sources on which [cancel()] was called. *)
Record t := mk {
  syncLayoutPromise : option nat;
  syncLayoutCancelTokenSource : nat;
  syncActiveEditorPromise : option nat;
  externalTextDocuments : gset TextDocument;
  textDocumentToBufferId : list (TextDocument * Z);
  textEditorToWinId : list (TextEditor * Z);
  winIdToEditor : gmap Z TextEditor;
  grids : list (Z * Z);                       (* grid -> { winId } *)
  editorTabConfiguration : gmap TextEditor TabConfiguration;
  onBufferInit : bool;                        (* is the delegate set *)
  next_promise : nat;
  next_token : nat;
  cancelled : gset nat;
}.

(** The manager as the constructor leaves it. *)
Definition init : t :=
  mk None 0%nat None ∅ [] [] ∅ [] ∅ false 0%nat 1%nat ∅.

Definition set_syncLayoutPromise (v : option nat) (b : t) : t :=
  mk v (syncLayoutCancelTokenSource b) (syncActiveEditorPromise b)
     (externalTextDocuments b) (textDocumentToBufferId b) (textEditorToWinId b)
     (winIdToEditor b) (grids b) (editorTabConfiguration b) (onBufferInit b)
     (next_promise b) (next_token b) (cancelled b).

Definition set_syncLayoutCancelTokenSource (v : nat) (b : t) : t :=
  mk (syncLayoutPromise b) v (syncActiveEditorPromise b)
     (externalTextDocuments b) (textDocumentToBufferId b) (textEditorToWinId b)
     (winIdToEditor b) (grids b) (editorTabConfiguration b) (onBufferInit b)
     (next_promise b) (next_token b) (cancelled b).

Definition set_syncActiveEditorPromise (v : option nat) (b : t) : t :=
  mk (syncLayoutPromise b) (syncLayoutCancelTokenSource b) v
     (externalTextDocuments b) (textDocumentToBufferId b) (textEditorToWinId b)
     (winIdToEditor b) (grids b) (editorTabConfiguration b) (onBufferInit b)
     (next_promise b) (next_token b) (cancelled b).

Definition set_externalTextDocuments (v : gset TextDocument) (b : t) : t :=
  mk (syncLayoutPromise b) (syncLayoutCancelTokenSource b)
     (syncActiveEditorPromise b) v (textDocumentToBufferId b)
     (textEditorToWinId b) (winIdToEditor b) (grids b)
     (editorTabConfiguration b) (onBufferInit b)
     (next_promise b) (next_token b) (cancelled b).

Definition set_textDocumentToBufferId (v : list (TextDocument * Z)) (b : t) : t :=
  mk (syncLayoutPromise b) (syncLayoutCancelTokenSource b)
     (syncActiveEditorPromise b) (externalTextDocuments b) v
     (textEditorToWinId b) (winIdToEditor b) (grids b)
     (editorTabConfiguration b) (onBufferInit b)
     (next_promise b) (next_token b) (cancelled b).

Definition set_textEditorToWinId (v : list (TextEditor * Z)) (b : t) : t :=
  mk (syncLayoutPromise b) (syncLayoutCancelTokenSource b)
     (syncActiveEditorPromise b) (externalTextDocuments b)
     (textDocumentToBufferId b) v (winIdToEditor b) (grids b)
     (editorTabConfiguration b) (onBufferInit b)
     (next_promise b) (next_token b) (cancelled b).

Definition set_winIdToEditor (v : gmap Z TextEditor) (b : t) : t :=
  mk (syncLayoutPromise b) (syncLayoutCancelTokenSource b)
     (syncActiveEditorPromise b) (externalTextDocuments b)
     (textDocumentToBufferId b) (textEditorToWinId b) v (grids b)
     (editorTabConfiguration b) (onBufferInit b)
     (next_promise b) (next_token b) (cancelled b).

Definition set_grids (v : list (Z * Z)) (b : t) : t :=
  mk (syncLayoutPromise b) (syncLayoutCancelTokenSource b)
     (syncActiveEditorPromise b) (externalTextDocuments b)
     (textDocumentToBufferId b) (textEditorToWinId b) (winIdToEditor b) v
     (editorTabConfiguration b) (onBufferInit b)
     (next_promise b) (next_token b) (cancelled b).

Definition set_editorTabConfiguration (v : gmap TextEditor TabConfiguration)
    (b : t) : t :=
  mk (syncLayoutPromise b) (syncLayoutCancelTokenSource b)
     (syncActiveEditorPromise b) (externalTextDocuments b)
     (textDocumentToBufferId b) (textEditorToWinId b) (winIdToEditor b)
     (grids b) v (onBufferInit b)
     (next_promise b) (next_token b) (cancelled b).

Definition set_next_promise (v : nat) (b : t) : t :=
  mk (syncLayoutPromise b) (syncLayoutCancelTokenSource b)
     (syncActiveEditorPromise b) (externalTextDocuments b)
     (textDocumentToBufferId b) (textEditorToWinId b) (winIdToEditor b)
     (grids b) (editorTabConfiguration b) (onBufferInit b)
     v (next_token b) (cancelled b).

Definition set_next_token (v : nat) (b : t) : t :=
  mk (syncLayoutPromise b) (syncLayoutCancelTokenSource b)
     (syncActiveEditorPromise b) (externalTextDocuments b)
     (textDocumentToBufferId b) (textEditorToWinId b) (winIdToEditor b)
     (grids b) (editorTabConfiguration b) (onBufferInit b)
     (next_promise b) v (cancelled b).

Definition set_cancelled (v : gset nat) (b : t) : t :=
  mk (syncLayoutPromise b) (syncLayoutCancelTokenSource b)
     (syncActiveEditorPromise b) (externalTextDocuments b)
     (textDocumentToBufferId b) (textEditorToWinId b) (winIdToEditor b)
     (grids b) (editorTabConfiguration b) (onBufferInit b)
     (next_promise b) (next_token b) v.

(** *** Accessors *)

Definition getTextDocumentForBufferId (h : Host) (b : t) (id : Z)
  : option TextDocument :=
  match JsMap.find (fun '(_, bufId) => bool_decide (id = bufId))
          (textDocumentToBufferId b) with
  | Some (doc, _) => if isClosed (documents h doc) then None else Some doc
  | None => None
  end.

Definition getBufferIdForTextDocument (b : t) (doc : TextDocument) : option Z :=
  JsMap.get (textDocumentToBufferId b) doc.

(** [[...this.grids].reverse().find(...)] : the entry found first from the
    end of the insertion order. *)
Definition getGridIdForWinId (b : t) (winId : Z) : option Z :=
  match JsMap.find (fun '(_, w) => bool_decide (w = winId)) (rev (grids b)) with
  | Some (g, _) => Some g
  | None => None
  end.

Definition getWinIdForGridId (b : t) (gridId : Z) : option Z :=
  JsMap.get (grids b) gridId.

Definition getWinIdForTextEditor (b : t) (editor : TextEditor) : option Z :=
  JsMap.get (textEditorToWinId b) editor.

Definition getEditorFromWinId (b : t) (winId : Z) : option TextEditor :=
  match JsMap.find (fun '(_, id) => bool_decide (id = winId))
          (textEditorToWinId b) with
  | Some (e, _) => Some e
  | None => winIdToEditor b !! winId
  end.

(** [getWinIdForTextEditor(editor) || 0] : [undefined] and [0] give [0]. *)
Definition getGridIdFromEditor (b : t) (editor : TextEditor) : option Z :=
  getGridIdForWinId b (default 0 (getWinIdForTextEditor b editor)).

Definition getEditorFromGridId (b : t) (gridId : Z) : option TextEditor :=
  match getWinIdForGridId b gridId with
  | None => None
  | Some winId =>
      if bool_decide (winId = 0) then None else getEditorFromWinId b winId
  end.

Definition isExternalTextDocument (h : Host) (b : t) (textDoc : TextDocument)
  : bool :=
  if bool_decide (scheme (uri (documents h textDoc)) = "output") then false
  else bool_decide (textDoc ∈ externalTextDocuments b).

(** *** Redraw handler : the grid -> window table *)

Definition handleRedraw_event (b : t) (ev : RedrawEvent) : t :=
  match ev with
  | win_external_pos args =>
      fold_left (fun b '(grid, win) => set_grids (JsMap.set (grids b) grid win) b)
        args b
  | win_pos args =>
      fold_left (fun b a =>
                   set_grids (JsMap.set (grids b) (wp_grid a) (wp_win a)) b)
        args b
  | win_close args =>
      fold_left (fun b grid => set_grids (JsMap.delete (grids b) grid) b) args b
  | _ => b
  end.

Definition handleRedraw (data : list RedrawEvent) (b : t) : t :=
  fold_left handleRedraw_event data b.

(** *** Names and URIs *)

Definition isVscodeUriName (name : string) : bool :=
  if includes "://" name then true
  else if startsWith name "output:"
          || startsWith name (String.append BUFFER_NAME_PREFIX "output:")
  then true
  else if startsWith name "/search-editor:"
          || startsWith name (String.append BUFFER_NAME_PREFIX "/search-editor:")
  then true
  else false.

Definition findDocFromUri (h : Host) (uri0 : string) : option TextDocument :=
  let uri1 := if startsWith uri0 "/search-editor" then substring_from 1 uri0
              else uri0 in
  List.find (fun d => bool_decide (uri_toString (documents h d) = uri1))
    (textDocuments h).

(** [Uri.file(name).with({ scheme, authority: id.toString() })]; the slash
    conversion that [Uri.file] applies to the path is not modelled. *)
Definition buildExternalBufferUri (name : string) (id : Z) : Uri :=
  mkUri BUFFER_SCHEME (pretty id) name.

(** *** Buffer initialisation *)

Definition tabOptions (bufId : Z) (insertSpaces : bool) (tabSize : Z)
  : list (string * list RpcArg) :=
  [ ("nvim_buf_set_option", [AInt bufId; AStr "expandtab"; ABool insertSpaces]);
    ("nvim_buf_set_option", [AInt bufId; AStr "tabstop"; AInt tabSize]);
    ("nvim_buf_set_option", [AInt bufId; AStr "shiftwidth"; AInt tabSize]) ].

(** The first atomic batch of [initBufferForDocument]. *)
Definition initRequests (h : Host) (b : t) (document : TextDocument)
    (bufId : Z) (editor : option TextEditor) : list (string * list RpcArg) :=
  let opts := (fun e => options (editors h e)) <$> editor in
  let insertSpaces := from_option insertSpaces true opts in
  let tabSize := from_option tabSize 4 opts in
  let number :=
    match opts with
    | Some o => match lineNumbers o with Off => false | _ => true end
    | None => true
    end in
  let relativeNumber :=
    match opts with
    | Some o => match lineNumbers o with Relative => true | _ => false end
    | None => false
    end in
  [ ("nvim_buf_set_lines",
      [AInt bufId; AInt 0; AInt (-1); ABool false;
       AStrs (split (eol_string (eol (documents h document)))
                (getText (documents h document)))]);
    ("nvim_buf_set_var", [AInt bufId; AStr "vscode_controlled"; ABool true]);
    ("nvim_buf_set_var", [AInt bufId; AStr "vscode_number"; ABool number]);
    ("nvim_buf_set_var",
      [AInt bufId; AStr "vscode_relativenumber"; ABool relativeNumber]);
    ("nvim_buf_set_name",
      [AInt bufId;
       AStr (String.append BUFFER_NAME_PREFIX (uri_toString (documents h document)))]);
    ("nvim_buf_set_option",
      [AInt bufId; AStr "modifiable";
       ABool (negb (isExternalTextDocument h b document))]);
    ("nvim_buf_set_option", [AInt bufId; AStr "buftype"; AStr "nofile"]);
    ("nvim_buf_set_option", [AInt bufId; AStr "buflisted"; ABool true]) ]
  ++ tabOptions bufId insertSpaces tabSize.

Definition initBufferForDocument (h : Host) (document : TextDocument)
    (bufId : Z) (editor : option TextEditor) : M t unit :=
  let opts := (fun e => options (editors h e)) <$> editor in
  let insertSpaces := from_option insertSpaces true opts in
  let tabSize := from_option tabSize 4 opts in
  match editor with
  | Some e =>
      modify (fun b => set_editorTabConfiguration
                         (<[e := mkTab tabSize insertSpaces]>
                            (editorTabConfiguration b)) b)
  | None => ret tt
  end ;;;
  let* b := get_state in
  emit (Client (CallAtomic (initRequests h b document bufId editor))) ;;;
  emit (Client (CallAtomic (tabOptions bufId insertSpaces tabSize))) ;;;
  let* b := get_state in
  when (negb (isExternalTextDocument h b document))
    (emit (Client (CallFunction "VSCodeClearUndo" [AInt bufId]))) ;;;
  when (onBufferInit b) (emit (OnBufferInit bufId document)) ;;;
  emit (Client (BufListen bufId "lines")).

Definition resyncBufferTabOptions (h : Host) (editor : TextEditor) (bufId : Z)
  : M t unit :=
  let o := options (editors h editor) in
  emit (Client (CallAtomic (tabOptions bufId (insertSpaces o) (tabSize o)))).

(** *** External buffers *)

(** The window found last that shows buffer [id] and is not known to
    [winIdToEditor]; [0] when there is none. *)
Definition findCloseWinId (b : t) (be : Backend) (id : Z) : Z :=
  fold_left
    (fun closeWinId '(winId, bufId) =>
       if bool_decide (bufId = id)
          && negb (bool_decide (is_Some (winIdToEditor b !! winId)))
       then winId else closeWinId)
    (windows be) 0.

Definition attachNeovimExternalBuffer (h : Host) (be : Backend)
    (name : string) (id : Z) (expandTab : bool) (tabStop : Z) : M t unit :=
  let uri := buildExternalBufferUri name id in
  emit (OpenTextDocument (OpenUri uri)) ;;;
  match openTextDocument h (OpenUri uri) with
  | None => ret tt
  | Some doc =>
      modify (fun b => set_externalTextDocuments
                         ({[doc]} ∪ externalTextDocuments b) b) ;;;
      modify (fun b => set_textDocumentToBufferId
                         (JsMap.set (textDocumentToBufferId b) doc id) b) ;;;
      let* b := get_state in
      when (onBufferInit b) (emit (OnBufferInit id doc)) ;;;
      let closeWinId := findCloseWinId b be id in
      emit (ShowTextDocument doc (Some (-1)) true) ;;;
      match showTextDocument h doc with
      | None => throw
      | Some editor =>
          modify (fun b => set_editorTabConfiguration
                             (<[editor := mkTab tabStop expandTab]>
                                (editorTabConfiguration b)) b) ;;;
          emit (SetEditorOptions editor expandTab tabStop) ;;;
          when (negb (bool_decide (closeWinId = 0)))
            (emit (SetTimeout 1000 (AdjustCursor closeWinId id doc editor)) ;;;
             emit (SetTimeout 5000 (CloseWindow closeWinId id)))
      end
  end.

(** The branch of "external-buffer" taken for a host-owned URI name; the
    whole of it is inside [try { } catch { }]. *)
Definition showHostDocument (h : Host) (be : Backend) (name : string) (id : Z)
  : M t unit :=
  let normalizedName :=
    if startsWith name BUFFER_NAME_PREFIX then substring_from 18 name
    else name in
  try_catch
    (let* doc :=
       match findDocFromUri h normalizedName with
       | Some doc => ret doc
       | None =>
           emit (OpenTextDocument (OpenParsed normalizedName)) ;;;
           match openTextDocument h (OpenParsed normalizedName) with
           | Some doc => ret doc
           | None => throw
           end
       end in
     let* b := get_state in
     let* forceTabOptions :=
       if JsMap.has (textDocumentToBufferId b) doc then ret false
       else
         let* found :=
           match List.find (fun '(bid, _) => bool_decide (bid = id))
                   (buffers be) with
           | Some _ => initBufferForDocument h doc id None ;;; ret true
           | None => ret false
           end in
         modify (fun b => set_textDocumentToBufferId
                            (JsMap.set (textDocumentToBufferId b) doc id) b) ;;;
         ret found in
     if bool_decide ((fun e => document (editors h e)) <$> activeTextEditor h
                     = Some doc)
     then ret tt
     else
       let column :=
         match activeTextEditor h with
         | Some e => viewColumn (editors h e)
         | None => Some (-1)
         end in
       emit (ShowTextDocument doc column false) ;;;
       match showTextDocument h doc with
       | None => throw
       | Some editor =>
           let o := options (editors h editor) in
           modify (fun b => set_editorTabConfiguration
                              (<[editor := mkTab (tabSize o) (insertSpaces o)]>
                                 (editorTabConfiguration b)) b) ;;;
           when forceTabOptions (resyncBufferTabOptions h editor id)
       end)
    (ret tt).

(** [handleExtensionRequest], case "external-buffer", with
    [args = [name, idStr, expandTab, tabStop]].  Defined for the requests
    whose [idStr] parses to a number, which is what the backend sends
    (a buffer number); [None] stands for [parseInt] giving [NaN] where the
    id is used. *)
Definition handleExtensionRequest_external_buffer (h : Host) (be : Backend)
    (name idStr : string) (expandTab tabStop : Z) : option (M t unit) :=
  if startsWith name (String.append BUFFER_NAME_PREFIX "output:")
  then Some (ret tt)
  else
    id ← parseInt idStr;
    Some
      (if negb (negb (bool_decide (name = "")) && isVscodeUriName name) then
         if bool_decide (id = 1) then ret tt
         else attachNeovimExternalBuffer h be name id
                (negb (bool_decide (expandTab = 0))) tabStop
       else if negb (bool_decide (name = "")) then showHostDocument h be name id
       else ret tt).

(** *** Full layout sync *)

(** [new ManualPromise()] stored in [syncLayoutPromise] when there is none. *)
Definition ensureSyncLayoutPromise : M t unit :=
  let* b := get_state in
  match syncLayoutPromise b with
  | Some _ => ret tt
  | None =>
      modify (fun b => set_next_promise (S (next_promise b))
                         (set_syncLayoutPromise (Some (next_promise b)) b))
  end.

(** [onDidChangeVisibleTextEditors]; the result is the token handed to
    [syncLayoutDebounced]. *)
Definition onDidChangeVisibleTextEditors : M t nat :=
  ensureSyncLayoutPromise ;;;
  modify (fun b => set_cancelled
                     ({[syncLayoutCancelTokenSource b]} ∪ cancelled b) b) ;;;
  modify (fun b => set_next_token (S (next_token b))
                     (set_syncLayoutCancelTokenSource (next_token b) b)) ;;;
  let* b := get_state in
  ret (syncLayoutCancelTokenSource b).

(** [forceResync] up to its first [await]; the result is the token handed
    to [syncLayoutDebounced]. *)
Definition forceResync : M t nat :=
  ensureSyncLayoutPromise ;;;
  let* b := get_state in
  ret (syncLayoutCancelTokenSource b).

(** [currentVisibleEditors.includes(editor)] *)
Definition includes_editor (l : list TextEditor) (e : TextEditor) : bool :=
  existsb (fun e' => bool_decide (e' = e)) l.

(** One turn of the [forEach] over a copy of the [textEditorToWinId]
    entries. *)
Definition closeWindow_step (currentVisibleEditors : list TextEditor)
    (acc : t * list Z) (entry : TextEditor * Z) : t * list Z :=
  let '(b, unusedWindows) := acc in
  let '(editor, winId) := entry in
  if negb (includes_editor currentVisibleEditors editor) then
    (set_winIdToEditor (base.delete winId (winIdToEditor b))
       (set_textEditorToWinId (JsMap.delete (textEditorToWinId b) editor) b),
     unusedWindows ++ [winId])
  else acc.

(** [currentVisibleEditors.some((editor) => editor.document === document)] *)
Definition shown_in (h : Host) (currentVisibleEditors : list TextEditor)
    (doc : TextDocument) : bool :=
  existsb (fun e => bool_decide (document (editors h e) = doc))
    currentVisibleEditors.

(** One turn of the [forEach] over a copy of the [textDocumentToBufferId]
    entries. *)
Definition deleteBuffer_step (h : Host) (currentVisibleEditors : list TextEditor)
    (acc : t * list Z) (entry : TextDocument * Z) : t * list Z :=
  let '(b, unusedBuffers) := acc in
  let '(doc, bufId) := entry in
  if negb (shown_in h currentVisibleEditors doc) && isClosed (documents h doc)
  then
    (set_textDocumentToBufferId (JsMap.delete (textDocumentToBufferId b) doc) b,
     unusedBuffers ++ [bufId])
  else acc.

(** "Clean up windows and buffers", the synchronous part: the two [forEach]
    loops.  The result is [(unusedWindows, unusedBuffers)]. *)
Definition syncLayout_collect (h : Host) (currentVisibleEditors : list TextEditor)
  : M t (list Z * list Z) :=
  let* b := get_state in
  let '(b1, unusedWindows) :=
    fold_left (closeWindow_step currentVisibleEditors)
      (textEditorToWinId b) (b, []) in
  let '(b2, unusedBuffers) :=
    fold_left (deleteBuffer_step h currentVisibleEditors)
      (textDocumentToBufferId b1) (b1, []) in
  modify (fun _ => b2) ;;;
  ret (unusedWindows, unusedBuffers).

(** The two bulk calls that follow. *)
Definition syncLayout_bulk (unusedWindows unusedBuffers : list Z) : M t unit :=
  when (negb (bool_decide (unusedBuffers = [])))
    (emit (Client (ExecuteLua "require'vscode-neovim.api'.delete_buffers(...)"
                     [AInts unusedBuffers]))) ;;;
  when (negb (bool_decide (unusedWindows = [])))
    (emit (Client (ExecuteLua "require'vscode-neovim.api'.close_windows(...)"
                     [AInts unusedWindows]))).

Definition syncLayout_cleanup (h : Host) (currentVisibleEditors : list TextEditor)
  : M t unit :=
  let* unused := syncLayout_collect h currentVisibleEditors in
  syncLayout_bulk (fst unused) (snd unused).

(** The end of [syncLayout] : the check of the run's own token, then
    [syncLayoutPromise?.resolve()] and the reset of the field. *)
Definition syncLayout_checkpoint (cancelToken : nat) : M t unit :=
  let* b := get_state in
  if bool_decide (cancelToken ∈ cancelled b) then ret tt
  else
    match syncLayoutPromise b with
    | Some p => emit (PromiseResolve p)
    | None => ret tt
    end ;;;
    modify (set_syncLayoutPromise None).

(** *** Active editor sync *)

Definition onDidChangeActiveTextEditor : M t unit :=
  let* b := get_state in
  match syncActiveEditorPromise b with
  | Some _ => ret tt
  | None =>
      modify (fun b => set_next_promise (S (next_promise b))
                         (set_syncActiveEditorPromise (Some (next_promise b)) b))
  end.

(** The local [finish] of [syncActiveEditor]. *)
Definition finish : M t unit :=
  let* b := get_state in
  match syncActiveEditorPromise b with
  | Some p => emit (PromiseResolve p)
  | None => ret tt
  end ;;;
  modify (set_syncActiveEditorPromise None).

(** [syncActiveEditor] from the point where [await this.waitForLayoutSync()]
    has returned.  [!winId] holds for [undefined] and for [0]. *)
Definition syncActiveEditor (h : Host) (be : Backend) : M t unit :=
  match activeTextEditor h with
  | None => finish
  | Some activeEditor =>
      let* b := get_state in
      match JsMap.get (textEditorToWinId b) activeEditor with
      | None => emit (LoggerError (UnableToDetermineWindow activeEditor)) ;;; finish
      | Some winId =>
          if bool_decide (winId = 0) then
            emit (LoggerError (UnableToDetermineWindow activeEditor)) ;;; finish
          else
            emit (UpdateNeovimCursorPosition activeEditor) ;;;
            emit (Client (Request "nvim_set_current_win" [AInt winId])) ;;;
            match nvim_set_current_win be winId with
            | Some msg => emit (LoggerError (ErrorMessage msg))
            | None => ret tt
            end ;;;
            finish
      end
  end.

End BufferManager.

(** ** Viewport tracker ([ViewportManager]) *)

Module ViewportManager.

(** All fields 0-indexed. *)
Record Viewport := mkViewport {
  line : Z;
  col : Z;
  topline : Z;
  botline : Z;
  leftcol : Z;
  skipcol : Z;
}.

(** [new Viewport()] *)
Definition new_Viewport : Viewport := mkViewport 0 0 0 0 0 0.

(** The [saveView] dictionary of a "window-scroll" request. *)
Record SaveView := mkSaveView {
  sv_lnum : Z;
  sv_col : Z;
  sv_coladd : Z;
  sv_curswant : Z;
  sv_topline : Z;
  sv_topfill : Z;
  sv_leftcol : Z;
  sv_skipcol : Z;
}.

(** [gridViewport], indexed by grid; only read and written by key. *)
Abbreviation GridViewport := (gmap Z Viewport).

(** [getViewport] : the entry is created on first reference. *)
Definition getViewport (gridId : Z) (gv : GridViewport)
  : Viewport * GridViewport :=
  match gv !! gridId with
  | Some view => (view, gv)
  | None => (new_Viewport, <[gridId := new_Viewport]> gv)
  end.

(** [handleExtensionRequest] with [args = [winId, saveView]]; only
    "window-scroll" is handled.  [!gridId] holds for [undefined] and [0]. *)
Definition handleExtensionRequest (bm : BufferManager.t) (name : string)
    (winId : Z) (saveView : SaveView) (gv : GridViewport) : GridViewport :=
  if bool_decide (name = "window-scroll") then
    match BufferManager.getGridIdForWinId bm winId with
    | None => gv
    | Some gridId =>
        if bool_decide (gridId = 0) then gv
        else
          let '(view, gv1) := getViewport gridId gv in
          <[gridId := mkViewport (line view) (col view) (topline view)
                        (botline view) (sv_leftcol saveView)
                        (sv_skipcol saveView)]> gv1
    end
  else gv.

Definition handleRedraw_event (gv : GridViewport) (ev : RedrawEvent)
  : GridViewport :=
  match ev with
  | win_viewport args =>
      fold_left
        (fun gv a =>
           let '(view, gv1) := getViewport (wv_grid a) gv in
           <[wv_grid a := mkViewport (wv_curline a) (wv_curcol a) (wv_topline a)
                            (wv_botline a) (leftcol view) (skipcol view)]> gv1)
        args gv
  | grid_destroy args => fold_left (fun gv grid => base.delete grid gv) args gv
  | _ => gv
  end.

Definition handleRedraw (data : list RedrawEvent) (gv : GridViewport)
  : GridViewport :=
  fold_left handleRedraw_event data gv.

(** [scrollNeovim] : the calls made on [client].  [extend] is
    [config.neovimViewportHeightExtend], [isInsertMode] is read from the
    mode manager. *)
Definition scrollNeovim (h : Host) (extend : Z) (isInsertMode : bool)
    (bm : BufferManager.t) (gv : GridViewport) (editor : option TextEditor)
  : list ClientCall :=
  match editor with
  | None => []
  | Some e =>
      if isInsertMode then []
      else
        let ranges := visibleRanges (editors h e) in
        match ranges with
        | [] => []
        | r0 :: _ =>
            if end_line r0 - start_line r0 <=? 1 then []
            else
              let startLine := start_line r0 - extend in
              let endLine := end_line (List.last ranges r0)
                             + Z.of_nat (length ranges) + extend in
              let currentLine := selection_active_line (editors h e) in
              match BufferManager.getGridIdFromEditor bm e with
              | None => []
              | Some gridId =>
                  match gv !! gridId with
                  | None => []
                  | Some viewport =>
                      if negb (bool_decide (startLine = topline viewport))
                         && bool_decide (currentLine = line viewport)
                      then [Lua "require('vscode-neovim.api').scroll_viewport(...)"
                                [AInt (Z.max startLine 0); AInt endLine]]
                      else []
                  end
              end
        end
  end.

End ViewportManager.

(** ** Event bus ([eventBus.ts]) *)

Module EventBus.
Section Bus.
(** [Data] is the payload type of the events, [Handler] the identity of a
    handler function together with its [thisArg]. *)
Context {Data Handler : Type}.

Record Event := mkEvent {
  name : string;
  data : Data;
}.

(** A listener of the emitter is the closure built by [on] :
    [(e) => name === e.name && handler.call(thisArg, e.data)]. *)
Record Listener := mkListener {
  l_name : string;
  l_handler : Handler;
}.

(** The emitter : its listeners, in the order they were added; [next_id]
    names the disposable returned by the next registration. *)
Record t := mk {
  listeners : list (nat * Listener);
  next_id : nat;
}.

Definition empty : t := mk [] 0%nat.

(** A call of the closure : the handler calls it makes. *)
Definition call_listener (l : Listener) (e : Event) : list (Handler * Data) :=
  if bool_decide (l_name l = name e) then [(l_handler l, data e)] else [].

(** [emitter.fire(e)] : every listener is called, in registration order. *)
Definition emitter_fire (bus : t) (e : Event) : t * list (Handler * Data) :=
  (bus, flat_map (fun '(_, l) => call_listener l e) (listeners bus)).

(** [fire(name, data)] *)
Definition fire (bus : t) (n : string) (d : Data) : t * list (Handler * Data) :=
  emitter_fire bus (mkEvent n d).

(** [on(name, handler)] : the new bus and the id of the disposable. *)
Definition on (bus : t) (n : string) (handler : Handler) : t * nat :=
  (mk (listeners bus ++ [(next_id bus, mkListener n handler)]) (S (next_id bus)),
   next_id bus).

(** Disposal of the disposable returned by [on]. *)
Definition dispose_listener (bus : t) (id : nat) : t :=
  mk (List.filter (fun '(i, _) => negb (bool_decide (i = id))) (listeners bus))
     (next_id bus).

(** Is the registration [id] (still) on the bus, for this name and handler. *)
Definition registered (bus : t) (id : nat) (n : string) (handler : Handler)
  : Prop :=
  In (id, mkListener n handler) (listeners bus).
End Bus.
Arguments Event : clear implicits.
Arguments Listener : clear implicits.
Arguments t : clear implicits.
End EventBus.

(** ** Input routing ([TypingManager]) : typing and IME composition *)

Module TypingManager.
Section Typing.
(** A JS string is a sequence of UTF-16 code units; the handlers only
    concatenate and cut, so the code unit type is left open. *)
Context {CodeUnit : Type}.

(** [normalizeInputString] of [utils], which is not part of these sources. *)
Variable normalizeInputString : list CodeUnit -> bool -> list CodeUnit.

(** What is read from [main.modeManager]. *)
Record Mode := mkMode {
  isInsertMode : bool;
  isRecordingInInsertMode : bool;
}.

Record t := mk {
  typeHandlerDisposable : bool;             (* is the handler registered *)
  replacePrevCharHandlerDisposable : bool;
  isExitingInsertMode : bool;
  neovimEnable : bool;
  isEnteringInsertMode : bool;
  pendingKeysAfterExit : list CodeUnit;
  pendingKeysAfterEnter : list CodeUnit;
  isInComposition : bool;
  composingText : list CodeUnit;
}.

Definition init : t := mk true true false true false [] [] false [].

Inductive Sent :=
| Input (keys : list CodeUnit)              (* client.input(keys) *)
| DefaultType (text : list CodeUnit).       (* executeCommand("default:type") *)

(** [s.substring(0, e)] : [e] is clamped to [0 .. s.length]. *)
Definition substring0 (s : list CodeUnit) (e : Z) : list CodeUnit :=
  firstn (Z.to_nat (Z.min (Z.max e 0) (Z.of_nat (length s)))) s.

(** [onVSCodeType]; [blocking] is [(await this.client.mode).blocking]. *)
Definition onVSCodeType (m : Mode) (blocking : bool) (text : list CodeUnit)
    (st : t) : t * list Sent :=
  if isEnteringInsertMode st then
    (mk (typeHandlerDisposable st) (replacePrevCharHandlerDisposable st)
        (isExitingInsertMode st) (neovimEnable st) (isEnteringInsertMode st)
        (pendingKeysAfterExit st) (pendingKeysAfterEnter st ++ text)
        (isInComposition st) (composingText st), [])
  else if isExitingInsertMode st then
    (mk (typeHandlerDisposable st) (replacePrevCharHandlerDisposable st)
        (isExitingInsertMode st) (neovimEnable st) (isEnteringInsertMode st)
        (pendingKeysAfterExit st ++ text) (pendingKeysAfterEnter st)
        (isInComposition st) (composingText st), [])
  else if isInComposition st then
    (mk (typeHandlerDisposable st) (replacePrevCharHandlerDisposable st)
        (isExitingInsertMode st) (neovimEnable st) (isEnteringInsertMode st)
        (pendingKeysAfterExit st) (pendingKeysAfterEnter st)
        (isInComposition st) (composingText st ++ text), [])
  else if isInsertMode m && negb (isRecordingInInsertMode m) then
    if blocking then
      (st, [Input (normalizeInputString text (negb (isRecordingInInsertMode m)))])
    else
      (mk false false
          (isExitingInsertMode st) (neovimEnable st) (isEnteringInsertMode st)
          (pendingKeysAfterExit st) (pendingKeysAfterEnter st)
          (isInComposition st) (composingText st), [DefaultType text])
  else
    (st, [Input (normalizeInputString text (negb (isRecordingInInsertMode m)))]).

Definition onReplacePreviousChar (text : list CodeUnit) (replaceCharCnt : Z)
    (st : t) : t :=
  if isInComposition st then
    mk (typeHandlerDisposable st) (replacePrevCharHandlerDisposable st)
       (isExitingInsertMode st) (neovimEnable st) (isEnteringInsertMode st)
       (pendingKeysAfterExit st) (pendingKeysAfterEnter st)
       (isInComposition st)
       (substring0 (composingText st)
          (Z.of_nat (length (composingText st)) - replaceCharCnt) ++ text)
  else st.

Definition onCompositionStart (st : t) : t :=
  mk (typeHandlerDisposable st) (replacePrevCharHandlerDisposable st)
     (isExitingInsertMode st) (neovimEnable st) (isEnteringInsertMode st)
     (pendingKeysAfterExit st) (pendingKeysAfterEnter st)
     true (composingText st).

Definition onCompositionEnd (m : Mode) (st : t) : t * list Sent :=
  (mk (typeHandlerDisposable st) (replacePrevCharHandlerDisposable st)
      (isExitingInsertMode st) (neovimEnable st) (isEnteringInsertMode st)
      (pendingKeysAfterExit st) (pendingKeysAfterEnter st)
      false [],
   if negb (isInsertMode m) then
     [Input (normalizeInputString (composingText st)
               (negb (isRecordingInInsertMode m)))]
   else []).

(** What the host sends while a composition is going on. *)
Inductive CompositionInput :=
| Typed (m : Mode) (blocking : bool) (text : list CodeUnit)
| ReplacePrevious (text : list CodeUnit) (replaceCharCnt : Z).

Definition handle (acc : t * list Sent) (i : CompositionInput) : t * list Sent :=
  match i with
  | Typed m blocking text =>
      let '(st, sent) := onVSCodeType m blocking text (fst acc) in
      (st, snd acc ++ sent)
  | ReplacePrevious text cnt =>
      (onReplacePreviousChar text cnt (fst acc), snd acc)
  end.

(** The text a composition accumulates, said directly: typed text is
    appended, a replacement first drops the last [replaceCharCnt] units. *)
Definition composed (acc : list CodeUnit) (i : CompositionInput)
  : list CodeUnit :=
  match i with
  | Typed _ _ text => acc ++ text
  | ReplacePrevious text cnt =>
      firstn (length acc - Z.to_nat cnt) acc ++ text
  end.
End Typing.
Arguments t : clear implicits.
Arguments Sent : clear implicits.
Arguments CompositionInput : clear implicits.
End TypingManager.

(** ** Content provider for external buffers ([BufferProvider]) *)

Module BufferProvider.

Definition newline : string := String (Ascii.ascii_of_nat 10) EmptyString.

(** [buffers.find((b) => b.id === id)], where [id] may be [NaN]. *)
Definition find_buffer (be : Backend) (id : option Z)
  : option (Z * list string) :=
  List.find (fun '(bid, _) => bool_decide (Some bid = id)) (buffers be).

(** [provideTextDocumentContent(uri, token)] : [None] is [undefined];
    [isCancellationRequested] is the token as read after [client.buffers]
    was awaited. *)
Definition provideTextDocumentContent (be : Backend) (uri : Uri)
    (isCancellationRequested : bool) : option string * list ClientCall :=
  let id := parseInt (authority uri) in
  match find_buffer be id with
  | None => (None, [])
  | Some (bid, lines) =>
      if isCancellationRequested then (None, [])
      else
        match lines with
        | [] => (None, [])
        | l0 :: rest =>
            if bool_decide (rest = []) && bool_decide (l0 = "") then (None, [])
            else (Some (join newline lines),
                  [BufListen bid "lines"; BufAttach bid true])
        end
  end.

End BufferProvider.

(** ** The debounced full layout sync as a machine *)

Module LayoutSync.

(** [syncLayoutDebounced] is [debounce(syncLayout, 200, { leading: false,
    trailing: true })] : a call rearms the timer and replaces the pending
    arguments; when the timer elapses [syncLayout] starts with the arguments
    of the last call.  A started run is in flight, awaiting the backend and
    updating the mapping tables, until it reaches the token check at its
    end; a run that a rejected backend call would end before that check is
    not part of the machine. *)
Record World := mkWorld {
  manager : BufferManager.t;
  syncLayoutDebounced : option nat;      (* arguments of the pending call *)
  running : list nat;                    (* tokens of the runs in flight *)
  trace : list Effect;
}.

Definition init : World := mkWorld BufferManager.init None [] [].

Inductive Event :=
| VisibleTextEditorsChanged
| ForceResync
| DebounceElapsed
| RunReachesCheckpoint (cancelToken : nat).

Fixpoint remove_first (x : nat) (l : list nat) : list nat :=
  match l with
  | [] => []
  | y :: r => if bool_decide (y = x) then r else y :: remove_first x r
  end.

(** One event; [None] when the event cannot happen in this world. *)
Definition step (w : World) (e : Event) : option World :=
  match e with
  | VisibleTextEditorsChanged =>
      match BufferManager.onDidChangeVisibleTextEditors (manager w) with
      | (Returned token, b, t) =>
          Some (mkWorld b (Some token) (running w) (trace w ++ t))
      | (Threw, _, _) => None
      end
  | ForceResync =>
      match BufferManager.forceResync (manager w) with
      | (Returned token, b, t) =>
          Some (mkWorld b (Some token) (running w) (trace w ++ t))
      | (Threw, _, _) => None
      end
  | DebounceElapsed =>
      match syncLayoutDebounced w with
      | Some token =>
          Some (mkWorld (manager w) None (running w ++ [token]) (trace w))
      | None => None
      end
  | RunReachesCheckpoint token =>
      if bool_decide (token ∈ running w) then
        match BufferManager.syncLayout_checkpoint token (manager w) with
        | (Returned _, b, t) =>
            Some (mkWorld b (syncLayoutDebounced w)
                    (remove_first token (running w)) (trace w ++ t))
        | (Threw, _, _) => None
        end
      else None
  end.

Fixpoint exec (w : World) (evs : list Event) : option World :=
  match evs with
  | [] => Some w
  | e :: r => match step w e with Some w' => exec w' r | None => None end
  end.

(** How many times [resolve()] was called on promise [p]. *)
Definition resolutions (p : nat) (t : list Effect) : nat :=
  length (List.filter (fun e => match e with
                                | PromiseResolve q => bool_decide (q = p)
                                | _ => false
                                end) t).

(** What holds in every world the machine reaches.  [cur] is the token of
    the newest call; the tokens below it are the cancelled ones. *)
Record Inv (w : World) : Prop := mkInv {
  inv_next : BufferManager.next_token (manager w) = S (BufferManager.syncLayoutCancelTokenSource (manager w));
  inv_cancelled : forall t,
    t ∈ BufferManager.cancelled (manager w)
    <-> (t < BufferManager.syncLayoutCancelTokenSource (manager w))%nat;
  inv_pending : forall t,
    syncLayoutDebounced w = Some t -> t = BufferManager.syncLayoutCancelTokenSource (manager w);
  inv_running : forall t,
    In t (running w) -> (t <= BufferManager.syncLayoutCancelTokenSource (manager w))%nat;
  inv_outstanding : forall p,
    BufferManager.syncLayoutPromise (manager w) = Some p ->
    (p < BufferManager.next_promise (manager w))%nat
    /\ (syncLayoutDebounced w = Some (BufferManager.syncLayoutCancelTokenSource (manager w))
        \/ In (BufferManager.syncLayoutCancelTokenSource (manager w)) (running w));
  inv_resolved : forall p,
    resolutions p (trace w)
    = if bool_decide ((p < BufferManager.next_promise (manager w))%nat
                      /\ BufferManager.syncLayoutPromise (manager w) ≠ Some p)
      then 1%nat else 0%nat;
}.

End LayoutSync.

(** ** Concrete hosts, backends and managers used in the examples *)

Module Scenario.

(** One open document [file:///a.txt], no active editor; showing the
    document gives editor 1. *)
Definition host_file : Host :=
  mkHost (fun _ => mkDoc (mkUri "file" "" "/a.txt") "file:///a.txt" false LF
                     "hello")
         (fun _ => mkEditor 1%positive (Some 1) [] 0 (mkOptions true 4 On))
         [] None [1%positive]
         (fun _ => None) (fun _ => Some 1%positive).

Definition backend_empty : Backend := mkBackend [] [] (fun _ => None).

(** Document A (1) shown by editors 1 (column 1) and 2 (column 2); editor 1
    is the active one. *)
Definition host_two_columns : Host :=
  mkHost (fun _ => mkDoc (mkUri "file" "" "/A") "file:///A" false LF "a")
         (fun e => mkEditor 1%positive (Some (Z.pos e)) [mkRange 10 40] 20
                     (mkOptions true 4 On))
         [2%positive] (Some 1%positive) [1%positive]
         (fun _ => None) (fun _ => None).

(** Buffer 2 for document A, window 10 for editor 1, window 11 for editor 2;
    an active-editor sync is pending on promise 0. *)
Definition manager_two_columns : BufferManager.t :=
  BufferManager.mk None 1%nat (Some 0%nat) ∅
    [(1%positive, 2)] [(1%positive, 10); (2%positive, 11)]
    {[ 10 := 1%positive; 11 := 2%positive ]}
    [(4, 10); (5, 11)] ∅ false 1%nat 2%nat {[ 0%nat ]}.

(** The same documents and windows when editor 1 is not tracked. *)
Definition manager_desynchronized : BufferManager.t :=
  BufferManager.set_textEditorToWinId [(2%positive, 11)] manager_two_columns.

(** Three changes of the visible editors, the second run being overtaken by
    the third change. *)
Definition burst : list LayoutSync.Event :=
  [ LayoutSync.VisibleTextEditorsChanged;
    LayoutSync.VisibleTextEditorsChanged;
    LayoutSync.DebounceElapsed;
    LayoutSync.VisibleTextEditorsChanged;
    LayoutSync.RunReachesCheckpoint 2;
    LayoutSync.DebounceElapsed;
    LayoutSync.RunReachesCheckpoint 3 ].

(** The world after the burst : token 3 is the newest, promise 0 was
    resolved by its run. *)
Definition burst_world : LayoutSync.World :=
  LayoutSync.mkWorld
    (BufferManager.mk None 3%nat None ∅ [] [] ∅ [] ∅ false 1%nat 4%nat
       ({[ 2%nat ]} ∪ ({[ 1%nat ]} ∪ ({[ 0%nat ]} ∪ ∅))))
    None [] [PromiseResolve 0].

(** Code units as numbers; a normalisation that changes nothing. *)
Definition plain (s : list Z) (_ : bool) : list Z := s.

Definition normal_mode : TypingManager.Mode := TypingManager.mkMode false false.

Definition composition : list (TypingManager.CompositionInput Z) :=
  [ TypingManager.Typed normal_mode false [110];
    TypingManager.ReplacePrevious [110; 105] 1;
    TypingManager.ReplacePrevious [20320] 2 ].

(** An output channel shown as a document, present in the external set. *)
Definition host_output : Host :=
  mkHost (fun _ => mkDoc (mkUri "output" "" "/tasks") "output:tasks" false LF
                     "done")
         (fun _ => mkEditor 1%positive None [] 0 (mkOptions true 4 On))
         [] None [1%positive] (fun _ => None) (fun _ => None).

Definition manager_output : BufferManager.t :=
  BufferManager.set_externalTextDocuments {[ 1%positive ]} BufferManager.init.

(** Two backend buffers : [5] with two lines, [6] with one empty line. *)
Definition backend_help : Backend :=
  mkBackend [(5, ["a"; "b"]); (6, [""])] [] (fun _ => None).

(** A viewport for grid 4, the grid of window 10. *)
Definition viewports : gmap Z ViewportManager.Viewport :=
  {[ 4 := ViewportManager.mkViewport 20 3 5 45 0 0 ]}.

(** File A was shown by editor 1 as document 3, which is now closed; it is
    open again as document 1, shown by editor 2, the only visible editor. *)
Definition host_reopened : Host :=
  mkHost (fun d => mkDoc (mkUri "file" "" "/A") "file:///A"
                     (bool_decide (d = 3%positive)) LF "a")
         (fun e => mkEditor (if bool_decide (e = 1%positive) then 3%positive
                             else 1%positive)
                     (Some (Z.pos e)) [] 0 (mkOptions true 4 On))
         [2%positive] (Some 2%positive) [1%positive]
         (fun _ => None) (fun _ => None).

(** The backend still has buffer 2. *)
Definition backend_reopened : Backend :=
  mkBackend [(2, ["a"])] [] (fun _ => None).

(** Before the next layout sync : buffer 2 is still mapped to document 3,
    and window 10 to editor 1. *)
Definition manager_stale : BufferManager.t :=
  BufferManager.mk None 1%nat None ∅
    [(3%positive, 2)] [(1%positive, 10)] {[ 10 := 1%positive ]}
    [(4, 10)] ∅ false 0%nat 2%nat ∅.

(** Buffer 2 mapped to both documents, and window 11 for editor 2. *)
Definition manager_shared : BufferManager.t :=
  BufferManager.mk None 1%nat None ∅
    [(3%positive, 2); (1%positive, 2)] [(1%positive, 10); (2%positive, 11)]
    {[ 10 := 1%positive; 11 := 2%positive ]}
    [(4, 10); (5, 11)] ∅ false 0%nat 2%nat ∅.

End Scenario.

(** ** A whole run of [syncLayout] *)

Module SyncLayout.
Import BufferManager.

(** What the backend answers to the calls a run awaits.  [createBuffer]
    and [openWindow] resolve to an object or to an error code;
    [callAtomic] of [utils], which is not part of these sources, is handed
    the logger and may report a failed request through it; every awaited
    call may also reject, with the message of its [Error]. *)
Inductive CreateBufferAnswer :=
| BufferCreated (id : Z)
| BufferError (code : Z)
| BufferRejected (message : string).

Inductive OpenWindowAnswer :=
| WindowOpened (id : Z)
| WindowError (code : Z)
| WindowRejected (message : string).

Inductive CallAtomicAnswer :=
| AtomicDone
| AtomicLogged (message : string)
| AtomicRejected (message : string).

(** [setOption], [callFunction], [executeLua] *)
Inductive CallAnswer :=
| CallDone
| CallRejected (message : string).

(** The answers of one run, by the number of the awaited call. *)
Record Answers := mkAnswers {
  createBuffer : nat -> CreateBufferAnswer;
  openWindow : nat -> OpenWindowAnswer;
  callAtomic : nat -> CallAtomicAnswer;
  call : nat -> CallAnswer;
}.

(** The manager during a run, with the number of calls awaited so far. *)
Record Run := mkRun {
  manager : BufferManager.t;
  asked : nat;
}.

(** A method of the manager, inside a run. *)
Definition lift {A : Type} (m : M BufferManager.t A) : M Run A :=
  fun r =>
    let '(res, b, t) := m (manager r) in
    (res, mkRun b (asked r), t).

(** [for (const x of l) { f(x) }] : a turn that throws ends the loop. *)
Fixpoint forEach {S A : Type} (f : A -> M S unit) (l : list A) : M S unit :=
  match l with
  | [] => ret tt
  | x :: r => f x ;;; forEach f r
  end.

(** [await this.client.createBuffer(false, true)] : the call
    [nvim_create_buf] and its answer. *)
Definition askBuffer (a : Answers) : M Run CreateBufferAnswer :=
  fun r =>
    (Returned (createBuffer a (asked r)),
     mkRun (manager r) (S (asked r)),
     [Client (Request "nvim_create_buf" [ABool false; ABool true])]).

(** [await this.client.openWindow(bufId, false, { external: true, width,
    height: 100 })] : the call [nvim_open_win], its dictionary written as
    keys and values in turn, and its answer. *)
Definition askWindow (a : Answers) (width bufId : Z) : M Run OpenWindowAnswer :=
  fun r =>
    (Returned (openWindow a (asked r)),
     mkRun (manager r) (S (asked r)),
     [Client (Request "nvim_open_win"
                [AInt bufId; ABool false; AStr "external"; ABool true;
                 AStr "width"; AInt width; AStr "height"; AInt 100])]).

(** An awaited call that resolves to nothing : [None] when it resolves,
    the message of the [Error] when it rejects. *)
Definition askCall (a : Answers) (c : ClientCall) : M Run (option string) :=
  fun r =>
    (Returned match call a (asked r) with
              | CallDone => None
              | CallRejected message => Some message
              end,
     mkRun (manager r) (S (asked r)),
     [Client c]).

(** The same outside any [try] : a rejection leaves the method. *)
Definition awaitCall (a : Answers) (c : ClientCall) : M Run unit :=
  let* rejected := askCall a c in
  match rejected with
  | None => ret tt
  | Some _ => throw
  end.

(** [await callAtomic(this.client, requests, logger)], outside any
    [try]. *)
Definition awaitCallAtomic (a : Answers) (requests : list (string * list RpcArg))
  : M Run unit :=
  fun r =>
    let r' := mkRun (manager r) (S (asked r)) in
    match callAtomic a (asked r) with
    | AtomicDone => (Returned tt, r', [Client (CallAtomic requests)])
    | AtomicLogged message =>
        (Returned tt, r',
         [Client (CallAtomic requests); LoggerError (ErrorMessage message)])
    | AtomicRejected _ => (Threw, r', [Client (CallAtomic requests)])
    end.

(** [client.setOption("eventignore", value)] *)
Definition setEventIgnore (value : string) : ClientCall :=
  Request "nvim_set_option" [AStr "eventignore"; AStr value].

(** [createNeovimWindow] : the id of the window, or the message of the
    [Error] that leaves the method, thrown by it or by a call that
    rejects.  [width] is [config.neovimViewportWidth]. *)
Definition createNeovimWindow (a : Answers) (width bufId : Z)
  : M Run (Z + string) :=
  let* rejected := askCall a (setEventIgnore "BufWinEnter,BufEnter,BufLeave") in
  match rejected with
  | Some message => ret (inr message)
  | None =>
      let* win := askWindow a width bufId in
      match win with
      | WindowRejected message => ret (inr message)
      | WindowError code =>
          let* rejected := askCall a (setEventIgnore "") in
          match rejected with
          | Some message => ret (inr message)
          | None =>
              ret (inr (String.append
                          "Unable to create a new neovim window, code: "
                          (pretty code)))
          end
      | WindowOpened id =>
          let* rejected := askCall a (setEventIgnore "") in
          match rejected with
          | Some message => ret (inr message)
          | None => ret (inl id)
          end
      end
  end.

(** [initBufferForDocument], each of its [await]s with its answer : as
    [BufferManager.initBufferForDocument], which is the run in which every
    call resolves and nothing is reported. *)
Definition initBufferForDocument (a : Answers) (h : Host)
    (document : TextDocument) (bufId : Z) (editor : option TextEditor)
  : M Run unit :=
  let opts := (fun e => options (editors h e)) <$> editor in
  let insertSpaces := from_option insertSpaces true opts in
  let tabSize := from_option tabSize 4 opts in
  lift match editor with
       | Some e =>
           modify (fun b => set_editorTabConfiguration
                              (<[e := mkTab tabSize insertSpaces]>
                                 (editorTabConfiguration b)) b)
       | None => ret tt
       end ;;;
  let* r := get_state in
  awaitCallAtomic a (initRequests h (manager r) document bufId editor) ;;;
  awaitCallAtomic a (tabOptions bufId insertSpaces tabSize) ;;;
  let* r := get_state in
  when (negb (isExternalTextDocument h (manager r) document))
    (awaitCall a (CallFunction "VSCodeClearUndo" [AInt bufId])) ;;;
  when (onBufferInit (manager r)) (emit (OnBufferInit bufId document)) ;;;
  emit (Client (BufListen bufId "lines")).

(** The first half of a turn of the first loop of [syncLayout] : a buffer
    for the document of [visibleEditor], if it has none.  The result is
    [false] where the code says [continue]; nothing here is inside a
    [try]. *)
Definition ensureBuffer (a : Answers) (h : Host) (visibleEditor : TextEditor)
  : M Run bool :=
  let doc := document (editors h visibleEditor) in
  let* r := get_state in
  if JsMap.has (textDocumentToBufferId (manager r)) doc then ret true
  else
    let* buf := askBuffer a in
    match buf with
    | BufferRejected _ => throw
    | BufferError code =>
        emit (LoggerError
                (ErrorMessage (String.append "Cannot create a buffer, code: "
                                 (pretty code)))) ;;;
        ret false
    | BufferCreated id =>
        initBufferForDocument a h doc id (Some visibleEditor) ;;;
        lift (modify (fun b =>
                        set_textDocumentToBufferId
                          (JsMap.set (textDocumentToBufferId b) doc id) b)) ;;;
        ret true
    end.

(** The second half : a window for [visibleEditor], if it has none; an
    [Error] from [createNeovimWindow] is caught and logged. *)
Definition ensureWindow (a : Answers) (h : Host) (width : Z)
    (visibleEditor : TextEditor) : M Run unit :=
  let doc := document (editors h visibleEditor) in
  let* r := get_state in
  match JsMap.get (textDocumentToBufferId (manager r)) doc with
  | None => ret tt       (* [get(document)!] : the document was found or set *)
  | Some editorBufferId =>
      if JsMap.has (textEditorToWinId (manager r)) visibleEditor then ret tt
      else
        let* created := createNeovimWindow a width editorBufferId in
        match created with
        | inl winId =>
            lift (modify (fun b =>
                            set_winIdToEditor
                              (<[winId := visibleEditor]> (winIdToEditor b))
                              (set_textEditorToWinId
                                 (JsMap.set (textEditorToWinId b)
                                    visibleEditor winId) b))) ;;;
            emit (UpdateNeovimCursorPosition visibleEditor)
        | inr message => emit (LoggerError (ErrorMessage message))
        end
  end.

(** One turn of the first loop of [syncLayout], for [visibleEditor]. *)
Definition openEditor (a : Answers) (h : Host) (width : Z)
    (visibleEditor : TextEditor) : M Run unit :=
  let* go_on := ensureBuffer a h visibleEditor in
  if go_on then ensureWindow a h width visibleEditor else ret tt.

(** "Clean up windows and buffers" : the two [forEach] loops, then the two
    bulk calls, awaited outside any [try]. *)
Definition cleanup (a : Answers) (h : Host)
    (currentVisibleEditors : list TextEditor) : M Run unit :=
  let* unused := lift (syncLayout_collect h currentVisibleEditors) in
  when (negb (bool_decide (snd unused = [])))
    (awaitCall a (ExecuteLua "require'vscode-neovim.api'.delete_buffers(...)"
                    [AInts (snd unused)])) ;;;
  when (negb (bool_decide (fst unused = [])))
    (awaitCall a (ExecuteLua "require'vscode-neovim.api'.close_windows(...)"
                    [AInts (fst unused)])).

(** [syncLayout(cancelToken)] : the snapshot of the visible editors, the
    loop that opens buffers and windows, the clean-up and the checkpoint. *)
Definition syncLayout (a : Answers) (h : Host) (width : Z) (cancelToken : nat)
  : M Run unit :=
  let currentVisibleEditors := visibleTextEditors h in
  forEach (openEditor a h width) currentVisibleEditors ;;;
  cleanup a h currentVisibleEditors ;;;
  lift (syncLayout_checkpoint cancelToken).

(** The mapping tables are settled for the snapshot [cur] : every editor of
    the snapshot has a buffer for its document and a window, every editor
    with a window is in the snapshot, and no mapped document is both closed
    and not shown. *)
Definition settled (h : Host) (cur : list TextEditor) (b : BufferManager.t)
  : Prop :=
  (forall e, In e cur ->
     JsMap.has (textDocumentToBufferId b) (document (editors h e)) = true
     /\ JsMap.has (textEditorToWinId b) e = true)
  /\ (forall e w, In (e, w) (textEditorToWinId b) -> In e cur)
  /\ (forall d id, In (d, id) (textDocumentToBufferId b) ->
        negb (shown_in h cur d) && isClosed (documents h d) = false).

(** From [b] to [b'] the mappings of documents and of editors were only
    added to, and nothing else than the mapping tables and the tab
    configurations changed. *)
Definition extends (b b' : BufferManager.t) : Prop :=
  syncLayoutPromise b' = syncLayoutPromise b
  /\ syncLayoutCancelTokenSource b' = syncLayoutCancelTokenSource b
  /\ syncActiveEditorPromise b' = syncActiveEditorPromise b
  /\ externalTextDocuments b' = externalTextDocuments b
  /\ grids b' = grids b
  /\ onBufferInit b' = onBufferInit b
  /\ next_promise b' = next_promise b
  /\ next_token b' = next_token b
  /\ cancelled b' = cancelled b
  /\ (forall d id, JsMap.get (textDocumentToBufferId b) d = Some id ->
                   JsMap.get (textDocumentToBufferId b') d = Some id)
  /\ (forall e w, JsMap.get (textEditorToWinId b) e = Some w ->
                  JsMap.get (textEditorToWinId b') e = Some w).

(** An error was logged. *)
Definition logs_error (t : list Effect) : Prop :=
  exists m, In (LoggerError m) t.

(** No promise is resolved. *)
Definition resolves_nothing (t : list Effect) : Prop :=
  forall p, ~ In (PromiseResolve p) t.

(** Every call resolves, the creation calls to an object, and
    [callAtomic] reports nothing. *)
Definition all_succeed (a : Answers) : Prop :=
  (forall n, exists id, createBuffer a n = BufferCreated id)
  /\ (forall n, exists id, openWindow a n = WindowOpened id)
  /\ (forall n, callAtomic a n = AtomicDone)
  /\ (forall n, call a n = CallDone).

(** Answers under which every call resolves and nothing is reported. *)
Definition answers_fine : Answers :=
  mkAnswers (fun n => BufferCreated (Z.of_nat n))
            (fun n => WindowOpened (1000 + Z.of_nat n))
            (fun _ => AtomicDone) (fun _ => CallDone).

End SyncLayout.

(** ** Positions read from the viewports ([ViewportManager]) *)

Module ViewportQueries.
Import ViewportManager.

(** The arguments of [new Position(line, character)]. *)
Record Position := mkPosition {
  p_line : Z;
  p_character : Z;
}.

(** [getCursorFromViewport] : goes through [getViewport], which creates the
    entry of a grid that has none. *)
Definition getCursorFromViewport (gridId : Z) (gv : GridViewport)
  : Position * GridViewport :=
  let '(view, gv1) := getViewport gridId gv in
  (mkPosition (line view) (col view), gv1).

(** [getGridOffset] *)
Definition getGridOffset (gridId : Z) (gv : GridViewport)
  : Position * GridViewport :=
  let '(view, gv1) := getViewport gridId gv in
  (mkPosition (topline view) (leftcol view), gv1).

(** The viewport a grid has, that of [new Viewport()] when it has none. *)
Definition viewport_of (gv : GridViewport) (gridId : Z) : Viewport :=
  default new_Viewport (gv !! gridId).

End ViewportQueries.

(** ** Registrations on the event bus *)

Module Subscriptions.
Section Bus.
Context {Handler : Type}.

(** The disposables handed out so far : every registration on the bus has
    an id below [next_id]. *)
Definition issued (bus : EventBus.t Handler) : Prop :=
  Forall (fun '(i, _) => (i < EventBus.next_id bus)%nat) (EventBus.listeners bus).

End Bus.
End Subscriptions.

(** ** Tab options of an editor ([onDidChangeEditorOptions]) *)

Module EditorOptions.
Import BufferManager.

(** [onDidChangeEditorOptions(e)] : [textEditor] is [e.textEditor],
    [e_options] is [e.options].  [!bufId] holds for [undefined] and [0].
    [resyncBufferTabOptions] reads the options of the editor itself. *)
Definition onDidChangeEditorOptions (h : Host) (textEditor : TextEditor)
    (e_options : TextEditorOptions) : M t unit :=
  let* b := get_state in
  match JsMap.get (textDocumentToBufferId b)
          (document (editors h textEditor)) with
  | None => ret tt
  | Some bufId =>
      if bool_decide (bufId = 0) then ret tt
      else
        let changed :=
          match editorTabConfiguration b !! textEditor with
          | None => true
          | Some prevOptions =>
              negb (bool_decide (tc_insertSpaces prevOptions
                                 = insertSpaces e_options))
              || negb (bool_decide (tc_tabSize prevOptions = tabSize e_options))
          end in
        if changed then
          modify (fun b => set_editorTabConfiguration
                             (<[textEditor := mkTab (tabSize e_options)
                                                (insertSpaces e_options)]>
                                (editorTabConfiguration b)) b) ;;;
          resyncBufferTabOptions h textEditor bufId
        else ret tt
  end.

End EditorOptions.

(** ** Commands of the typing manager ([TypingManager]) *)

Module TypingCommands.
Section Commands.
Context {CodeUnit : Type} `{EqDecision CodeUnit}.

(** [normalizeInputString] of [utils], called with both arguments and with
    the second one left out. *)
Variable normalizeInputString : list CodeUnit -> bool -> list CodeUnit.
Variable normalizeInputString1 : list CodeUnit -> list CodeUnit.

(** The code units of ["<Esc>"]. *)
Variable Esc : list CodeUnit.

Abbreviation t := (TypingManager.t CodeUnit).
Abbreviation Mode := TypingManager.Mode.

(** What the commands do outside the manager, in program order. *)
Inductive Action :=
| Sent (s : TypingManager.Sent CodeUnit)  (* client.input, "default:type" *)
| ClientCommand (cmd : string)            (* client.command(cmd) *)
| ExecuteType (text : list CodeUnit)      (* executeCommand("type", { text }) *)
| WantInsertCursorUpdate                  (* cursorManager.wantInsertCursorUpdate = true *)
| WaitForUnlock                           (* documentChangeLock.waitForUnlock() *)
| UpdateNeovimCursorPosition              (* cursorManager.updateNeovimCursorPosition(...) *)
| SyncDotRepeatWithNeovim                 (* changeManager.syncDotRepeatWithNeovim() *)
| ShowErrorMessage.                       (* window.showErrorMessage(...) *)

(** Assignments to the fields. *)
Definition set_typeHandlerDisposable (v : bool) (st : t) : t :=
  TypingManager.mk v (TypingManager.replacePrevCharHandlerDisposable st)
    (TypingManager.isExitingInsertMode st) (TypingManager.neovimEnable st)
    (TypingManager.isEnteringInsertMode st)
    (TypingManager.pendingKeysAfterExit st)
    (TypingManager.pendingKeysAfterEnter st)
    (TypingManager.isInComposition st) (TypingManager.composingText st).

Definition set_replacePrevCharHandlerDisposable (v : bool) (st : t) : t :=
  TypingManager.mk (TypingManager.typeHandlerDisposable st) v
    (TypingManager.isExitingInsertMode st) (TypingManager.neovimEnable st)
    (TypingManager.isEnteringInsertMode st)
    (TypingManager.pendingKeysAfterExit st)
    (TypingManager.pendingKeysAfterEnter st)
    (TypingManager.isInComposition st) (TypingManager.composingText st).

Definition set_isExitingInsertMode (v : bool) (st : t) : t :=
  TypingManager.mk (TypingManager.typeHandlerDisposable st)
    (TypingManager.replacePrevCharHandlerDisposable st)
    v (TypingManager.neovimEnable st)
    (TypingManager.isEnteringInsertMode st)
    (TypingManager.pendingKeysAfterExit st)
    (TypingManager.pendingKeysAfterEnter st)
    (TypingManager.isInComposition st) (TypingManager.composingText st).

Definition set_neovimEnable (v : bool) (st : t) : t :=
  TypingManager.mk (TypingManager.typeHandlerDisposable st)
    (TypingManager.replacePrevCharHandlerDisposable st)
    (TypingManager.isExitingInsertMode st) v
    (TypingManager.isEnteringInsertMode st)
    (TypingManager.pendingKeysAfterExit st)
    (TypingManager.pendingKeysAfterEnter st)
    (TypingManager.isInComposition st) (TypingManager.composingText st).

Definition set_isEnteringInsertMode (v : bool) (st : t) : t :=
  TypingManager.mk (TypingManager.typeHandlerDisposable st)
    (TypingManager.replacePrevCharHandlerDisposable st)
    (TypingManager.isExitingInsertMode st) (TypingManager.neovimEnable st)
    v
    (TypingManager.pendingKeysAfterExit st)
    (TypingManager.pendingKeysAfterEnter st)
    (TypingManager.isInComposition st) (TypingManager.composingText st).

Definition set_pendingKeysAfterExit (v : list CodeUnit) (st : t) : t :=
  TypingManager.mk (TypingManager.typeHandlerDisposable st)
    (TypingManager.replacePrevCharHandlerDisposable st)
    (TypingManager.isExitingInsertMode st) (TypingManager.neovimEnable st)
    (TypingManager.isEnteringInsertMode st)
    v
    (TypingManager.pendingKeysAfterEnter st)
    (TypingManager.isInComposition st) (TypingManager.composingText st).

Definition set_pendingKeysAfterEnter (v : list CodeUnit) (st : t) : t :=
  TypingManager.mk (TypingManager.typeHandlerDisposable st)
    (TypingManager.replacePrevCharHandlerDisposable st)
    (TypingManager.isExitingInsertMode st) (TypingManager.neovimEnable st)
    (TypingManager.isEnteringInsertMode st)
    (TypingManager.pendingKeysAfterExit st)
    v
    (TypingManager.isInComposition st) (TypingManager.composingText st).

(** [registerType], [disposeType], [registerReplacePrevChar],
    [disposeReplacePrevChar] : the flag says whether the handler is
    registered with the host. *)
Definition registerType (st : t) : t :=
  if negb (TypingManager.typeHandlerDisposable st)
  then set_typeHandlerDisposable true st else st.

Definition disposeType (st : t) : t :=
  if TypingManager.typeHandlerDisposable st
  then set_typeHandlerDisposable false st else st.

Definition registerReplacePrevChar (st : t) : t :=
  if negb (TypingManager.replacePrevCharHandlerDisposable st)
  then set_replacePrevCharHandlerDisposable true st else st.

Definition disposeReplacePrevChar (st : t) : t :=
  if TypingManager.replacePrevCharHandlerDisposable st
  then set_replacePrevCharHandlerDisposable false st else st.

(** The host runs the "type" command : the handler of the manager when it
    is registered, its own typing otherwise. *)
Definition type_command (m : Mode) (blocking : bool) (text : list CodeUnit)
    (st : t) : t * list Action :=
  if TypingManager.typeHandlerDisposable st then
    let r := TypingManager.onVSCodeType normalizeInputString m blocking text st in
    (fst r, map Sent (snd r))
  else (st, []).

(** *** [onSendCommand], cut at its [await]s *)

(** Where a call of [onSendCommand] is suspended. *)
Inductive SendStage :=
| AwaitMode              (* await this.client.mode *)
| AwaitUnlock            (* await documentChangeLock.waitForUnlock() *)
| AwaitCursorUpdate      (* await updateNeovimCursorPosition(...) *)
| AwaitDotRepeat.        (* await syncDotRepeatWithNeovim() *)

(** [onSendCommand(key)] up to its first [await]; outside insert mode the
    mode of the backend is not asked for. *)
Definition onSendCommand (m : Mode) (key : list CodeUnit) (st : t)
  : t * list Action * option SendStage :=
  if TypingManager.isInsertMode m then
    (st, [WantInsertCursorUpdate], Some AwaitMode)
  else
    (set_isExitingInsertMode false st,
     [WantInsertCursorUpdate; Sent (TypingManager.Input key)], None).

(** The call goes on from [stage] to the next [await], or to its end.
    [blocking] is [(await this.client.mode).blocking], [activeTextEditor]
    says whether [window.activeTextEditor] is set. *)
Definition onSendCommand_resume (stage : SendStage) (blocking : bool)
    (activeTextEditor : bool) (key : list CodeUnit) (st : t)
  : t * list Action * option SendStage :=
  match stage with
  | AwaitMode =>
      if negb blocking then (st, [WaitForUnlock], Some AwaitUnlock)
      else (set_isExitingInsertMode false st,
            [Sent (TypingManager.Input key)], None)
  | AwaitUnlock =>
      if activeTextEditor
      then (st, [UpdateNeovimCursorPosition], Some AwaitCursorUpdate)
      else (st, [SyncDotRepeatWithNeovim], Some AwaitDotRepeat)
  | AwaitCursorUpdate => (st, [SyncDotRepeatWithNeovim], Some AwaitDotRepeat)
  | AwaitDotRepeat =>
      let keys := normalizeInputString1 (TypingManager.pendingKeysAfterExit st) in
      (set_pendingKeysAfterExit [] st,
       [Sent (TypingManager.Input (key ++ keys))], None)
  end.

Definition onSendBlockingCommand (m : Mode) (key : list CodeUnit) (st : t)
  : t * list Action * option SendStage :=
  onSendCommand m key (registerReplacePrevChar (registerType st)).

(** [onEscapeKeyCommand(key = "<Esc>")] *)
Definition onEscapeKeyCommand (m : Mode) (key : list CodeUnit) (st : t)
  : t * list Action * option SendStage :=
  if TypingManager.neovimEnable st || negb (bool_decide (key = Esc)) then
    onSendBlockingCommand m key (set_isExitingInsertMode true st)
  else (st, [], None).

(** [warnOnEmptyKey(method)] : the empty string is falsy. *)
Definition warnOnEmptyKey
    (method : Mode -> list CodeUnit -> t -> t * list Action * option SendStage)
    (m : Mode) (key : list CodeUnit) (st : t)
  : t * list Action * option SendStage :=
  match key with
  | [] => (st, [ShowErrorMessage], None)
  | _ => method m key st
  end.

(** *** [onEnableCommand] *)

Inductive EnableMode := enable | disable | toggle.

Definition onEnableCommand (mode : EnableMode) (st : t) : t * list Action :=
  let st1 :=
    match mode with
    | enable => set_neovimEnable true st
    | disable => set_neovimEnable false st
    | toggle => set_neovimEnable (negb (TypingManager.neovimEnable st)) st
    end in
  (st1, [ClientCommand (if TypingManager.neovimEnable st1
                        then "stopinsert" else "startinsert")]).

(** *** [onModeChange], cut at its [await]s *)

Inductive EnterStage :=
| AwaitCursor   (* documentPromise, then await waitForCursorUpdate(editor) *)
| AwaitReplay.  (* await executeCommand(...) of the replay *)

(** [onModeChange]; [lock] says whether there is an active editor whose
    document has a change completion lock. *)
Definition onModeChange (m : Mode) (lock : bool) (st : t)
  : t * option EnterStage :=
  if TypingManager.isInsertMode m
     && TypingManager.typeHandlerDisposable st
     && negb (TypingManager.isRecordingInInsertMode m)
  then
    if lock then
      (set_isEnteringInsertMode true (set_pendingKeysAfterEnter [] st),
       Some AwaitCursor)
    else (disposeReplacePrevChar (disposeType st), None)
  else if negb (TypingManager.isInsertMode m) then
    (registerReplacePrevChar
       (registerType
          (set_isExitingInsertMode false (set_isEnteringInsertMode false st))),
     None)
  else (st, None).

(** The callback of [documentPromise.then] goes on from [stage]; [m] is the
    mode read at that time. *)
Definition onModeChange_resume (stage : EnterStage) (m : Mode) (st : t)
  : t * list Action * option EnterStage :=
  match stage with
  | AwaitCursor =>
      let st1 := if TypingManager.isInsertMode m
                 then disposeReplacePrevChar (disposeType st) else st in
      match TypingManager.pendingKeysAfterEnter st1 with
      | [] => (set_isEnteringInsertMode false st1, [], None)
      | keys =>
          (st1,
           [if TypingManager.isInsertMode m
            then Sent (TypingManager.DefaultType keys)
            else ExecuteType keys],
           Some AwaitReplay)
      end
  | AwaitReplay =>
      (set_isEnteringInsertMode false (set_pendingKeysAfterEnter [] st),
       [], None)
  end.

(** *** What happens while a call is suspended *)

(** Between two [await]s of a suspended call the user types, or the call
    goes on. *)
Inductive Step :=
| Typed (m : Mode) (blocking : bool) (text : list CodeUnit)
| Resumed (m : Mode) (blocking : bool) (activeTextEditor : bool).

(** The texts typed, in order. *)
Fixpoint typed (steps : list Step) : list (list CodeUnit) :=
  match steps with
  | [] => []
  | Typed _ _ text :: rest => text :: typed rest
  | Resumed _ _ _ :: rest => typed rest
  end.

(** What was sent to the backend or typed by the host, in order. *)
Fixpoint sent (out : list Action) : list (TypingManager.Sent CodeUnit) :=
  match out with
  | [] => []
  | Sent s :: rest => s :: sent rest
  | _ :: rest => sent rest
  end.

(** A suspended [onSendCommand(key)] and the steps that follow. *)
Fixpoint send_run (key : list CodeUnit) (steps : list Step)
    (st : t) (out : list Action) (stage : option SendStage)
  : t * list Action * option SendStage :=
  match steps with
  | [] => (st, out, stage)
  | Typed m blocking text :: rest =>
      let r := type_command m blocking text st in
      send_run key rest (fst r) (out ++ snd r) stage
  | Resumed _ blocking activeTextEditor :: rest =>
      match stage with
      | None => send_run key rest st out stage
      | Some sg =>
          let r := onSendCommand_resume sg blocking activeTextEditor key st in
          send_run key rest (fst (fst r)) (out ++ snd (fst r)) (snd r)
      end
  end.

(** A suspended [onModeChange] and the steps that follow. *)
Fixpoint enter_run (steps : list Step)
    (st : t) (out : list Action) (stage : option EnterStage)
  : t * list Action * option EnterStage :=
  match steps with
  | [] => (st, out, stage)
  | Typed m blocking text :: rest =>
      let r := type_command m blocking text st in
      enter_run rest (fst r) (out ++ snd r) stage
  | Resumed m _ _ :: rest =>
      match stage with
      | None => enter_run rest st out stage
      | Some sg =>
          let r := onModeChange_resume sg m st in
          enter_run rest (fst (fst r)) (out ++ snd (fst r)) (snd r)
      end
  end.

End Commands.
Arguments Action : clear implicits.
Arguments Step : clear implicits.
End TypingCommands.

(** ** Highlight namespaces (the Lua side) *)

Module Highlight.

(** Lua values, as far as the window and buffer variables read here go;
    [nil] and [false] are the falsy ones, and a variable cannot hold
    [nil]. *)
Inductive LuaValue :=
| LNumber (n : Z)
| LBoolean (b : bool)
| LString (s : string).

#[global] Instance LuaValue_eq_dec : EqDecision LuaValue.
Proof. solve_decision. Defined.

Definition truthy (v : LuaValue) : bool :=
  match v with
  | LBoolean false => false
  | _ => true
  end.

(** A highlight definition table : [{}] is the empty list. *)
Inductive HlAttr :=
| hl_link (group : string)               (* link = group *)
| hl_flag (name : string) (value : bool). (* e.g. reverse = true *)

Definition HlValue := list HlAttr.

Inductive ApiCall :=
| nvim_set_hl (ns : Z) (name : string) (value : HlValue)
| nvim_win_set_var (win : Z) (name : string) (value : LuaValue)
| nvim_win_set_hl_ns (win : Z) (ns : Z).

(** [vim.tbl_isempty(value)] *)
Definition tbl_isempty (value : HlValue) : bool :=
  match value with [] => true | _ => false end.

Definition set_hl (id : Z) (name : string) (value : HlValue) : ApiCall :=
  if tbl_isempty value then nvim_set_hl id name [hl_link "VSCodeNone"]
  else nvim_set_hl id name value.

Definition setup_globals : list ApiCall :=
  [ set_hl 0 "Normal" []; set_hl 0 "NormalNC" []; set_hl 0 "NormalFloat" [];
    set_hl 0 "NonText" []; set_hl 0 "Visual" []; set_hl 0 "VisualNOS" [];
    set_hl 0 "Substitute" []; set_hl 0 "Whitespace" []; set_hl 0 "LineNr" [];
    set_hl 0 "LineNrAbove" []; set_hl 0 "LineNrBelow" [];
    set_hl 0 "CursorLine" []; set_hl 0 "CursorLineNr" [];
    set_hl 0 "Cursor" [hl_flag "reverse" true] ].

(** The table [overrides], in the order it is written. *)
Definition overrides : list (string * HlValue) :=
  map (fun name => (name, []))
    [ "NonText"; "EndOfBuffer"; "ErrorMsg"; "MoreMsg"; "ModeMsg";
      "Question"; "VisualNC"; "WarningMsg"; "Sign"; "SignColumn";
      "ColorColumn"; "QuickFixLine"; "MsgSeparator"; "MsgArea"; "Operator";
      "Delimiter"; "Identifier"; "SpecialChar"; "Number"; "Type";
      "String"; "Error"; "Comment"; "Constant"; "Special";
      "Statement"; "PreProc"; "Underlined"; "Ignore"; "Todo";
      "Character"; "Boolean"; "Float"; "Function"; "Conditional";
      "Repeat"; "Label"; "Keyword"; "Exception"; "Include";
      "Define"; "Macro"; "PreCondit"; "StorageClass"; "Structure";
      "Typedef"; "Tag"; "SpecialComment"; "Debug"; "Folded";
      "FoldColumn" ].

(** [setup_overrides] : [pairs] is the traversal [pairs(overrides)] makes,
    whose order Lua leaves open; [overridden] is the table of that name,
    as the set of its keys. *)
Definition setup_overrides (NS : Z) (pairs : list (string * HlValue))
    (overridden : gset string) : gset string * list ApiCall :=
  fold_left
    (fun acc p =>
       if bool_decide (fst p ∈ fst acc) then acc
       else ({[fst p]} ∪ fst acc, snd acc ++ [set_hl NS (fst p) (snd p)]))
    pairs (overridden, []).

(** *** The pattern [([%w@%.]+)%s+xxx] *)

(** [%w] and [%s] in the C locale. *)
Definition is_alnum (c : ascii) : bool :=
  let n := Ascii.nat_of_ascii c in
  ((48 <=? n)%nat && (n <=? 57)%nat)
  || ((65 <=? n)%nat && (n <=? 90)%nat)
  || ((97 <=? n)%nat && (n <=? 122)%nat).

Definition is_space (c : ascii) : bool :=
  let n := Ascii.nat_of_ascii c in
  ((9 <=? n)%nat && (n <=? 13)%nat) || (n =? 32)%nat.

(** The class [[%w@%.]]. *)
Definition is_group_char (c : ascii) : bool :=
  is_alnum c || Ascii.eqb c "@" || Ascii.eqb c ".".

(** The number of leading characters of [s] in the class [p]. *)
Fixpoint span (p : ascii -> bool) (s : string) : nat :=
  match s with
  | String c r => if p c then S (span p r) else O
  | EmptyString => O
  end.

Fixpoint string_drop (n : nat) (s : string) : string :=
  match n, s with
  | S k, String _ r => string_drop k r
  | _, _ => s
  end.

Fixpoint string_take (n : nat) (s : string) : string :=
  match n, s with
  | S k, String c r => String c (string_take k r)
  | _, _ => EmptyString
  end.

(** The loop of a greedy repetition : the rest of the pattern is tried
    after [i] more characters, then after [i - 1], down to none. *)
Fixpoint max_expand {A : Type} (rest : nat -> option A) (i : nat) : option A :=
  match rest i with
  | Some r => Some r
  | None =>
      match i with
      | O => None
      | S j => max_expand rest j
      end
  end.

(** [%s+xxx] at the start of [s]. *)
Definition match_spaces_xxx (s : string) : bool :=
  match s with
  | String c r =>
      if is_space c then
        match max_expand
                (fun j => if String.prefix "xxx" (string_drop j r)
                          then Some tt else None)
                (span is_space r) with
        | Some _ => true
        | None => false
        end
      else false
  | EmptyString => false
  end.

(** The whole pattern at the start of [s] : the capture. *)
Definition match_at (s : string) : option string :=
  match s with
  | String c r =>
      if is_group_char c then
        max_expand
          (fun i => if match_spaces_xxx (string_drop i r)
                    then Some (String c (string_take i r)) else None)
          (span is_group_char r)
      else None
  | EmptyString => None
  end.

(** [item:match(...)] : the pattern is tried at every position, from the
    left. *)
Fixpoint match_group (item : string) : option string :=
  match match_at item with
  | Some g => Some g
  | None =>
      match item with
      | String _ r => match_group r
      | EmptyString => None
      end
  end.

(** [setup_syntax_groups] : [output] is the text [:syntax] prints,
    [cleared] the keys of [cleared_syntax_groups]. *)
Definition setup_syntax_groups (NS : Z) (output : string)
    (cleared : gset string) : gset string * list ApiCall :=
  fold_left
    (fun acc item =>
       match match_group item with
       | Some group =>
           if bool_decide (group ∈ fst acc) then acc
           else ({[group]} ∪ fst acc, snd acc ++ [set_hl NS group []])
       | None => acc
       end)
    (split (String (Ascii.ascii_of_nat 10) EmptyString) output) (cleared, []).

(** *** [set_win_hl_ns] *)

(** What the editor answers : its windows, the buffer of a window, and the
    variable [vscode_controlled] of a buffer ([None] : it is not set, the
    protected call fails). *)
Record Nvim := mkNvim {
  nvim_list_wins : list Z;
  nvim_win_get_buf : Z -> Z;
  vscode_controlled : Z -> option LuaValue;
}.

(** [ok and curr_ns or 0] *)
Definition curr_ns (vars : gmap Z LuaValue) (win : Z) : LuaValue :=
  match vars !! win with
  | Some v => if truthy v then v else LNumber 0
  | None => LNumber 0
  end.

(** [(ok and vscode_controlled) and NS or 0] : a number is truthy. *)
Definition target_ns (NS : Z) (nv : Nvim) (win : Z) : Z :=
  match vscode_controlled nv (nvim_win_get_buf nv win) with
  | Some v => if truthy v then NS else 0
  | None => 0
  end.

(** [set_win_hl_ns] : [vars] holds the window variable [_vscode_hl_ns]. *)
Definition set_win_hl_ns (NS : Z) (nv : Nvim) (vars : gmap Z LuaValue)
  : gmap Z LuaValue * list ApiCall :=
  fold_left
    (fun acc win =>
       let target := target_ns NS nv win in
       if bool_decide (curr_ns (fst acc) win ≠ LNumber target) then
         (<[win := LNumber target]> (fst acc),
          snd acc ++ [nvim_win_set_var win "_vscode_hl_ns" (LNumber target);
                      nvim_win_set_hl_ns win target])
       else acc)
    (nvim_list_wins nv) (vars, []).

(** Every character of [s] is in the class [p]. *)
Fixpoint string_forall (p : ascii -> bool) (s : string) : bool :=
  match s with
  | String c r => p c && string_forall p r
  | EmptyString => true
  end.

(** The groups that a list of calls defines, in order. *)
Fixpoint set_names (calls : list ApiCall) : list string :=
  match calls with
  | [] => []
  | nvim_set_hl _ name _ :: r => name :: set_names r
  | _ :: r => set_names r
  end.

End Highlight.

(** ** The active-editor sync with the outcome of its cursor update *)

Module ActiveEditor.
Import BufferManager.

(** What [await this.main.cursorManager.updateNeovimCursorPosition(...)]
    comes to : the promise resolves, or it rejects. *)
Inductive CursorUpdate :=
| CursorUpdated
| CursorRejected (message : string).

(** [syncActiveEditor] from the point where [await this.waitForLayoutSync()]
    has returned.  The cursor update is awaited before the [try] : its
    rejection leaves the method, and [finish] is not reached.  The request
    [nvim_set_current_win] is inside the [try], and its rejection is
    logged. *)
Definition syncActiveEditor (h : Host) (be : Backend) (cursor : CursorUpdate)
  : M t unit :=
  match activeTextEditor h with
  | None => finish
  | Some activeEditor =>
      let* b := get_state in
      match JsMap.get (textEditorToWinId b) activeEditor with
      | None => emit (LoggerError (UnableToDetermineWindow activeEditor)) ;;; finish
      | Some winId =>
          if bool_decide (winId = 0) then
            emit (LoggerError (UnableToDetermineWindow activeEditor)) ;;; finish
          else
            emit (UpdateNeovimCursorPosition activeEditor) ;;;
            match cursor with
            | CursorRejected _ => throw
            | CursorUpdated =>
                emit (Client (Request "nvim_set_current_win" [AInt winId])) ;;;
                match nvim_set_current_win be winId with
                | Some msg => emit (LoggerError (ErrorMessage msg))
                | None => ret tt
                end ;;;
                finish
            end
      end
  end.

End ActiveEditor.

(** ** Further concrete cases *)

Module Cases.

(** Grid 4 is closed and grid 6 takes window 12. *)
Definition redraw_batch : list RedrawEvent :=
  [ win_close [4]; win_pos [mkWinPos 6 12 0 0 80 24] ].

(** Neovim reports the viewport of grid 4. *)
Definition viewport_4 : WinViewportArgs := mkWinViewport 4 10 6 46 21 2 100 1.

(** The view saved by a horizontal scroll. *)
Definition scrolled : ViewportManager.SaveView :=
  ViewportManager.mkSaveView 21 2 0 2 6 0 7 0.

(** Grid 4 is destroyed, then a viewport is reported for it again. *)
Definition destroy_then_report : list RedrawEvent :=
  [ grid_destroy [4]; win_viewport [viewport_4] ].

Definition viewports_scrolled : gmap Z ViewportManager.Viewport :=
  {[ 4 := ViewportManager.mkViewport 20 3 5 45 7 0 ]}.

(** A bus with one handler, [7], for "redraw". *)
Definition bus_redraw : EventBus.t nat :=
  fst (EventBus.on EventBus.empty "redraw" 7%nat).

(** The code units of ["<Esc>"], and a normalisation that changes
    nothing. *)
Definition esc : list Z := [60; 69; 115; 99; 62].
Definition plain1 (s : list Z) : list Z := s.

Definition insert_mode : TypingManager.Mode := TypingManager.mkMode true false.

(** [j] typed, the command goes on, [k] typed, the command goes on to its
    end, [l] typed. *)
Definition typed_while_exiting : list (TypingCommands.Step Z) :=
  [ TypingCommands.Typed insert_mode false [106];
    TypingCommands.Resumed insert_mode false true;
    TypingCommands.Typed insert_mode false [107];
    TypingCommands.Resumed insert_mode false true;
    TypingCommands.Resumed insert_mode false true;
    TypingCommands.Resumed insert_mode false true;
    TypingCommands.Typed insert_mode false [108] ].

(** [j] and [k] typed, the cursor is updated, [l] typed, the replay is
    done. *)
Definition typed_while_entering : list (TypingCommands.Step Z) :=
  [ TypingCommands.Typed insert_mode false [106];
    TypingCommands.Typed insert_mode false [107];
    TypingCommands.Resumed insert_mode false true;
    TypingCommands.Typed insert_mode false [108];
    TypingCommands.Resumed insert_mode false true ].

End Cases.

(** * Properties *)

(** ** Viewport tracker *)

Section ViewportFacts.
Import ViewportManager.

Lemma getViewport_lookup (g : Z) (gv : gmap Z Viewport) :
  (getViewport g gv).2 !! g = Some (getViewport g gv).1.
Proof.
  unfold getViewport. destruct (gv !! g) eqn:E; simpl; [done|].
  by rewrite lookup_insert_eq.
Qed.

Lemma getViewport_other (g g' : Z) (gv : gmap Z Viewport) :
  g' ≠ g -> (getViewport g gv).2 !! g' = gv !! g'.
Proof.
  intros Hne. unfold getViewport. destruct (gv !! g); simpl; [done|].
  by rewrite lookup_insert_ne.
Qed.

Lemma getViewport_value (g : Z) (gv : gmap Z Viewport) :
  (getViewport g gv).1 = default new_Viewport (gv !! g).
Proof. unfold getViewport. by destruct (gv !! g). Qed.

(** C6. A "window-scroll" notification for a window whose grid is [g] leaves
    every other grid's entry alone and keeps line, col, topline and botline
    of the Viewport of [g] (a Viewport not yet referenced reads as a new
    one); leftcol and skipcol are taken from the request, unless [g] is the
    falsy id 0, for which nothing is written.  With no grid known for the
    window, the table of Viewports is unchanged. *)
Theorem window_scroll_frame (bm : BufferManager.t) (winId : Z)
    (saveView : SaveView) (gv : gmap Z Viewport) :
  let gv' := handleExtensionRequest bm "window-scroll" winId saveView gv in
  match BufferManager.getGridIdForWinId bm winId with
  | None => gv' = gv
  | Some g =>
      let old := default new_Viewport (gv !! g) in
      let new := default new_Viewport (gv' !! g) in
      (forall g', g' ≠ g -> gv' !! g' = gv !! g')
      /\ line new = line old /\ col new = col old
      /\ topline new = topline old /\ botline new = botline old
      /\ (g ≠ 0 ->
          gv' !! g = Some (mkViewport (line old) (col old) (topline old)
                             (botline old) (sv_leftcol saveView)
                             (sv_skipcol saveView)))
      /\ (g = 0 -> gv' = gv)
  end.
Proof.
  unfold handleExtensionRequest. rewrite bool_decide_eq_true_2 by done.
  destruct (BufferManager.getGridIdForWinId bm winId) as [g|]; [|done].
  simpl. case_bool_decide as Hg.
  - subst g. repeat split; try done.
  - destruct (getViewport g gv) as [view gv1] eqn:E.
    assert (Hv : view = default new_Viewport (gv !! g)).
    { rewrite <- getViewport_value. by rewrite E. }
    rewrite lookup_insert_eq. simpl. subst view.
    repeat split; try done.
    intros g' Hne. rewrite lookup_insert_ne by done.
    replace gv1 with (getViewport g gv).2 by (by rewrite E).
    by apply getViewport_other.
Qed.

(** Requests under another name are not handled here. *)
Lemma other_request_ignored (bm : BufferManager.t) (name : string) (winId : Z)
    (saveView : SaveView) (gv : gmap Z Viewport) :
  name ≠ "window-scroll" ->
  handleExtensionRequest bm name winId saveView gv = gv.
Proof.
  intros H. unfold handleExtensionRequest. by rewrite bool_decide_eq_false_2.
Qed.

(** C5. [scrollNeovim] sends a request exactly when the editor is given, the
    backend is not in insert mode, the first visible range has
    [end - start > 1], a grid is found for the editor, a Viewport is tracked
    for that grid, the target top line (visible start minus the extension)
    differs from the tracked topline and the cursor line equals the tracked
    line; the request is then the only one, its top line is the target
    floored at 0 and its bottom line is the end of the last range plus the
    number of ranges plus the extension. *)
Theorem scrollNeovim_request (h : Host) (extend : Z) (isInsertMode : bool)
    (bm : BufferManager.t) (gv : gmap Z Viewport) (editor : option TextEditor)
    (c : ClientCall) :
  In c (scrollNeovim h extend isInsertMode bm gv editor) <->
  exists e r0 rest gridId viewport,
    editor = Some e
    /\ isInsertMode = false
    /\ visibleRanges (editors h e) = r0 :: rest
    /\ end_line r0 - start_line r0 > 1
    /\ BufferManager.getGridIdFromEditor bm e = Some gridId
    /\ gv !! gridId = Some viewport
    /\ start_line r0 - extend ≠ topline viewport
    /\ selection_active_line (editors h e) = line viewport
    /\ scrollNeovim h extend isInsertMode bm gv editor = [c]
    /\ c = Lua "require('vscode-neovim.api').scroll_viewport(...)"
             [AInt (Z.max (start_line r0 - extend) 0);
              AInt (end_line (List.last (r0 :: rest) r0)
                    + Z.of_nat (length (r0 :: rest)) + extend)].
Proof.
  unfold scrollNeovim. split.
  - destruct editor as [e|]; [|by intros []].
    destruct isInsertMode; [by intros []|].
    destruct (visibleRanges (editors h e)) as [|r0 rest] eqn:Er; [by intros []|].
    destruct (Z.leb_spec (end_line r0 - start_line r0) 1); [by intros []|].
    destruct (BufferManager.getGridIdFromEditor bm e) as [g|] eqn:Eg;
      [|by intros []].
    destruct (gv !! g) as [vp|] eqn:Ev; [|by intros []].
    case_bool_decide as H1; simpl; [by intros []|].
    case_bool_decide as H2; simpl; [|by intros []].
    intros [<-|[]]. exists e, r0, rest, g, vp.
    repeat split; try done. lia.
  - intros (e & r0 & rest & g & vp & -> & -> & Er & Hspan & Eg & Ev & H1 & H2
            & _ & ->).
    rewrite Er.
    destruct (Z.leb_spec (end_line r0 - start_line r0) 1); [lia|].
    rewrite Eg, Ev.
    rewrite (bool_decide_eq_false_2 _ H1), (bool_decide_eq_true_2 _ H2).
    simpl. by left.
Qed.

End ViewportFacts.

(** ** Event bus *)

Section EventBusFacts.
Context {Data Handler : Type}.
Import EventBus.

Lemma flat_map_call_listener (ls : list (nat * Listener Handler))
    (n : string) (d : Data) :
  flat_map (fun '(_, l) => call_listener l (mkEvent n d)) ls
  = map (fun '(_, l) => (l_handler l, d))
      (List.filter (fun '(_, l) => bool_decide (l_name l = n)) ls).
Proof.
  induction ls as [|[i l] ls IH]; [done|].
  simpl. unfold call_listener at 1. simpl.
  case_bool_decide; simpl; by rewrite IH.
Qed.

(** The calls of a firing after one more registration. *)
Lemma fire_after_on (bus : EventBus.t Handler) (m : string) (hd : Handler)
    (n : string) (d : Data) :
  fire (on bus m hd).1 n d
  = ((on bus m hd).1,
     (fire bus n d).2 ++ (if bool_decide (m = n) then [(hd, d)] else [])).
Proof.
  unfold fire, emitter_fire, on. cbn [fst snd listeners].
  rewrite flat_map_app. cbn [flat_map]. unfold call_listener at 2.
  cbn [l_name l_handler name data]. by rewrite app_nil_r.
Qed.

(** C7. Let the handlers [regs] be registered with [on], one after the
    other, on a bus.  Firing [n] with [d] then calls what it called before
    these registrations and, after that and in registration order, the
    handlers of exactly those registrations of [regs] whose name is [n],
    each with [d] itself; the bus it returns is the bus it was given, so
    that the listeners change by [on] only.  On a bus without listeners
    these are all the calls; on any bus the calls are those of the listeners
    whose name is the fired one. *)
Theorem fire_fan_out (bus : EventBus.t Handler) (regs : list (string * Handler))
    (n : string) (d : Data) :
  fire (fold_left (fun b r => (on b r.1 r.2).1) regs bus) n d
  = (fold_left (fun b r => (on b r.1 r.2).1) regs bus,
     (fire bus n d).2
     ++ map (fun r => (r.2, d))
          (List.filter (fun r => bool_decide (r.1 = n)) regs))
  /\ fire (fold_left (fun b r => (on b r.1 r.2).1) regs empty) n d
     = (fold_left (fun b r => (on b r.1 r.2).1) regs empty,
        map (fun r => (r.2, d))
          (List.filter (fun r => bool_decide (r.1 = n)) regs))
  /\ fire bus n d
     = (bus, map (fun '(_, l) => (l_handler l, d))
               (List.filter (fun '(_, l) => bool_decide (l_name l = n))
                  (listeners bus))).
Proof.
  assert (Hgen : forall (rs : list (string * Handler)) (b : EventBus.t Handler),
            fire (fold_left (fun b r => (on b r.1 r.2).1) rs b) n d
            = (fold_left (fun b r => (on b r.1 r.2).1) rs b,
               (fire b n d).2
               ++ map (fun r => (r.2, d))
                    (List.filter (fun r => bool_decide (r.1 = n)) rs))).
  { induction rs as [|[m hd] rs IH]; intros b.
    - cbn [fold_left List.filter map]. by rewrite app_nil_r.
    - cbn [fold_left]. rewrite IH. f_equal.
      cbn [fst snd]. rewrite fire_after_on. cbn [fst snd List.filter].
      rewrite <- app_assoc. f_equal.
      by destruct (bool_decide (m = n)). }
  split; [apply Hgen|]. split; [apply (Hgen regs empty)|].
  unfold fire, emitter_fire. by rewrite flat_map_call_listener.
Qed.

(** A handler registered with [on] is on the bus under that name, after the
    listeners that were there. *)
Lemma on_registers (bus : EventBus.t Handler) (n : string) (hd : Handler) :
  listeners (on bus n hd).1
  = listeners bus ++ [(next_id bus, mkListener n hd)].
Proof. done. Qed.

End EventBusFacts.

(** ** Content provider *)

Section ProviderFacts.
Import BufferProvider.

(** C9. The provider returns nothing exactly when no backend buffer has the
    id parsed from the authority of the URI, or the request was cancelled, or
    the buffer has no line or a single empty line; otherwise it returns the
    lines of that buffer joined by newline characters. *)
Theorem provideTextDocumentContent_result (be : Backend) (uri : Uri)
    (isCancellationRequested : bool) :
  let r := (provideTextDocumentContent be uri isCancellationRequested).1 in
  (r = None <->
     find_buffer be (parseInt (authority uri)) = None
     \/ isCancellationRequested = true
     \/ exists bid ls, find_buffer be (parseInt (authority uri)) = Some (bid, ls)
                       /\ (ls = [] \/ ls = [""]))
  /\ (forall s, r = Some s ->
        exists bid ls, find_buffer be (parseInt (authority uri)) = Some (bid, ls)
                       /\ parseInt (authority uri) = Some bid
                       /\ s = join newline ls).
Proof.
  unfold provideTextDocumentContent.
  destruct (find_buffer be _) as [[bid ls]|] eqn:Ef; simpl.
  2:{ split; [|done]. split; auto. }
  pose proof Ef as Hid. unfold find_buffer in Hid.
  apply find_some in Hid as [_ Hid]. apply bool_decide_eq_true_1 in Hid.
  destruct isCancellationRequested; simpl.
  { split; [|done]. split; auto. }
  destruct ls as [|l0 rest]; simpl.
  { split; [|done]. split; [|done]. intros _. right; right. eauto. }
  case_bool_decide as Hr; simpl.
  - case_bool_decide as Hl; simpl.
    + subst. split; [|done]. split; [|done]. intros _. right; right. eauto.
    + split.
      * split; [done|]. intros [?|[?|(b & l & [= <- <-] & [?|[= ? ?]])]];
          congruence.
      * intros s [= <-]. eauto.
  - split.
    + split; [done|]. intros [?|[?|(b & l & [= <- <-] & [?|[= ? ?]])]];
        congruence.
    + intros s [= <-]. eauto.
Qed.

End ProviderFacts.

(** ** External documents and buffer initialisation *)

Section InitFacts.
Import BufferManager.
#[local] Arguments initRequests : simpl never.

Lemma isExternalTextDocument_ext (h : Host) (b b' : BufferManager.t)
    (doc : TextDocument) :
  externalTextDocuments b' = externalTextDocuments b ->
  isExternalTextDocument h b' doc = isExternalTextDocument h b doc.
Proof. unfold isExternalTextDocument. by intros ->. Qed.

Lemma modifiable_in_initRequests (h : Host) (b : BufferManager.t)
    (doc : TextDocument) (bufId : Z) (editor : option TextEditor) (v : bool) :
  In ("nvim_buf_set_option", [AInt bufId; AStr "modifiable"; ABool v])
     (initRequests h b doc bufId editor)
  <-> v = negb (isExternalTextDocument h b doc).
Proof.
  unfold initRequests, tabOptions. simpl. split.
  - intros H. repeat (destruct H as [H|H]; [by inversion H|]). done.
  - intros ->. do 5 right. by left.
Qed.

(** What [initBufferForDocument] does, in full. *)
Lemma initBufferForDocument_run (h : Host) (b : BufferManager.t)
    (doc : TextDocument) (bufId : Z) (editor : option TextEditor) :
  let opts := (fun e => options (editors h e)) <$> editor in
  let b1 := match editor with
            | Some e =>
                set_editorTabConfiguration
                  (<[e := mkTab (from_option tabSize 4 opts)
                            (from_option insertSpaces true opts)]>
                     (editorTabConfiguration b)) b
            | None => b
            end in
  initBufferForDocument h doc bufId editor b
  = (Returned tt, b1,
     Client (CallAtomic (initRequests h b1 doc bufId editor))
     :: Client (CallAtomic (tabOptions bufId
                              (from_option insertSpaces true opts)
                              (from_option tabSize 4 opts)))
     :: (if isExternalTextDocument h b doc then []
         else [Client (CallFunction "VSCodeClearUndo" [AInt bufId])])
     ++ (if onBufferInit b then [OnBufferInit bufId doc] else [])
     ++ [Client (BufListen bufId "lines")]).
Proof.
  destruct editor as [e|];
    cbv beta iota zeta delta [initBufferForDocument bind modify ret get_state
                                emit when fmap option_fmap option_map
                                from_option];
    rewrite ?(isExternalTextDocument_ext h b) by done;
    destruct (isExternalTextDocument h b doc);
    destruct b as [? ? ? ? ? ? ? ? ? [|] ? ? ?]; reflexivity.
Qed.

(** C10. [isExternalTextDocument] is false for a document of scheme
    "output", in the external set or not, and for any other document it is
    true exactly when the document is in the external set; the first atomic
    batch of [initBufferForDocument] sets the option "modifiable" to the
    negation of that value, so to true for an "output" document. *)
Theorem external_document_modifiable (h : Host) (b : BufferManager.t)
    (doc : TextDocument) (bufId : Z) (editor : option TextEditor) :
  (scheme (uri (documents h doc)) = "output" ->
     isExternalTextDocument h b doc = false)
  /\ (scheme (uri (documents h doc)) ≠ "output" ->
        (isExternalTextDocument h b doc = true
         <-> doc ∈ externalTextDocuments b))
  /\ (exists b1 rest,
        initBufferForDocument h doc bufId editor b
        = (Returned tt, b1,
           Client (CallAtomic (initRequests h b1 doc bufId editor)) :: rest)
        /\ externalTextDocuments b1 = externalTextDocuments b
        /\ forall v,
             In ("nvim_buf_set_option",
                 [AInt bufId; AStr "modifiable"; ABool v])
                (initRequests h b1 doc bufId editor)
             <-> v = negb (isExternalTextDocument h b doc)).
Proof.
  split; [|split].
  - intros Hs. unfold isExternalTextDocument.
    by rewrite bool_decide_eq_true_2.
  - intros Hs. unfold isExternalTextDocument.
    rewrite bool_decide_eq_false_2 by done. apply bool_decide_eq_true.
  - rewrite initBufferForDocument_run.
    eexists _, _. split; [reflexivity|].
    split; [by destruct editor|].
    intros v. rewrite modifiable_in_initRequests.
    rewrite (isExternalTextDocument_ext h b); [done|by destruct editor].
Qed.

End InitFacts.

(** ** IME composition *)

Section CompositionFacts.
Context {CodeUnit : Type}.
Variable normalizeInputString : list CodeUnit -> bool -> list CodeUnit.
Import TypingManager.

Lemma substring0_firstn (s : list CodeUnit) (cnt : Z) :
  substring0 s (Z.of_nat (length s) - cnt)
  = firstn (length s - Z.to_nat cnt) s.
Proof.
  unfold substring0. f_equal. lia.
Qed.

(** During a composition, with no insert-mode entry or exit pending, every
    input goes to the accumulator and nothing is sent. *)
Lemma composing_accumulates (ins : list (CompositionInput CodeUnit))
    (st : TypingManager.t CodeUnit) (sent : list (Sent CodeUnit)) :
  isInComposition st = true ->
  isEnteringInsertMode st = false ->
  isExitingInsertMode st = false ->
  let r := fold_left (handle normalizeInputString) ins (st, sent) in
  r.2 = sent
  /\ composingText r.1 = fold_left composed ins (composingText st)
  /\ isInComposition r.1 = true
  /\ isEnteringInsertMode r.1 = false
  /\ isExitingInsertMode r.1 = false.
Proof.
  revert st sent. induction ins as [|i ins IH];
    intros [ty rp ex en et pe pn ic ct] sent Hc He Hx; simpl in *; subst;
    [done|].
  destruct i as [m blocking text|text cnt];
    cbn [fold_left handle fst snd onVSCodeType onReplacePreviousChar composed
         isEnteringInsertMode isExitingInsertMode isInComposition
         composingText].
  - rewrite app_nil_r. by apply IH.
  - fold (substring0 ct (Z.of_nat (length ct) - cnt)).
    rewrite substring0_firstn. by apply IH.
Qed.

(** C8. When a composition ends the composing flag is cleared and the
    accumulator is emptied, whatever the state; the accumulated text is sent
    as input, through [normalizeInputString], when the backend is not in
    insert mode, and nothing is sent when it is.  With no insert-mode entry
    or exit pending when the composition starts, nothing was sent while
    composing and the accumulated text is the one composed from the inputs :
    typed text appended, a replacement of the previous characters first
    dropping the last [replaceCharCnt] units. *)
Theorem composition_end (m : Mode) (st : TypingManager.t CodeUnit)
    (ins : list (CompositionInput CodeUnit)) :
  let started := onCompositionStart st in
  let '(composing, sent) :=
    fold_left (handle normalizeInputString) ins (started, []) in
  let '(ended, sent_at_end) := onCompositionEnd normalizeInputString m composing in
  isInComposition ended = false
  /\ composingText ended = []
  /\ sent_at_end
     = (if isInsertMode m then []
        else [Input (normalizeInputString (composingText composing)
                       (negb (isRecordingInInsertMode m)))])
  /\ (isEnteringInsertMode st = false ->
      isExitingInsertMode st = false ->
      sent = []
      /\ composingText composing = fold_left composed ins (composingText st)).
Proof.
  simpl.
  pose proof (composing_accumulates ins (onCompositionStart st) [] eq_refl)
    as H.
  simpl in H. destruct (fold_left _ ins _) as [composing sent].
  simpl in *. repeat split; try done.
  - by destruct (isInsertMode m).
  - by apply H.
  - by apply H.
Qed.

(** The end of a composition alone, from any state. *)
Lemma onCompositionEnd_always (m : Mode) (st : TypingManager.t CodeUnit) :
  let '(ended, sent) := onCompositionEnd normalizeInputString m st in
  isInComposition ended = false
  /\ composingText ended = []
  /\ sent = if isInsertMode m then []
            else [Input (normalizeInputString (composingText st)
                           (negb (isRecordingInInsertMode m)))].
Proof. simpl. by destruct (isInsertMode m). Qed.

End CompositionFacts.

(** ** Active editor sync *)

Section ActiveEditorFacts.
Import BufferManager.

Lemma finish_run (b : BufferManager.t) :
  finish b
  = (Returned tt, set_syncActiveEditorPromise None b,
     match syncActiveEditorPromise b with
     | Some p => [PromiseResolve p]
     | None => []
     end).
Proof.
  unfold finish, bind, get_state, modify, emit, ret.
  by destruct (syncActiveEditorPromise b).
Qed.

(** C3. Active-editor sync for an active editor without a window mapping
    logs the desynchronisation error, returns without throwing, calls
    [resolve()] on the pending active-editor-sync promise and clears the
    field; nothing else in the manager changes. *)
Theorem syncActiveEditor_desynchronized (h : Host) (be : Backend)
    (b : BufferManager.t) (e : TextEditor) :
  activeTextEditor h = Some e ->
  JsMap.get (textEditorToWinId b) e = None ->
  syncActiveEditor h be b
  = (Returned tt, set_syncActiveEditorPromise None b,
     LoggerError (UnableToDetermineWindow e)
     :: match syncActiveEditorPromise b with
        | Some p => [PromiseResolve p]
        | None => []
        end).
Proof.
  intros Ha Hw. unfold syncActiveEditor. rewrite Ha.
  unfold bind at 1. unfold get_state at 1. rewrite Hw.
  unfold bind, emit. by rewrite finish_run.
Qed.

(** Every path of [syncActiveEditor] ends in [finish] : it returns, and the
    pending promise, if any, is resolved last and cleared. *)
Lemma syncActiveEditor_finishes (h : Host) (be : Backend) (b : BufferManager.t) :
  exists t,
    syncActiveEditor h be b
    = (Returned tt, set_syncActiveEditorPromise None b,
       t ++ match syncActiveEditorPromise b with
            | Some p => [PromiseResolve p]
            | None => []
            end).
Proof.
  unfold syncActiveEditor.
  destruct (activeTextEditor h) as [e|].
  2:{ exists []. by rewrite finish_run. }
  unfold bind at 1. unfold get_state at 1.
  destruct (JsMap.get (textEditorToWinId b) e) as [w|].
  2:{ eexists [_]. unfold bind, emit. by rewrite finish_run. }
  case_bool_decide.
  { eexists [_]. unfold bind, emit. by rewrite finish_run. }
  destruct (nvim_set_current_win be w) as [msg|];
    unfold bind, emit, ret; rewrite finish_run.
  - by eexists [_; _; _].
  - by eexists [_; _].
Qed.

End ActiveEditorFacts.

(** ** External buffers *)

Section ExternalBufferFacts.
Import BufferManager.

(** C4, as stated, fails : a request for buffer 1 whose name is a host-owned
    URI is not ignored.  For the name [file:///a.txt] the handler maps the
    open document to buffer 1 and shows it. *)
Lemma external_buffer_id1_host_uri_not_ignored :
  parseInt "1" = Some 1
  /\ exists m,
       handleExtensionRequest_external_buffer Scenario.host_file
         Scenario.backend_empty "file:///a.txt" "1" 0 4 = Some m
       /\ m init ≠ (Returned tt, init, [])
       /\ textDocumentToBufferId (m init).1.2 = [(1%positive, 1)]
       /\ (m init).2 = [ShowTextDocument 1%positive (Some (-1)) false].
Proof.
  split; [reflexivity|]. eexists. split; [reflexivity|].
  split; [|split; reflexivity].
  intros H. apply (f_equal snd) in H. vm_compute in H. discriminate.
Qed.

(** C4, amended. A request for buffer 1 is ignored when its name is not a
    host-owned URI name (it is empty, or [isVscodeUriName] rejects it) or is
    the name of an output buffer : the handler returns, the manager is
    unchanged and nothing is opened, shown, attached or sent. *)
Theorem external_buffer_id1_ignored (h : Host) (be : Backend)
    (name idStr : string) (expandTab tabStop : Z) :
  parseInt idStr = Some 1 ->
  name = "" \/ isVscodeUriName name = false
  \/ startsWith name (String.append BUFFER_NAME_PREFIX "output:") = true ->
  exists m,
    handleExtensionRequest_external_buffer h be name idStr expandTab tabStop
    = Some m
    /\ forall b, m b = (Returned tt, b, []).
Proof.
  intros Hid Hname. unfold handleExtensionRequest_external_buffer.
  destruct (startsWith name _) eqn:Eo; [by eexists|].
  rewrite Hid. simpl. eexists. split; [reflexivity|]. intros b.
  destruct Hname as [->|[Hn|Hn]]; [done| |done].
  by rewrite Hn, andb_false_r.
Qed.

End ExternalBufferFacts.

(** ** JS maps as association lists *)

Section JsMapFacts.
Context {K V : Type} `{EqDecision K}.
Implicit Types (m : list (K * V)) (k : K) (v : V).

Lemma jsmap_delete_filter m k :
  JsMap.delete m k = List.filter (fun kv => negb (bool_decide (kv.1 = k))) m.
Proof.
  induction m as [|[k' v'] m IH]; [done|]. simpl.
  destruct (decide (k' = k)) as [->|Hne].
  - by rewrite bool_decide_eq_true_2.
  - rewrite bool_decide_eq_false_2 by done. simpl. by rewrite IH.
Qed.

Lemma jsmap_get_filter (P : K -> bool) m k :
  JsMap.get (List.filter (fun kv => P kv.1) m) k
  = if P k then JsMap.get m k else None.
Proof.
  induction m as [|[k' v'] m IH]; simpl; [by destruct (P k)|].
  destruct (P k') eqn:Ep; simpl.
  - destruct (decide (k' = k)) as [->|Hne]; [by rewrite Ep|]. apply IH.
  - rewrite IH. destruct (decide (k' = k)) as [->|Hne]; [by rewrite Ep|done].
Qed.

Lemma jsmap_get_In m k v : JsMap.get m k = Some v -> In (k, v) m.
Proof.
  induction m as [|[k' v'] m IH]; simpl; [done|].
  destruct (decide (k' = k)) as [->|Hne]; [intros [= ->]; by left|].
  intros Hg. right. by apply IH.
Qed.

Lemma jsmap_get_delete_eq m k : JsMap.get (JsMap.delete m k) k = None.
Proof.
  rewrite jsmap_delete_filter.
  pose proof (jsmap_get_filter (fun k' => negb (bool_decide (k' = k))) m k)
    as Hf.
  cbv beta in Hf. rewrite Hf. by rewrite bool_decide_eq_true_2.
Qed.

Lemma jsmap_get_set_eq m k v : JsMap.get (JsMap.set m k v) k = Some v.
Proof.
  induction m as [|[k' v'] m IH]; simpl.
  - by rewrite decide_True.
  - destruct (decide (k' = k)) as [->|Hne]; simpl.
    + by rewrite decide_True.
    + by rewrite decide_False.
Qed.
End JsMapFacts.

Lemma filter_filter_andb {A : Type} (P Q : A -> bool) (l : list A) :
  List.filter P (List.filter Q l) = List.filter (fun x => Q x && P x) l.
Proof.
  induction l as [|x l IH]; [done|]. simpl.
  destruct (Q x); simpl; [destruct (P x)|]; by rewrite IH.
Qed.

Lemma existsb_In_editor (l : list TextEditor) (e : TextEditor) :
  BufferManager.includes_editor l e = true <-> In e l.
Proof.
  unfold BufferManager.includes_editor. rewrite existsb_exists. split.
  - intros (x & Hx & Hd). apply bool_decide_eq_true_1 in Hd. by subst.
  - intros Hin. exists e. split; [done|]. by apply bool_decide_eq_true_2.
Qed.

(** ** Clean-up of windows and buffers *)

Section CleanupFacts.
Import BufferManager.
Variable h : Host.
Variable cur : list TextEditor.

(** The test of the second [forEach] : no editor of the snapshot shows the
    document, and the document is closed. *)
#[local] Abbreviation gone doc :=
  (negb (shown_in h cur doc) && isClosed (documents h doc)).

#[local] Abbreviation hidden e := (negb (includes_editor cur e)).

Lemma set_textDocumentToBufferId_same (b : BufferManager.t) :
  set_textDocumentToBufferId (textDocumentToBufferId b) b = b.
Proof. by destruct b. Qed.

Lemma filter_all {A : Type} (P : A -> bool) (l : list A) :
  (forall x, In x l -> P x = true) -> List.filter P l = l.
Proof.
  induction l as [|x l IH]; [done|]. intros Hall. simpl.
  rewrite Hall by (by left). f_equal. apply IH. intros y Hy. apply Hall.
  by right.
Qed.

Lemma set_textDocumentToBufferId_twice (x y : list (TextDocument * Z))
    (b : BufferManager.t) :
  set_textDocumentToBufferId x (set_textDocumentToBufferId y b)
  = set_textDocumentToBufferId x b.
Proof. reflexivity. Qed.

Lemma set_windows_twice (x x' : gmap Z TextEditor)
    (y y' : list (TextEditor * Z)) (b : BufferManager.t) :
  set_winIdToEditor x
    (set_textEditorToWinId y (set_winIdToEditor x' (set_textEditorToWinId y' b)))
  = set_winIdToEditor x (set_textEditorToWinId y b).
Proof. reflexivity. Qed.

Lemma deleteBuffer_fold (l : list (TextDocument * Z)) (b : BufferManager.t)
    (acc : list Z) :
  fold_left (deleteBuffer_step h cur) l (b, acc)
  = (set_textDocumentToBufferId
       (List.filter
          (fun kv => negb (existsb (fun kv' => bool_decide (kv'.1 = kv.1)
                                               && gone (kv'.1)) l))
          (textDocumentToBufferId b)) b,
     acc ++ map snd (List.filter (fun kv => gone (kv.1)) l)).
Proof.
  revert b acc. induction l as [|[doc bufId] l IH]; intros b acc.
  - simpl. rewrite app_nil_r. rewrite filter_all by done.
    by rewrite set_textDocumentToBufferId_same.
  - cbn [fold_left deleteBuffer_step]. cbn [existsb List.filter map fst snd].
    destruct (gone doc) eqn:Eg.
    + rewrite IH. cbn [map snd]. rewrite <- app_assoc. f_equal.
      rewrite set_textDocumentToBufferId_twice.
      cbn [textDocumentToBufferId set_textDocumentToBufferId].
      rewrite jsmap_delete_filter, filter_filter_andb.
      f_equal. apply List.filter_ext. intros [d v]. cbn [fst].
      rewrite andb_true_r, negb_orb.
      by rewrite (bool_decide_ext (doc = d) (d = doc)) by (split; congruence).
    + rewrite IH. f_equal. f_equal. apply List.filter_ext. intros [d v].
      cbn [fst]. by rewrite andb_false_r.
Qed.

Lemma set_both_same (b : BufferManager.t) :
  set_winIdToEditor (winIdToEditor b)
    (set_textEditorToWinId (textEditorToWinId b) b) = b.
Proof. by destruct b. Qed.

Lemma closeWindow_fold (l : list (TextEditor * Z)) (b : BufferManager.t)
    (acc : list Z) :
  let removed := map snd (List.filter (fun kv => hidden (kv.1)) l) in
  fold_left (closeWindow_step cur) l (b, acc)
  = (set_winIdToEditor
       (fold_left (fun m w => base.delete w m) removed (winIdToEditor b))
       (set_textEditorToWinId
          (List.filter
             (fun kv => negb (existsb (fun kv' => bool_decide (kv'.1 = kv.1)
                                                  && hidden (kv'.1)) l))
             (textEditorToWinId b)) b),
     acc ++ removed).
Proof.
  revert b acc. induction l as [|[e w] l IH]; intros b acc.
  - simpl. rewrite app_nil_r. rewrite filter_all by done.
    by rewrite set_both_same.
  - cbn [fold_left closeWindow_step]. cbn [existsb List.filter map fst snd].
    destruct (hidden e) eqn:Eh.
    + rewrite IH. cbn [map snd fold_left]. rewrite <- app_assoc. f_equal.
      rewrite set_windows_twice.
      cbn [textEditorToWinId winIdToEditor set_textEditorToWinId
           set_winIdToEditor].
      rewrite jsmap_delete_filter, filter_filter_andb.
      f_equal. f_equal. apply List.filter_ext. intros [d v]. cbn [fst].
      rewrite andb_true_r, negb_orb.
      by rewrite (bool_decide_ext (e = d) (d = e)) by (split; congruence).
    + rewrite IH. cbn zeta. f_equal. f_equal. f_equal.
      apply List.filter_ext. intros [d v].
      cbn [fst]. by rewrite andb_false_r.
Qed.

Lemma lookup_fold_delete (ws : list Z) (m : gmap Z TextEditor) (w : Z) :
  (In w ws -> fold_left (fun m w => base.delete w m) ws m !! w = None)
  /\ (~ In w ws -> fold_left (fun m w => base.delete w m) ws m !! w = m !! w).
Proof.
  revert m. induction ws as [|w' ws IH]; intros m; [by split|].
  simpl. destruct (IH (base.delete w' m)) as [IH1 IH2].
  destruct (decide (w' = w)) as [->|Hne]; split.
  - intros _. destruct (In_dec Z.eq_dec w ws) as [Hin|Hin]; [by apply IH1|].
    rewrite IH2 by done. apply lookup_delete_eq.
  - intros Hn. exfalso. apply Hn. by left.
  - intros [?|Hin]; [done|]. by apply IH1.
  - intros Hn. rewrite IH2 by (intros ?; apply Hn; by right).
    by apply lookup_delete_ne.
Qed.

Lemma existsb_same_key {K V : Type} `{EqDecision K} (P : K -> bool)
    (l : list (K * V)) (kv : K * V) :
  In kv l ->
  existsb (fun kv' => bool_decide (kv'.1 = kv.1) && P (kv'.1)) l = P (kv.1).
Proof.
  intros Hin. destruct (P (kv.1)) eqn:Ep.
  - apply existsb_exists. exists kv. split; [done|].
    by rewrite bool_decide_eq_true_2, Ep.
  - apply not_true_is_false. intros (kv' & _ & Hk)%existsb_exists.
    apply andb_true_iff in Hk as [Hk Hp]. apply bool_decide_eq_true_1 in Hk.
    rewrite Hk in Hp. congruence.
Qed.

Lemma filter_same_key {K V : Type} `{EqDecision K} (P : K -> bool)
    (l : list (K * V)) :
  List.filter
    (fun kv => negb (existsb (fun kv' => bool_decide (kv'.1 = kv.1)
                                         && P (kv'.1)) l)) l
  = List.filter (fun kv => negb (P (kv.1))) l.
Proof.
  apply List.filter_ext_in. intros kv Hin.
  by rewrite (existsb_same_key P l kv Hin).
Qed.

Lemma shown_in_spec (doc : TextDocument) :
  shown_in h cur doc = true
  <-> exists e, In e cur /\ document (editors h e) = doc.
Proof.
  unfold shown_in. rewrite existsb_exists. split.
  - intros (e & He & Hd). apply bool_decide_eq_true_1 in Hd. eauto.
  - intros (e & He & Hd). exists e. split; [done|].
    by apply bool_decide_eq_true_2.
Qed.

(** The synchronous part of the clean-up, computed. *)
Lemma syncLayout_collect_run (b : BufferManager.t) :
  let unusedWindows :=
    map snd (List.filter (fun kv => hidden (kv.1)) (textEditorToWinId b)) in
  let unusedBuffers :=
    map snd (List.filter (fun kv => gone (kv.1)) (textDocumentToBufferId b)) in
  syncLayout_collect h cur b
  = (Returned (unusedWindows, unusedBuffers),
     set_textDocumentToBufferId
       (List.filter (fun kv => negb (gone (kv.1))) (textDocumentToBufferId b))
       (set_winIdToEditor
          (fold_left (fun m w => base.delete w m) unusedWindows
             (winIdToEditor b))
          (set_textEditorToWinId
             (List.filter (fun kv => negb (hidden (kv.1)))
                (textEditorToWinId b)) b)),
     []).
Proof.
  unfold syncLayout_collect, bind, get_state, modify, ret.
  rewrite closeWindow_fold. cbv zeta.
  rewrite deleteBuffer_fold.
  cbn [textDocumentToBufferId set_winIdToEditor set_textEditorToWinId app].
  rewrite (filter_same_key (fun e => hidden e)).
  by rewrite (filter_same_key (fun d => gone d)).
Qed.

End CleanupFacts.

Section CleanupTheorem.
Import BufferManager.


(** The clean-up leaves the promise, the token source and the cancelled
    tokens alone and resolves nothing : between its start and its checkpoint
    a run does not take part in the resolution of the promise. *)
Lemma syncLayout_cleanup_keeps_sync_state (h : Host) (cur : list TextEditor)
    (b : BufferManager.t) :
  exists b1 t,
    syncLayout_cleanup h cur b = (Returned tt, b1, t)
    /\ syncLayoutPromise b1 = syncLayoutPromise b
    /\ syncLayoutCancelTokenSource b1 = syncLayoutCancelTokenSource b
    /\ cancelled b1 = cancelled b
    /\ next_promise b1 = next_promise b
    /\ next_token b1 = next_token b
    /\ forall p, LayoutSync.resolutions p t = 0%nat.
Proof.
  unfold syncLayout_cleanup, bind. rewrite syncLayout_collect_run.
  unfold syncLayout_bulk, bind, when, emit, ret. cbn [fst snd].
  destruct (bool_decide (_ = [])), (bool_decide (_ = []));
    eexists _, _; (split; [reflexivity|]); repeat split.
Qed.

End CleanupTheorem.

(** ** The debounced layout sync : who resolves the promise *)

Section LayoutSyncFacts.
Import BufferManager LayoutSync.

Lemma onDidChangeVisibleTextEditors_run (b : BufferManager.t) :
  exists b',
    onDidChangeVisibleTextEditors b = (Returned (next_token b), b', [])
    /\ syncLayoutCancelTokenSource b' = next_token b
    /\ next_token b' = S (next_token b)
    /\ cancelled b' = {[syncLayoutCancelTokenSource b]} ∪ cancelled b
    /\ syncLayoutPromise b'
       = Some (default (next_promise b) (syncLayoutPromise b))
    /\ next_promise b'
       = match syncLayoutPromise b with
         | Some _ => next_promise b
         | None => S (next_promise b)
         end.
Proof.
  destruct b as [[p|] src ap ext tdb tew wie gr etc obi np nt cn];
    eexists; (split; [reflexivity|]); repeat split.
Qed.

Lemma forceResync_run (b : BufferManager.t) :
  exists b',
    forceResync b = (Returned (syncLayoutCancelTokenSource b), b', [])
    /\ syncLayoutCancelTokenSource b' = syncLayoutCancelTokenSource b
    /\ next_token b' = next_token b
    /\ cancelled b' = cancelled b
    /\ syncLayoutPromise b'
       = Some (default (next_promise b) (syncLayoutPromise b))
    /\ next_promise b'
       = match syncLayoutPromise b with
         | Some _ => next_promise b
         | None => S (next_promise b)
         end.
Proof.
  destruct b as [[p|] src ap ext tdb tew wie gr etc obi np nt cn];
    eexists; (split; [reflexivity|]); repeat split.
Qed.

Lemma syncLayout_checkpoint_cancelled (token : nat) (b : BufferManager.t) :
  token ∈ cancelled b ->
  syncLayout_checkpoint token b = (Returned tt, b, []).
Proof.
  intros Hc. unfold syncLayout_checkpoint, bind, get_state.
  by rewrite bool_decide_eq_true_2.
Qed.

Lemma syncLayout_checkpoint_live (token : nat) (b : BufferManager.t) :
  token ∉ cancelled b ->
  syncLayout_checkpoint token b
  = (Returned tt, set_syncLayoutPromise None b,
     match syncLayoutPromise b with
     | Some p => [PromiseResolve p]
     | None => []
     end).
Proof.
  intros Hc. unfold syncLayout_checkpoint, bind, get_state.
  rewrite bool_decide_eq_false_2 by done.
  by destruct (syncLayoutPromise b).
Qed.

Lemma resolutions_app (p : nat) (t1 t2 : list Effect) :
  resolutions p (t1 ++ t2) = (resolutions p t1 + resolutions p t2)%nat.
Proof. unfold resolutions. by rewrite List.filter_app, length_app. Qed.

Lemma In_remove_first (x y : nat) (l : list nat) :
  x ≠ y -> In x l -> In x (remove_first y l).
Proof.
  intros Hne. induction l as [|z l IH]; [done|]. simpl.
  case_bool_decide; intros [->|Hin]; try done.
  - by left.
  - right. by apply IH.
Qed.

Lemma In_remove_first_inv (x y : nat) (l : list nat) :
  In x (remove_first y l) -> In x l.
Proof.
  induction l as [|z l IH]; [done|]. simpl.
  case_bool_decide; [by right|]. intros [->|Hin]; [by left|].
  right. by apply IH.
Qed.

Lemma Inv_init : Inv init.
Proof.
  split; simpl; try done.
  intros t. split; [set_solver|lia].
Qed.

(** A promise just created is outstanding, so counted as not resolved; the
    count expected for the older ones does not change. *)
Lemma fresh_promise_unresolved (np p : nat)
    (d1 : Decision ((p < np)%nat /\ None ≠ Some p))
    (d2 : Decision ((p < S np)%nat /\ Some np ≠ Some p)) :
  (if @bool_decide _ d1 then 1%nat else 0%nat)
  = (if @bool_decide _ d2 then 1%nat else 0%nat).
Proof.
  case_bool_decide as H1; case_bool_decide as H2; try done; exfalso.
  - apply H2. destruct H1 as [Hlt _]. split; [lia|]. intros [= E]. lia.
  - apply H1. destruct H2 as [Hlt Hne]. split; [|done].
    destruct (decide (p = np)) as [->|]; [done|lia].
Qed.

Lemma Inv_step (w w' : World) (e : Event) :
  Inv w -> step w e = Some w' -> Inv w'.
Proof.
  intros [Hn Hc Hp Hr Ho Hres] Hstep.
  destruct e as [| | |token]; simpl in Hstep.
  - destruct (onDidChangeVisibleTextEditors_run (manager w))
      as (b' & Hrun & Hsrc & Hnt & Hcn & Hpr & Hnp).
    rewrite Hrun in Hstep. injection Hstep as <-.
    split; cbn [manager syncLayoutDebounced running trace].
    + by rewrite Hnt, Hsrc.
    + intros t. rewrite Hcn, Hsrc, Hn, elem_of_union, elem_of_singleton, Hc.
      lia.
    + intros t [= <-]. by rewrite Hsrc.
    + intros t Ht. apply Hr in Ht. rewrite Hsrc, Hn. lia.
    + intros p. rewrite Hpr, Hnp, Hsrc. intros [= <-]. split; [|by left].
      destruct (syncLayoutPromise (manager w)) as [q|] eqn:Eq; simpl; [|lia].
      by apply Ho.
    + intros p. rewrite app_nil_r, Hres, Hpr, Hnp.
      destruct (syncLayoutPromise (manager w)) as [q|] eqn:Eq; simpl; [done|].
      apply fresh_promise_unresolved.
  - destruct (forceResync_run (manager w))
      as (b' & Hrun & Hsrc & Hnt & Hcn & Hpr & Hnp).
    rewrite Hrun in Hstep. injection Hstep as <-.
    split; cbn [manager syncLayoutDebounced running trace].
    + by rewrite Hnt, Hsrc.
    + intros t. by rewrite Hcn, Hsrc.
    + intros t [= <-]. by rewrite Hsrc.
    + intros t Ht. rewrite Hsrc. by apply Hr.
    + intros p. rewrite Hpr, Hnp, Hsrc. intros [= <-]. split; [|by left].
      destruct (syncLayoutPromise (manager w)) as [q|] eqn:Eq; simpl; [|lia].
      by apply Ho.
    + intros p. rewrite app_nil_r, Hres, Hpr, Hnp.
      destruct (syncLayoutPromise (manager w)) as [q|] eqn:Eq; simpl; [done|].
      apply fresh_promise_unresolved.
  - destruct (syncLayoutDebounced w) as [token|] eqn:Ed; [|done].
    injection Hstep as <-. pose proof (Hp token eq_refl) as ->.
    split; cbn [manager syncLayoutDebounced running trace]; try done.
    + intros t [Ht|[<-|[]]]%in_app_or; [by apply Hr|lia].
    + intros p Hpp. split; [by apply Ho|]. right. apply in_or_app.
      right. by left.
  - case_bool_decide as Hin; [|done]. apply list_elem_of_In in Hin.
    destruct (decide (token ∈ cancelled (manager w))) as [Hcan|Hlive].
    + rewrite syncLayout_checkpoint_cancelled in Hstep by done.
      injection Hstep as <-.
      split; cbn [manager syncLayoutDebounced running trace]; try done.
      * intros t Ht. by apply Hr, (In_remove_first_inv t token).
      * intros p Hpp. destruct (Ho p Hpp) as [Hlt [Hd|Hrun]]; split; auto.
        right. apply In_remove_first; [|done].
        apply Hc in Hcan. lia.
      * intros p. by rewrite app_nil_r.
    + rewrite syncLayout_checkpoint_live in Hstep by done.
      injection Hstep as <-.
      split; cbn [manager syncLayoutDebounced running trace
                  syncLayoutCancelTokenSource next_token cancelled
                  syncLayoutPromise next_promise set_syncLayoutPromise];
        try done.
      * intros t Ht. by apply Hr, (In_remove_first_inv t token).
      * intros p. rewrite resolutions_app, Hres.
        destruct (syncLayoutPromise (manager w)) as [q|] eqn:Eq.
        -- destruct (Ho q eq_refl) as [Hlt _]. unfold resolutions at 1.
           simpl. destruct (decide (q = p)) as [->|Hne].
           ++ rewrite (bool_decide_eq_true_2 (p = p)) by done.
              rewrite (bool_decide_eq_false_2 (_ /\ Some p ≠ Some p))
                by (intros [_ ?]; done).
              by rewrite bool_decide_eq_true_2.
           ++ rewrite (bool_decide_eq_false_2 (q = p)) by done. simpl.
              rewrite Nat.add_0_r.
              case_bool_decide as H1; case_bool_decide as H2; try done;
                exfalso.
              ** apply H2. by destruct H1.
              ** apply H1. destruct H2. split; [done|]. congruence.
        -- simpl. by rewrite Nat.add_0_r.
Qed.

Lemma Inv_exec (evs : list Event) (w w' : World) :
  Inv w -> exec w evs = Some w' -> Inv w'.
Proof.
  revert w. induction evs as [|e evs IH]; intros w Hi; simpl.
  - by intros [= <-].
  - destruct (step w e) as [w1|] eqn:Es; [|done].
    apply IH. by apply (Inv_step w w1 e).
Qed.

(** C1. In every world reached from the initial one by changes of the
    visible editors (and forced resyncs), elapsing of the debounce timer and
    runs reaching their checkpoint :
    - a run whose token was cancelled leaves the promise and the trace as
      they are when it reaches its checkpoint;
    - every promise created so far has been resolved once if it is no longer
      the outstanding one, and never if it is; no promise is resolved twice;
    - a run that does resolve holds the newest token, which is not
      cancelled;
    - an outstanding promise always has the call or the run that will
      resolve it pending or in flight, and letting that run reach its
      checkpoint resolves it, once; so when nothing is pending and no run is
      in flight, no promise is outstanding and every promise created has
      been resolved exactly once. *)
Theorem layout_sync_resolved_once (evs : list Event) (w : World) :
  exec init evs = Some w ->
  let b := manager w in
  let cur := syncLayoutCancelTokenSource b in
  (forall token w',
     token ∈ cancelled b ->
     step w (RunReachesCheckpoint token) = Some w' ->
     trace w' = trace w
     /\ syncLayoutPromise (manager w') = syncLayoutPromise b)
  /\ (forall p,
        resolutions p (trace w)
        = if bool_decide ((p < next_promise b)%nat /\ syncLayoutPromise b ≠ Some p)
          then 1%nat else 0%nat)
  /\ (forall token w',
        step w (RunReachesCheckpoint token) = Some w' ->
        trace w' ≠ trace w ->
        token = cur /\ token ∉ cancelled b)
  /\ (forall p,
        syncLayoutPromise b = Some p ->
        (syncLayoutDebounced w = Some cur \/ In cur (running w))
        /\ exists evs' w',
             (evs' = [DebounceElapsed; RunReachesCheckpoint cur]
              \/ evs' = [RunReachesCheckpoint cur])
             /\ exec w evs' = Some w'
             /\ trace w' = trace w ++ [PromiseResolve p]
             /\ resolutions p (trace w') = 1%nat
             /\ syncLayoutPromise (manager w') = None)
  /\ (syncLayoutDebounced w = None -> running w = [] ->
      syncLayoutPromise b = None
      /\ forall p, (p < next_promise b)%nat -> resolutions p (trace w) = 1%nat).
Proof.
  intros Hexec. pose proof (Inv_exec evs init w Inv_init Hexec) as Hinv.
  destruct Hinv as [Hn Hc Hp Hr Ho Hres]. cbv zeta.
  assert (Hcur : syncLayoutCancelTokenSource (manager w) ∉ cancelled (manager w)).
  { rewrite Hc. lia. }
  split; [|split; [exact Hres|split; [|split]]].
  - intros token w' Hcan Hstep. simpl in Hstep.
    case_bool_decide; [|done].
    rewrite syncLayout_checkpoint_cancelled in Hstep by done.
    injection Hstep as <-. simpl. by rewrite app_nil_r.
  - intros token w' Hstep Hne. simpl in Hstep.
    case_bool_decide as Hin; [|done]. apply list_elem_of_In in Hin.
    destruct (decide (token ∈ cancelled (manager w))) as [Hcan|Hlive].
    + rewrite syncLayout_checkpoint_cancelled in Hstep by done.
      injection Hstep as <-. simpl in Hne. by rewrite app_nil_r in Hne.
    + split; [|done]. apply Hr in Hin.
      assert (~ (token < syncLayoutCancelTokenSource (manager w))%nat)
        by (by rewrite <- Hc).
      lia.
  - intros p Hpp. destruct (Ho p Hpp) as [Hlt Hpend]. split; [done|].
    assert (Hzero : resolutions p (trace w) = 0%nat).
    { rewrite Hres. rewrite bool_decide_eq_false_2; [done|].
      intros [_ ?]. done. }
    assert (Hone : resolutions p (trace w ++ [PromiseResolve p]) = 1%nat).
    { rewrite resolutions_app, Hzero. unfold resolutions. simpl.
      by rewrite bool_decide_eq_true_2. }
    destruct Hpend as [Hd|Hrun].
    + eexists _, _. split; [by left|]. simpl. rewrite Hd. simpl.
      rewrite bool_decide_eq_true_2
        by (apply list_elem_of_In, in_or_app; right; by left).
      rewrite syncLayout_checkpoint_live by done. rewrite Hpp.
      split; [reflexivity|]. simpl. done.
    + eexists _, _. split; [by right|]. simpl.
      rewrite bool_decide_eq_true_2 by (by apply list_elem_of_In).
      rewrite syncLayout_checkpoint_live by done. rewrite Hpp.
      split; [reflexivity|]. simpl. done.
  - intros Hd Hrun.
    assert (Hnone : syncLayoutPromise (manager w) = None).
    { destruct (syncLayoutPromise (manager w)) as [p|] eqn:Ep; [|done].
      destruct (Ho p eq_refl) as [_ [Hd'|Hr']].
      - congruence.
      - rewrite Hrun in Hr'. done. }
    split; [done|]. intros p Hlt. rewrite Hres, Hnone.
    by rewrite bool_decide_eq_true_2.
Qed.

End LayoutSyncFacts.

(** ** The theorems at concrete inputs *)

Section Examples.
Import Scenario.

Example split_examples :
  split (eol_string LF) (String "a" (String (Ascii.ascii_of_nat 10) "b"))
  = ["a"; "b"]
  /\ split (eol_string CRLF)
       (String "a" (String (Ascii.ascii_of_nat 13)
                      (String (Ascii.ascii_of_nat 10) "")))
     = ["a"; ""]
  /\ split (eol_string LF) "" = [""].
Proof. repeat split. Qed.

Example parseInt_examples :
  parseInt "1" = Some 1 /\ parseInt " 12abc" = Some 12
  /\ parseInt "-7" = Some (-7) /\ parseInt "abc" = None /\ parseInt "" = None.
Proof. repeat split. Qed.

(** After the burst, promise 0 was resolved once and nothing is outstanding. *)
Lemma layout_sync_burst :
  LayoutSync.exec LayoutSync.init burst = Some burst_world
  /\ BufferManager.syncLayoutPromise (LayoutSync.manager burst_world) = None
  /\ LayoutSync.resolutions 0 (LayoutSync.trace burst_world) = 1%nat.
Proof.
  assert (Hexec : LayoutSync.exec LayoutSync.init burst = Some burst_world)
    by (vm_compute; reflexivity).
  split; [exact Hexec|].
  destruct (layout_sync_resolved_once burst burst_world Hexec)
    as (_ & _ & _ & _ & Hquiet).
  destruct (Hquiet eq_refl eq_refl) as [Hnone Hall].
  split; [exact Hnone|]. apply Hall. simpl. lia.
Defined.

(** Editor 1 is active and has no window : the error is logged and promise 0
    is resolved. *)
Lemma desynchronized_editor :
  activeTextEditor host_two_columns = Some 1%positive
  /\ JsMap.get (BufferManager.textEditorToWinId manager_desynchronized)
       1%positive = None
  /\ BufferManager.syncActiveEditor host_two_columns backend_empty
       manager_desynchronized
     = (Returned tt,
        BufferManager.set_syncActiveEditorPromise None manager_desynchronized,
        [LoggerError (UnableToDetermineWindow 1%positive); PromiseResolve 0]).
Proof.
  split; [reflexivity|]. split; [reflexivity|].
  exact (syncActiveEditor_desynchronized host_two_columns backend_empty
           manager_desynchronized 1%positive eq_refl eq_refl).
Defined.

(** The help file announced as buffer 1 is skipped. *)
Lemma help_buffer_1_ignored :
  parseInt "1" = Some 1
  /\ ("doc/help.txt" = ""
      \/ BufferManager.isVscodeUriName "doc/help.txt" = false
      \/ startsWith "doc/help.txt"
           (String.append BufferManager.BUFFER_NAME_PREFIX "output:") = true)
  /\ exists m,
       BufferManager.handleExtensionRequest_external_buffer host_two_columns
         backend_empty "doc/help.txt" "1" 1 8 = Some m
       /\ forall b, m b = (Returned tt, b, []).
Proof.
  split; [reflexivity|]. split; [right; left; reflexivity|].
  exact (external_buffer_id1_ignored host_two_columns backend_empty
           "doc/help.txt" "1" 1 8 eq_refl (or_intror (or_introl eq_refl))).
Defined.

(** A composition in normal mode : the composed code unit is what is sent. *)
Lemma composition_in_normal_mode :
  let '(composing, sent) :=
    fold_left (TypingManager.handle plain) composition
      (TypingManager.onCompositionStart TypingManager.init, []) in
  let '(ended, sent_at_end) :=
    TypingManager.onCompositionEnd plain normal_mode composing in
  sent = []
  /\ TypingManager.composingText composing = [20320]
  /\ TypingManager.isInComposition ended = false
  /\ TypingManager.composingText ended = []
  /\ sent_at_end = [TypingManager.Input [20320]].
Proof.
  pose proof (composition_end plain normal_mode TypingManager.init composition)
    as H.
  simpl in *. destruct H as (H1 & H2 & H3 & H4).
  destruct (H4 eq_refl eq_refl) as [H5 H6].
  repeat split; assumption.
Defined.

(** Editor 1 has left the snapshot, editor 2 still shows document A :
    window 10 is closed, buffer 2 stays. *)
Example column_1_closes :
  BufferManager.syncLayout_cleanup host_two_columns [2%positive]
    manager_two_columns
  = (Returned tt,
     BufferManager.set_winIdToEditor {[ 11 := 2%positive ]}
       (BufferManager.set_textEditorToWinId [(2%positive, 11)]
          manager_two_columns),
     [Client (ExecuteLua "require'vscode-neovim.api'.close_windows(...)"
                [AInts [10]])]).
Proof. vm_compute. reflexivity. Qed.

(** Handlers 8 and 10 registered for "redraw" and 9 for "other", after
    handler 7 : a "redraw" calls 7, 8 and 10, in that order, with the data
    fired. *)
Lemma redraw_fans_out :
  EventBus.fire
    (fold_left (fun b r => (EventBus.on b r.1 r.2).1)
       [("redraw", 8%nat); ("other", 9%nat); ("redraw", 10%nat)]
       Cases.bus_redraw) "redraw" 5%nat
  = (fold_left (fun b r => (EventBus.on b r.1 r.2).1)
       [("redraw", 8%nat); ("other", 9%nat); ("redraw", 10%nat)]
       Cases.bus_redraw,
     [(7%nat, 5%nat); (8%nat, 5%nat); (10%nat, 5%nat)]).
Proof.
  exact (proj1 (fire_fan_out Cases.bus_redraw
                  [("redraw", 8%nat); ("other", 9%nat); ("redraw", 10%nat)]
                  "redraw" 5%nat)).
Defined.



(** An output document of the external set is initialised modifiable. *)
Lemma output_document_modifiable :
  BufferManager.isExternalTextDocument host_output manager_output 1%positive
  = false
  /\ exists b1 rest,
       BufferManager.initBufferForDocument host_output 1%positive 7 None
         manager_output
       = (Returned tt, b1,
          Client (CallAtomic (BufferManager.initRequests host_output b1
                                1%positive 7 None)) :: rest)
       /\ In ("nvim_buf_set_option", [AInt 7; AStr "modifiable"; ABool true])
            (BufferManager.initRequests host_output b1 1%positive 7 None).
Proof.
  destruct (external_document_modifiable host_output manager_output 1%positive
              7 None) as (Hout & _ & (b1 & rest & Hrun & _ & Hmod)).
  split; [exact (Hout eq_refl)|].
  exists b1, rest. split; [exact Hrun|].
  apply Hmod. by rewrite (Hout eq_refl).
Defined.

(** Buffer 5 is provided as its two lines. *)
Lemma help_buffer_provided :
  exists bid ls,
    BufferProvider.find_buffer backend_help (parseInt "5") = Some (bid, ls)
    /\ parseInt "5" = Some bid
    /\ String "a" (String (Ascii.ascii_of_nat 10) "b")
       = join BufferProvider.newline ls.
Proof.
  destruct (provideTextDocumentContent_result backend_help
              (mkUri "vscode-neovim" "5" "/help") false) as [_ H].
  exact (H _ eq_refl).
Defined.

(** The scroll of window 10 reaches the viewport of grid 4 and no other. *)
Lemma window_scroll_grid_4_only :
  let gv' :=
    ViewportManager.handleExtensionRequest manager_two_columns "window-scroll"
      10 (ViewportManager.mkSaveView 21 3 0 3 5 0 7 2) viewports in
  gv' !! 4 = Some (ViewportManager.mkViewport 20 3 5 45 7 2)
  /\ gv' !! 5 = viewports !! 5.
Proof.
  pose proof (window_scroll_frame manager_two_columns 10
                (ViewportManager.mkSaveView 21 3 0 3 5 0 7 2) viewports) as H.
  change (BufferManager.getGridIdForWinId manager_two_columns 10)
    with (Some 4) in H.
  cbv zeta in H. destruct H as (Hother & _ & _ & _ & _ & Hnew & _).
  split.
  - rewrite Hnew by done. reflexivity.
  - apply Hother. done.
Defined.

(** Scrolling editor 1 to lines 10..40 while the backend shows 5.. : the
    viewport is moved, the top line being 10 - 3. *)
Example scroll_sent :
  ViewportManager.scrollNeovim host_two_columns 3 false manager_two_columns
    viewports (Some 1%positive)
  = [Lua "require('vscode-neovim.api').scroll_viewport(...)"
       [AInt 7; AInt 44]].
Proof. reflexivity. Qed.

(** A small extension cannot give a negative top line. *)
Example scroll_floor :
  ViewportManager.scrollNeovim host_two_columns 30 false manager_two_columns
    viewports (Some 1%positive)
  = [Lua "require('vscode-neovim.api').scroll_viewport(...)"
       [AInt 0; AInt 71]].
Proof. reflexivity. Qed.

Example window_scroll_grid_4 :
  ViewportManager.handleExtensionRequest manager_two_columns "window-scroll" 10
    (ViewportManager.mkSaveView 21 3 0 3 5 0 7 2) viewports
  = {[ 4 := ViewportManager.mkViewport 20 3 5 45 7 2 ]}.
Proof. vm_compute. reflexivity. Qed.

Example provide_lines :
  BufferProvider.provideTextDocumentContent
    backend_help (mkUri "vscode-neovim" "5" "/help") false
  = (Some (String "a" (String (Ascii.ascii_of_nat 10) "b")),
     [BufListen 5 "lines"; BufAttach 5 true]).
Proof. reflexivity. Qed.

Example fire_two_listeners :
  let bus := (EventBus.on (EventBus.on EventBus.empty "redraw" 7%nat).1
                "other" 8%nat).1 in
  EventBus.fire bus "redraw" [win_close [4]] = (bus, [(7%nat, [win_close [4]])]).
Proof. reflexivity. Qed.

End Examples.

(** * Further properties *)

(** ** More on JS maps *)

Section JsMapMoreFacts.
Context {K V : Type} `{EqDecision K}.
Implicit Types (m : list (K * V)) (k : K) (v : V).

Lemma jsmap_has_get m k : JsMap.has m k = true <-> exists v, JsMap.get m k = Some v.
Proof.
  unfold JsMap.has. destruct (JsMap.get m k) as [v|]; split; eauto.
  - done.
  - by intros [v' Hv'].
Qed.

Lemma jsmap_has_false m k : JsMap.has m k = false <-> JsMap.get m k = None.
Proof. unfold JsMap.has. by destruct (JsMap.get m k). Qed.

Lemma jsmap_get_set_ne m k k' v :
  k' ≠ k -> JsMap.get (JsMap.set m k v) k' = JsMap.get m k'.
Proof.
  intros Hne. induction m as [|[k0 v0] m IH]; simpl.
  - by rewrite decide_False.
  - destruct (decide (k0 = k)) as [->|Hk]; simpl.
    + by rewrite !decide_False.
    + by rewrite IH.
Qed.

Lemma jsmap_In_get m k v : In (k, v) m -> exists v', JsMap.get m k = Some v'.
Proof.
  induction m as [|[k0 v0] m IH]; simpl; [done|].
  intros [[= -> ->]|Hin].
  - rewrite decide_True by done. eauto.
  - destruct (decide (k0 = k)); eauto.
Qed.

Lemma jsmap_In_set m k v k' v' :
  In (k', v') (JsMap.set m k v) -> In (k', v') m \/ (k' = k /\ v' = v).
Proof.
  induction m as [|[k0 v0] m IH]; simpl.
  - intros [[= -> ->]|[]]. by right.
  - destruct (decide (k0 = k)) as [->|Hk]; simpl.
    + intros [[= -> ->]|Hin]; [by right|left; by right].
    + intros [Heq|Hin]; [left; by left|].
      destruct (IH Hin) as [?|?]; [left; by right|by right].
Qed.

(** The keys of a map built by [set] and [delete] are distinct. *)
Lemma jsmap_set_keys m k v :
  NoDup (map fst m) -> NoDup (map fst (JsMap.set m k v)).
Proof.
  induction m as [|[k0 v0] m IH]; simpl.
  - intros _. apply NoDup_singleton.
  - rewrite NoDup_cons. intros [Hn Hd].
    destruct (decide (k0 = k)) as [->|Hk]; simpl; rewrite NoDup_cons.
    + done.
    + split; [|by apply IH].
      intros Hin. apply Hn.
      apply list_elem_of_In, in_map_iff in Hin as ([k1 v1] & Hk1 & Hin).
      simpl in Hk1. subst k1.
      apply list_elem_of_In, in_map_iff.
      destruct (jsmap_In_set _ _ _ _ _ Hin) as [Him|[-> _]]; [|done].
      by exists (k0, v1).
Qed.

Lemma jsmap_delete_keys m k :
  NoDup (map fst m) -> NoDup (map fst (JsMap.delete m k)).
Proof.
  induction m as [|[k0 v0] m IH]; simpl; [done|].
  rewrite NoDup_cons. intros [Hn Hd].
  destruct (decide (k0 = k)); [by apply IH|].
  simpl. rewrite NoDup_cons. split; [|by apply IH].
  intros Hin. apply Hn. rewrite jsmap_delete_filter in Hin.
  apply list_elem_of_In, in_map_iff in Hin as (kv & Hk & Hin).
  apply filter_In in Hin as [Hin _].
  apply list_elem_of_In, in_map_iff. eauto.
Qed.

(** With distinct keys, an entry of the list is what [get] returns. *)
Lemma jsmap_NoDup_In_get m k v :
  NoDup (map fst m) -> In (k, v) m -> JsMap.get m k = Some v.
Proof.
  induction m as [|[k0 v0] m IH]; simpl; [done|].
  rewrite NoDup_cons. intros [Hn Hd] [[= -> ->]|Hin].
  - by rewrite decide_True.
  - destruct (decide (k0 = k)) as [->|Hk]; [|by apply IH].
    exfalso. apply Hn, list_elem_of_In, in_map_iff. by exists (k, v).
Qed.
End JsMapMoreFacts.

(** ** Running a method *)

Lemma bind_run {S A B : Type} (m : M S A) (k : A -> M S B) (s s1 : S) (a : A)
    (t1 : list Effect) :
  m s = (Returned a, s1, t1) ->
  bind m k s = (let '(r, s2, t2) := k a s1 in (r, s2, t1 ++ t2)).
Proof. intros Hm. unfold bind. by rewrite Hm. Qed.

Lemma bind_threw {S A B : Type} (m : M S A) (k : A -> M S B) (s s1 : S)
    (t1 : list Effect) :
  m s = (Threw, s1, t1) -> bind m k s = (Threw, s1, t1).
Proof. intros Hm. unfold bind. by rewrite Hm. Qed.

Section SyncLayoutFacts.
Import BufferManager SyncLayout.

Lemma extends_refl (b : BufferManager.t) : extends b b.
Proof. by repeat split. Qed.

Lemma extends_trans (b1 b2 b3 : BufferManager.t) :
  extends b1 b2 -> extends b2 b3 -> extends b1 b3.
Proof.
  unfold extends. intros H1 H2.
  destruct H1 as (A1&A2&A3&A4&A5&A6&A7&A8&A9&A10&A11).
  destruct H2 as (B1&B2&B3&B4&B5&B6&B7&B8&B9&B10&B11).
  repeat split; try congruence; eauto.
Qed.

Lemma logs_error_app (t1 t2 : list Effect) :
  logs_error (t1 ++ t2) <-> logs_error t1 \/ logs_error t2.
Proof.
  unfold logs_error. split.
  - intros [m [?|?]%in_app_or]; eauto.
  - intros [[m ?]|[m ?]]; exists m; apply in_or_app; auto.
Qed.

Lemma resolves_nothing_app (t1 t2 : list Effect) :
  resolves_nothing t1 -> resolves_nothing t2 -> resolves_nothing (t1 ++ t2).
Proof. intros H1 H2 p [?|?]%in_app_or; [by apply (H1 p)|by apply (H2 p)]. Qed.

(** The two tactics that close the side conditions on a computed trace. *)
Ltac no_such_effect :=
  let Hin := fresh "Hin" in
  intros Hin; simpl in Hin;
  repeat (destruct Hin as [Hin|Hin]; [discriminate|]); exact Hin.

Ltac no_error_logged :=
  let m := fresh "m" in
  let Hin := fresh "Hin" in
  intros [m Hin]; simpl in Hin;
  repeat (destruct Hin as [Hin|Hin]; [discriminate|]); exact Hin.

(** Case analysis on the answers a computed run depends on. *)
Ltac run_answers a :=
  repeat first
    [ progress cbv beta iota zeta
    | progress cbn [manager asked negb fst snd app]
    | match goal with
      | |- context [callAtomic a ?k] => destruct (callAtomic a k) eqn:?
      | |- context [call a ?k] => destruct (call a k) eqn:?
      | |- context [openWindow a ?k] => destruct (openWindow a k) eqn:?
      | |- context [createBuffer a ?k] => destruct (createBuffer a k) eqn:?
      | |- context [isExternalTextDocument ?h ?b ?d] =>
          destruct (isExternalTextDocument h b d) eqn:?
      | |- context [onBufferInit ?b] => destruct (onBufferInit b) eqn:?
      end ].

(** [initBufferForDocument] in a run. *)
Lemma initBufferForDocument_spec (a : Answers) (h : Host) (doc : TextDocument)
    (id : Z) (editor : option TextEditor) (r : Run) :
  exists res r' t,
    SyncLayout.initBufferForDocument a h doc id editor r = (res, r', t)
    /\ manager r'
       = match editor with
         | Some e =>
             set_editorTabConfiguration
               (<[e := mkTab
                         (from_option tabSize 4
                            ((fun e => options (editors h e)) <$> editor))
                         (from_option insertSpaces true
                            ((fun e => options (editors h e)) <$> editor))]>
                  (editorTabConfiguration (manager r))) (manager r)
         | None => manager r
         end
    /\ resolves_nothing t
    /\ (all_succeed a -> res = Returned tt /\ ~ logs_error t).
Proof.
  destruct r as [b n]. unfold SyncLayout.initBufferForDocument.
  cbv beta iota zeta delta [bind get_state lift modify ret awaitCallAtomic
                              awaitCall askCall when emit throw].
  cbn [manager asked].
  assert (Hok : forall k, all_succeed a ->
                          callAtomic a k = AtomicDone /\ call a k = CallDone).
  { intros k (_ & _ & H1 & H2). by split. }
  destruct editor as [e|];
    cbn [manager asked fmap option_fmap option_map from_option];
    run_answers a;
    (eexists _, _, _; split; [reflexivity|]; split; [reflexivity|];
     split; [intros p; no_such_effect|];
     intros Ha;
     pose proof (Hok n Ha) as [? ?];
     pose proof (Hok (S n) Ha) as [? ?];
     pose proof (Hok (S (S n)) Ha) as [? ?];
     first [congruence | split; [reflexivity|no_error_logged]]).
Qed.

Lemma ensureBuffer_spec (a : Answers) (h : Host) (e : TextEditor) (r : Run) :
  exists res r' t,
    ensureBuffer a h e r = (res, r', t)
    /\ extends (manager r) (manager r')
    /\ textEditorToWinId (manager r') = textEditorToWinId (manager r)
    /\ winIdToEditor (manager r') = winIdToEditor (manager r)
    /\ (res = Returned true ->
        JsMap.has (textDocumentToBufferId (manager r'))
          (document (editors h e)) = true)
    /\ (res = Returned false -> logs_error t)
    /\ (all_succeed a -> res = Returned true /\ ~ logs_error t)
    /\ (JsMap.has (textDocumentToBufferId (manager r))
          (document (editors h e)) = true ->
        res = Returned true /\ r' = r /\ t = [])
    /\ resolves_nothing t.
Proof.
  unfold ensureBuffer. cbv zeta. unfold bind at 1. unfold get_state at 1.
  destruct (JsMap.has (textDocumentToBufferId (manager r)) _) eqn:Hd.
  { exists (Returned true), r, []. split; [done|].
    split; [apply extends_refl|]. repeat split; try done.
    - by intros [m []].
    - by intros p []. }
  unfold bind at 1. unfold askBuffer at 1.
  set (r0 := mkRun (manager r) (S (asked r))).
  set (ask := Client (Request "nvim_create_buf" [ABool false; ABool true])).
  destruct (createBuffer a (asked r)) as [id|code|message] eqn:Ea.
  - destruct (initBufferForDocument_spec a h (document (editors h e)) id
                (Some e) r0) as (res & r1 & t1 & Hrun & Hm & Hp & Hok).
    destruct res as [[]|].
    + rewrite (bind_run _ _ _ _ _ _ Hrun).
      cbv beta iota zeta delta [bind lift modify ret]. rewrite Hm.
      cbn [manager asked fmap option_fmap option_map from_option].
      eexists _, _, _. split; [reflexivity|]. cbn [manager].
      split.
      { unfold extends. repeat split.
        - intros d id' Hg.
          cbn [textDocumentToBufferId set_textDocumentToBufferId
               set_editorTabConfiguration].
          rewrite jsmap_get_set_ne; [done|]. intros ->.
          apply jsmap_has_false in Hd. congruence.
        - done. }
      split; [done|]. split; [done|].
      split.
      { intros _. apply jsmap_has_get. eexists.
        cbn [textDocumentToBufferId set_textDocumentToBufferId].
        apply jsmap_get_set_eq. }
      split; [done|].
      split.
      { intros Ha. split; [done|]. destruct (Hok Ha) as [_ Hne].
        intros [m [[=]|Hin]]. rewrite !app_nil_r in Hin.
        apply Hne. by exists m. }
      split; [done|].
      intros p [[=]|Hin]. rewrite !app_nil_r in Hin. by apply (Hp p).
    + rewrite (bind_threw _ _ _ _ _ Hrun).
      eexists _, _, _. split; [reflexivity|]. rewrite Hm. cbn [manager].
      split.
      { unfold extends. repeat split; try done. }
      split; [done|]. split; [done|]. split; [done|]. split; [done|].
      split.
      { intros Ha. by destruct (Hok Ha). }
      split; [done|].
      intros p [[=]|Hin]. by apply (Hp p).
  - cbv beta iota zeta delta [bind emit ret].
    eexists _, _, _. split; [reflexivity|]. cbn [manager].
    split; [apply extends_refl|].
    split; [done|]. split; [done|]. split; [done|].
    split.
    { intros _. eexists. right. by left. }
    split.
    { intros (Hall & _). destruct (Hall (asked r)) as [id Hid]. congruence. }
    split; [done|]. intros p. no_such_effect.
  - cbv beta iota zeta delta [throw].
    eexists _, _, _. split; [reflexivity|]. cbn [manager].
    split; [apply extends_refl|].
    split; [done|]. split; [done|]. split; [done|]. split; [done|].
    split.
    { intros (Hall & _). destruct (Hall (asked r)) as [id Hid]. congruence. }
    split; [done|]. intros p. no_such_effect.
Qed.

Lemma ensureWindow_spec (a : Answers) (h : Host) (width : Z) (e : TextEditor)
    (r : Run) :
  exists r' t,
    ensureWindow a h width e r = (Returned tt, r', t)
    /\ extends (manager r) (manager r')
    /\ textDocumentToBufferId (manager r') = textDocumentToBufferId (manager r)
    /\ (JsMap.has (textDocumentToBufferId (manager r))
          (document (editors h e)) = true ->
        JsMap.has (textEditorToWinId (manager r')) e = true \/ logs_error t)
    /\ (all_succeed a -> ~ logs_error t)
    /\ (JsMap.has (textEditorToWinId (manager r)) e = true -> r' = r /\ t = [])
    /\ resolves_nothing t.
Proof.
  destruct r as [b n].
  cbv beta iota zeta delta [ensureWindow bind get_state ret].
  cbn [manager asked].
  destruct (JsMap.get (textDocumentToBufferId b) _) as [bufId|] eqn:Hg.
  2:{ eexists _, _. split; [reflexivity|]. cbn [manager].
      split; [apply extends_refl|]. split; [done|].
      split.
      { intros Hh. apply jsmap_has_get in Hh as [v Hv]. congruence. }
      split; [by intros _ [m []]|]. split; [done|]. by intros p []. }
  destruct (JsMap.has (textEditorToWinId b) e) eqn:He.
  { eexists _, _. split; [reflexivity|]. cbn [manager].
    split; [apply extends_refl|]. split; [done|].
    split; [by left|].
    split; [by intros _ [m []]|]. split; [done|]. by intros p []. }
  assert (Hok : forall k, all_succeed a ->
                          (exists w, openWindow a k = WindowOpened w)
                          /\ call a k = CallDone).
  { intros k (_ & H1 & _ & H2). by split. }
  assert (Hext : forall w,
            extends b
              (set_winIdToEditor (<[w := e]> (winIdToEditor b))
                 (set_textEditorToWinId (JsMap.set (textEditorToWinId b) e w)
                    b))).
  { intros w. unfold extends. repeat split; try done.
    intros e' w' Hg'.
    cbn [textEditorToWinId set_winIdToEditor set_textEditorToWinId].
    rewrite jsmap_get_set_ne; [done|]. intros ->.
    apply jsmap_has_false in He. congruence. }
  assert (Hhas : forall w,
            JsMap.has (textEditorToWinId
                         (set_winIdToEditor (<[w := e]> (winIdToEditor b))
                            (set_textEditorToWinId
                               (JsMap.set (textEditorToWinId b) e w) b))) e
            = true).
  { intros w. apply jsmap_has_get. eexists.
    cbn [textEditorToWinId set_winIdToEditor set_textEditorToWinId].
    apply jsmap_get_set_eq. }
  cbv beta iota zeta delta [createNeovimWindow bind askCall emit
                              askWindow ret lift modify].
  run_answers a;
    (eexists _, _; split; [reflexivity|]; cbn [manager];
     split; [first [apply Hext | apply extends_refl]|];
     split; [done|];
     split;
       [intros _;
        first [left; apply Hhas
              | right; eexists; simpl; eauto 10]|];
     split;
       [intros Ha;
        destruct (Hok n Ha) as [[? ?] ?];
        destruct (Hok (S n) Ha) as [[? ?] ?];
        destruct (Hok (S (S n)) Ha) as [[? ?] ?];
        first [congruence | no_error_logged]|];
     split; [done|]; intros p; no_such_effect).
Qed.

Lemma has_extends_doc (b b' : BufferManager.t) (d : TextDocument) :
  extends b b' ->
  JsMap.has (textDocumentToBufferId b) d = true ->
  JsMap.has (textDocumentToBufferId b') d = true.
Proof.
  intros Hx [v Hv]%jsmap_has_get. apply jsmap_has_get. exists v.
  by apply Hx.
Qed.

Lemma has_extends_editor (b b' : BufferManager.t) (e : TextEditor) :
  extends b b' ->
  JsMap.has (textEditorToWinId b) e = true ->
  JsMap.has (textEditorToWinId b') e = true.
Proof.
  intros Hx [v Hv]%jsmap_has_get. apply jsmap_has_get. exists v.
  by apply Hx.
Qed.

(** One turn of the opening loop. *)
Lemma openEditor_spec (a : Answers) (h : Host) (width : Z) (e : TextEditor)
    (r : Run) :
  exists res r' t,
    openEditor a h width e r = (res, r', t)
    /\ extends (manager r) (manager r')
    /\ (res = Returned tt ->
        (JsMap.has (textDocumentToBufferId (manager r'))
           (document (editors h e)) = true
         /\ JsMap.has (textEditorToWinId (manager r')) e = true)
        \/ logs_error t)
    /\ (all_succeed a -> res = Returned tt /\ ~ logs_error t)
    /\ (JsMap.has (textDocumentToBufferId (manager r))
          (document (editors h e)) = true ->
        JsMap.has (textEditorToWinId (manager r)) e = true ->
        res = Returned tt /\ r' = r /\ t = [])
    /\ resolves_nothing t.
Proof.
  destruct (ensureBuffer_spec a h e r)
    as (go & r1 & t1 & Hrun1 & Hx1 & Hw1 & _ & Hgo & Hstop & Hok1 & Hid1
        & Hp1).
  unfold openEditor. destruct go as [[]|].
  - rewrite (bind_run _ _ _ _ _ _ Hrun1).
    destruct (ensureWindow_spec a h width e r1)
      as (r2 & t2 & Hrun2 & Hx2 & Hd2 & Hwin & Hok2 & Hid2 & Hp2).
    rewrite Hrun2. eexists _, _, _. split; [reflexivity|].
    split; [by apply (extends_trans _ (manager r1))|].
    split.
    { intros _. destruct (Hwin (Hgo eq_refl)) as [Hh|Herr].
      - left. split; [|done]. rewrite Hd2. by apply Hgo.
      - right. apply logs_error_app. by right. }
    split.
    { intros Ha. split; [done|]. destruct (Hok1 Ha) as [_ Hn1].
      intros [?|?]%logs_error_app; [by apply Hn1|by apply Hok2]. }
    split.
    { intros Hd He. destruct (Hid1 Hd) as (_ & -> & ->).
      destruct (Hid2 He) as [-> ->]. done. }
    by apply resolves_nothing_app.
  - rewrite (bind_run _ _ _ _ _ _ Hrun1).
    eexists _, _, _. split; [reflexivity|]. split; [done|].
    split; [intros _; right; apply logs_error_app; left; by apply Hstop|].
    split.
    { intros Ha. by destruct (Hok1 Ha). }
    split.
    { intros Hd _. by destruct (Hid1 Hd). }
    apply resolves_nothing_app; [done|]. by intros p [].
  - rewrite (bind_threw _ _ _ _ _ Hrun1).
    eexists _, _, _. split; [reflexivity|]. split; [done|].
    split; [done|].
    split.
    { intros Ha. by destruct (Hok1 Ha). }
    split.
    { intros Hd _. by destruct (Hid1 Hd). }
    done.
Qed.

(** The opening loop over a list of editors. *)
Lemma openLoop_spec (a : Answers) (h : Host) (width : Z) (l : list TextEditor)
    (r : Run) :
  exists res r' t,
    forEach (openEditor a h width) l r = (res, r', t)
    /\ extends (manager r) (manager r')
    /\ (res = Returned tt ->
        logs_error t
        \/ forall e, In e l ->
             JsMap.has (textDocumentToBufferId (manager r'))
               (document (editors h e)) = true
             /\ JsMap.has (textEditorToWinId (manager r')) e = true)
    /\ (all_succeed a -> res = Returned tt /\ ~ logs_error t)
    /\ ((forall e, In e l ->
           JsMap.has (textDocumentToBufferId (manager r))
             (document (editors h e)) = true
           /\ JsMap.has (textEditorToWinId (manager r)) e = true) ->
        res = Returned tt /\ r' = r /\ t = [])
    /\ resolves_nothing t.
Proof.
  revert r. induction l as [|e l IH]; intros r.
  - eexists _, _, _. split; [reflexivity|]. split; [apply extends_refl|].
    split; [by right|]. split; [intros _; split; [done|by intros [m []]]|].
    split; [done|]. by intros p [].
  - destruct (openEditor_spec a h width e r)
      as (res1 & r1 & t1 & Hrun1 & Hx1 & Hhas1 & Hok1 & Hid1 & Hp1).
    cbn [forEach]. destruct res1 as [[]|].
    + destruct (IH r1)
        as (res2 & r2 & t2 & Hrun2 & Hx2 & Hhas2 & Hok2 & Hid2 & Hp2).
      rewrite (bind_run _ _ _ _ _ _ Hrun1), Hrun2.
      eexists _, _, _. split; [reflexivity|].
      split; [by apply (extends_trans _ (manager r1))|].
      split.
      { intros ->. destruct (Hhas1 eq_refl) as [[Hd He]|Herr];
          [|left; apply logs_error_app; by left].
        destruct (Hhas2 eq_refl) as [Herr|Hall];
          [left; apply logs_error_app; by right|].
        right. intros e' [<-|Hin]; [|by apply Hall].
        split; [by apply (has_extends_doc (manager r1))
               |by apply (has_extends_editor (manager r1))]. }
      split.
      { intros Ha. destruct (Hok1 Ha) as [_ Hn1].
        destruct (Hok2 Ha) as [-> Hn2]. split; [done|].
        intros [?|?]%logs_error_app; [by apply Hn1|by apply Hn2]. }
      split.
      { intros Hall. destruct (Hall e (or_introl eq_refl)) as [Hd He].
        destruct (Hid1 Hd He) as (_ & -> & ->).
        destruct Hid2 as (-> & -> & ->); [|done].
        intros e' Hin. apply Hall. by right. }
      by apply resolves_nothing_app.
    + rewrite (bind_threw _ _ _ _ _ Hrun1).
      eexists _, _, _. split; [reflexivity|]. split; [done|].
      split; [done|].
      split.
      { intros Ha. by destruct (Hok1 Ha). }
      split.
      { intros Hall. destruct (Hall e (or_introl eq_refl)) as [Hd He].
        by destruct (Hid1 Hd He). }
      done.
Qed.

Lemma filter_none {A : Type} (P : A -> bool) (l : list A) :
  (forall x, In x l -> P x = false) -> List.filter P l = [].
Proof.
  induction l as [|x l IH]; [done|]. intros Hall. simpl.
  rewrite Hall by (by left). apply IH. intros y Hy. apply Hall. by right.
Qed.

Lemma set_tables_same (b : BufferManager.t) :
  set_textDocumentToBufferId (textDocumentToBufferId b)
    (set_winIdToEditor (winIdToEditor b)
       (set_textEditorToWinId (textEditorToWinId b) b)) = b.
Proof. by destruct b. Qed.

(** On settled tables the two loops of the clean-up find nothing. *)
Lemma syncLayout_collect_settled (h : Host) (cur : list TextEditor)
    (b : BufferManager.t) :
  settled h cur b -> syncLayout_collect h cur b = (Returned ([], []), b, []).
Proof.
  intros (Hcur & Hed & Hdoc). rewrite syncLayout_collect_run. cbv zeta.
  assert (Hh : forall kv, In kv (textEditorToWinId b) ->
                          negb (includes_editor cur kv.1) = false).
  { intros [e w] Hin. apply negb_false_iff, existsb_In_editor.
    by apply (Hed e w). }
  assert (Hg : forall kv, In kv (textDocumentToBufferId b) ->
                          negb (shown_in h cur kv.1)
                          && isClosed (documents h kv.1) = false).
  { intros [d id] Hin. by apply (Hdoc d id). }
  rewrite (filter_none _ _ Hh), (filter_none _ _ Hg).
  rewrite (filter_all (fun kv => negb (negb (includes_editor cur kv.1)))).
  2:{ intros kv Hin. by rewrite (Hh kv Hin). }
  rewrite (filter_all (fun kv => negb (negb (shown_in h cur kv.1)
                                       && isClosed (documents h kv.1)))).
  2:{ intros kv Hin. by rewrite (Hg kv Hin). }
  simpl. by rewrite set_tables_same.
Qed.

(** After the two loops the tables are settled, when every editor of the
    snapshot has its buffer and its window; the promise and the cancelled
    tokens are as before. *)
Lemma syncLayout_collect_settles (h : Host) (cur : list TextEditor)
    (b : BufferManager.t) :
  exists unused b1,
    syncLayout_collect h cur b = (Returned unused, b1, [])
    /\ syncLayoutPromise b1 = syncLayoutPromise b
    /\ cancelled b1 = cancelled b
    /\ ((forall e, In e cur ->
           JsMap.has (textDocumentToBufferId b) (document (editors h e)) = true
           /\ JsMap.has (textEditorToWinId b) e = true) ->
        settled h cur b1).
Proof.
  rewrite syncLayout_collect_run. cbv zeta.
  eexists _, _. split; [reflexivity|]. split; [done|]. split; [done|].
  intros Hall. split; [|split].
  - intros e He. destruct (Hall e He) as [Hd Hw].
    cbn [textDocumentToBufferId textEditorToWinId set_textDocumentToBufferId
         set_winIdToEditor set_textEditorToWinId].
    split.
    + apply jsmap_has_get in Hd as [v Hv]. apply jsmap_has_get. exists v.
      pose proof (jsmap_get_filter
                    (fun d => negb (negb (shown_in h cur d)
                                    && isClosed (documents h d)))
                    (textDocumentToBufferId b) (document (editors h e)))
        as Hf.
      cbv beta in Hf. rewrite Hf.
      assert (Hs : shown_in h cur (document (editors h e)) = true)
        by (apply shown_in_spec; eauto).
      by rewrite Hs.
    + apply jsmap_has_get in Hw as [v Hv]. apply jsmap_has_get. exists v.
      pose proof (jsmap_get_filter
                    (fun e => negb (negb (includes_editor cur e)))
                    (textEditorToWinId b) e) as Hf.
      cbv beta in Hf. rewrite Hf.
      assert (Hs : includes_editor cur e = true)
        by (by apply existsb_In_editor).
      by rewrite Hs.
  - intros e w Hin.
    cbn [textEditorToWinId set_textDocumentToBufferId set_winIdToEditor
         set_textEditorToWinId] in Hin.
    apply filter_In in Hin as [_ Hin]. simpl in Hin.
    apply negb_true_iff, negb_false_iff in Hin.
    by apply existsb_In_editor.
  - intros d id Hin.
    cbn [textDocumentToBufferId set_textDocumentToBufferId] in Hin.
    apply filter_In in Hin as [_ Hin]. simpl in Hin.
    by apply negb_true_iff in Hin.
Qed.

Lemma lift_run {A : Type} (m : M BufferManager.t A) (r : Run)
    (res : Completion A) (b : BufferManager.t) (t : list Effect) :
  m (manager r) = (res, b, t) ->
  lift m r = (res, mkRun b (asked r), t).
Proof. intros Hm. unfold lift. by rewrite Hm. Qed.

(** The clean-up : the two loops, then the two bulk calls, each of which
    may reject. *)
Lemma cleanup_spec (a : Answers) (h : Host) (cur : list TextEditor) (r : Run) :
  exists res r' t,
    cleanup a h cur r = (res, r', t)
    /\ syncLayoutPromise (manager r') = syncLayoutPromise (manager r)
    /\ cancelled (manager r') = cancelled (manager r)
    /\ ((forall e, In e cur ->
           JsMap.has (textDocumentToBufferId (manager r))
             (document (editors h e)) = true
           /\ JsMap.has (textEditorToWinId (manager r)) e = true) ->
        settled h cur (manager r'))
    /\ ~ logs_error t
    /\ resolves_nothing t
    /\ (all_succeed a -> res = Returned tt)
    /\ (settled h cur (manager r) -> res = Returned tt /\ r' = r /\ t = []).
Proof.
  destruct (syncLayout_collect_settles h cur (manager r))
    as (unused & b1 & Hrun & Hp & Hc & Hset).
  unfold cleanup.
  rewrite (bind_run _ _ _ _ _ _ (lift_run _ r _ _ _ Hrun)).
  assert (Hok : forall k, all_succeed a -> call a k = CallDone).
  { intros k (_ & _ & _ & H2). done. }
  assert (Hsame : settled h cur (manager r) ->
                  unused = ([], []) /\ b1 = manager r).
  { intros Hs. rewrite (syncLayout_collect_settled h cur _ Hs) in Hrun.
    by injection Hrun as <- <-. }
  cbv beta iota zeta delta [bind when awaitCall askCall ret throw].
  cbn [manager asked].
  destruct (bool_decide (unused.2 = [])) eqn:E2,
           (bool_decide (unused.1 = [])) eqn:E1;
    cbn [negb]; run_answers a;
    (eexists _, _, _; split; [reflexivity|]; cbn [manager];
     split; [done|]; split; [done|]; split; [done|];
     split; [no_error_logged|]; split; [intros p; no_such_effect|];
     split;
       [intros Ha; pose proof (Hok (asked r) Ha);
        pose proof (Hok (S (asked r)) Ha); first [congruence|done]|];
     intros Hs; destruct (Hsame Hs) as [-> ->];
     first [done | by destruct r]).
Qed.

(** The checkpoint touches the promise only. *)
Lemma syncLayout_checkpoint_run (token : nat) (b : BufferManager.t) :
  exists b' t,
    syncLayout_checkpoint token b = (Returned tt, b', t)
    /\ textDocumentToBufferId b' = textDocumentToBufferId b
    /\ textEditorToWinId b' = textEditorToWinId b
    /\ cancelled b' = cancelled b
    /\ (token ∈ cancelled b \/ syncLayoutPromise b' = None)
    /\ ~ logs_error t
    /\ ((token ∈ cancelled b \/ syncLayoutPromise b = None) ->
        b' = b /\ t = []).
Proof.
  destruct (decide (token ∈ cancelled b)) as [Hc|Hc].
  - rewrite syncLayout_checkpoint_cancelled by done.
    eexists _, _. split; [reflexivity|]. repeat split; auto.
    by intros [m []].
  - rewrite syncLayout_checkpoint_live by done.
    eexists _, _. split; [reflexivity|]. repeat split; auto.
    + intros [m Hin]. destruct (syncLayoutPromise b); simpl in Hin;
        intuition discriminate.
    + destruct H as [?|Hn]; [done|]. by destruct b; simpl in *; subst.
    + destruct H as [?|Hn]; [done|]. by rewrite Hn.
Qed.

Lemma settled_tables (h : Host) (cur : list TextEditor)
    (b b' : BufferManager.t) :
  textDocumentToBufferId b' = textDocumentToBufferId b ->
  textEditorToWinId b' = textEditorToWinId b ->
  settled h cur b -> settled h cur b'.
Proof. unfold settled. by intros -> ->. Qed.


(** The opening loop, whether it returns or is ended by a rejecting call,
    only adds : a mapping of a document or of an editor that exists is
    still there with the same value, the promises, the token source and the
    grids are not touched, and no promise is resolved. *)
Theorem openLoop_only_adds (a : Answers) (h : Host) (width : Z)
    (l : list TextEditor) (r : Run) :
  exists res r' t,
    forEach (openEditor a h width) l r = (res, r', t)
    /\ extends (manager r) (manager r')
    /\ resolves_nothing t.
Proof.
  destruct (openLoop_spec a h width l r)
    as (res & r' & t & Hrun & Hx & _ & _ & _ & Hp).
  by exists res, r', t.
Qed.

(** The answers of [answers_fine] are of the kind [all_succeed] asks for. *)
Lemma answers_fine_all_succeed : all_succeed answers_fine.
Proof. repeat split; intros n; simpl; eauto. Qed.
End SyncLayoutFacts.

(** ** The grid table and its two lookups *)

Section GridFacts.
Import BufferManager.

Lemma jsmap_find_some {K V : Type} (P : K * V -> bool) (m : list (K * V))
    (kv : K * V) :
  JsMap.find P m = Some kv -> In kv m /\ P kv = true.
Proof.
  induction m as [|x m IH]; simpl; [done|].
  destruct (P x) eqn:Ep.
  - intros [= <-]. split; [by left|done].
  - intros Hf. destruct (IH Hf). split; [by right|done].
Qed.

Lemma jsmap_find_none {K V : Type} (P : K * V -> bool) (m : list (K * V)) :
  JsMap.find P m = None -> forall kv, In kv m -> P kv = false.
Proof.
  induction m as [|x m IH]; simpl; [done|].
  destruct (P x) eqn:Ep; [done|].
  intros Hf kv [<-|Hin]; [done|]. by apply IH.
Qed.

(** Only the grid table is written by the redraw handler. *)
Lemma handleRedraw_event_grids (b : BufferManager.t) (ev : RedrawEvent) :
  handleRedraw_event b ev
  = set_grids
      (match ev with
       | win_external_pos args =>
           fold_left (fun m '(grid, win) => JsMap.set m grid win) args (grids b)
       | win_pos args =>
           fold_left (fun m a => JsMap.set m (wp_grid a) (wp_win a)) args
             (grids b)
       | win_close args =>
           fold_left (fun m grid => JsMap.delete m grid) args (grids b)
       | _ => grids b
       end) b.
Proof.
  assert (Hsame : set_grids (grids b) b = b) by (by destruct b).
  destruct ev as [args|args|args|args|args|name]; simpl; try done.
  - revert b Hsame. induction args as [|g args IH]; intros b Hsame; [done|].
    simpl. rewrite IH by (by destruct b). done.
  - revert b Hsame. induction args as [|[g w] args IH]; intros b Hsame; [done|].
    simpl. rewrite IH by (by destruct b). done.
  - revert b Hsame. induction args as [|a args IH]; intros b Hsame; [done|].
    simpl. rewrite IH by (by destruct b). done.
Qed.

Lemma fold_keys {A : Type} (f : list (Z * Z) -> A -> list (Z * Z))
    (args : list A) (m : list (Z * Z)) :
  (forall m a, NoDup (map fst m) -> NoDup (map fst (f m a))) ->
  NoDup (map fst m) -> NoDup (map fst (fold_left f args m)).
Proof.
  intros Hf. revert m. induction args as [|a args IH]; intros m Hm; [done|].
  simpl. by apply IH, Hf.
Qed.

Lemma handleRedraw_event_keys (b : BufferManager.t) (ev : RedrawEvent) :
  NoDup (map fst (grids b)) -> NoDup (map fst (grids (handleRedraw_event b ev))).
Proof.
  intros Hn. rewrite handleRedraw_event_grids.
  destruct ev as [args|args|args|args|args|name]; cbn [grids set_grids];
    try done; apply fold_keys; try done.
  - intros m g. apply jsmap_delete_keys.
  - intros m [g w]. apply jsmap_set_keys.
  - intros m a. apply jsmap_set_keys.
Qed.

Lemma handleRedraw_keys (data : list RedrawEvent) (b : BufferManager.t) :
  NoDup (map fst (grids b)) -> NoDup (map fst (grids (handleRedraw data b))).
Proof.
  unfold handleRedraw. revert b.
  induction data as [|ev data IH]; intros b Hn; [done|].
  simpl. by apply IH, handleRedraw_event_keys.
Qed.

(** With distinct grids in the table, the grid found for a window is a grid
    of that window, and every window of the table has a grid found. *)
Lemma grid_lookups_agree (b : BufferManager.t) :
  NoDup (map fst (grids b)) ->
  (forall w g, getGridIdForWinId b w = Some g -> getWinIdForGridId b g = Some w)
  /\ (forall g w, getWinIdForGridId b g = Some w ->
                  exists g', getGridIdForWinId b w = Some g').
Proof.
  intros Hn. unfold getGridIdForWinId, getWinIdForGridId. split.
  - intros w g.
    destruct (JsMap.find _ (rev (grids b))) as [[g' w']|] eqn:Hf; [|done].
    intros [= ->]. apply jsmap_find_some in Hf as [Hin Hw].
    apply bool_decide_eq_true_1 in Hw. subst w'.
    apply jsmap_NoDup_In_get; [done|]. by apply in_rev.
  - intros g w Hg. apply jsmap_get_In in Hg.
    destruct (JsMap.find _ (rev (grids b))) as [[g' w']|] eqn:Hf; [eauto|].
    exfalso. pose proof (jsmap_find_none _ _ Hf (g, w)) as Hno.
    simpl in Hno. rewrite bool_decide_eq_true_2 in Hno by done.
    assert (true = false) by (apply Hno; by apply in_rev in Hg). done.
Qed.

(** The grid table after any redraw batches, starting from distinct grids
    (the empty table of a new manager) : the grids stay distinct, the two
    lookups agree, and nothing but the grid table has changed. *)
Theorem handleRedraw_grid_lookups (data : list RedrawEvent)
    (b : BufferManager.t) :
  NoDup (map fst (grids b)) ->
  let b' := handleRedraw data b in
  NoDup (map fst (grids b'))
  /\ (forall w g, getGridIdForWinId b' w = Some g ->
                  getWinIdForGridId b' g = Some w)
  /\ (forall g w, getWinIdForGridId b' g = Some w ->
                  exists g', getGridIdForWinId b' w = Some g'
                             /\ getWinIdForGridId b' g' = Some w)
  /\ b' = set_grids (grids b') b.
Proof.
  intros Hn b'. pose proof (handleRedraw_keys data b Hn) as Hn'.
  destruct (grid_lookups_agree b' Hn') as [H1 H2].
  split; [done|]. split; [done|]. split.
  - intros g w Hg. destruct (H2 g w Hg) as [g' Hg']. eauto.
  - subst b'. unfold handleRedraw. clear.
    assert (Hgen : forall b0, fold_left handleRedraw_event data b0
                   = set_grids (grids (fold_left handleRedraw_event data b0)) b0).
    { induction data as [|ev data IH]; intros b0; [by destruct b0|].
      simpl. rewrite IH at 1. rewrite handleRedraw_event_grids at 2.
      reflexivity. }
    apply Hgen.
Qed.

Lemma fold_left_ext {A B : Type} (f g : A -> B -> A) (l : list B) (x : A) :
  (forall x y, f x y = g x y) -> fold_left f l x = fold_left g l x.
Proof.
  intros Hfg. revert x. induction l as [|y l IH]; intros x; [done|].
  simpl. by rewrite Hfg, IH.
Qed.

Lemma get_fold_set {A : Type} (key val : A -> Z) (args : list A)
    (m : list (Z * Z)) (g : Z) :
  JsMap.get (fold_left (fun m a => JsMap.set m (key a) (val a)) args m) g
  = match List.find (fun a => bool_decide (key a = g)) (rev args) with
    | Some a => Some (val a)
    | None => JsMap.get m g
    end.
Proof.
  induction args as [|a args IH] using rev_ind; [done|].
  rewrite fold_left_app, rev_app_distr. simpl.
  case_bool_decide as Hk.
  - rewrite <- Hk. apply jsmap_get_set_eq.
  - rewrite jsmap_get_set_ne by done. apply IH.
Qed.

Lemma get_delete (m : list (Z * Z)) (k g : Z) :
  JsMap.get (JsMap.delete m k) g
  = if bool_decide (k = g) then None else JsMap.get m g.
Proof.
  rewrite jsmap_delete_filter.
  pose proof (jsmap_get_filter (fun k' => negb (bool_decide (k' = k))) m g)
    as Hf.
  cbv beta in Hf. rewrite Hf.
  rewrite (bool_decide_ext (g = k) (k = g)) by (split; congruence).
  by destruct (bool_decide (k = g)).
Qed.

Lemma get_fold_delete (args : list Z) (m : list (Z * Z)) (g : Z) :
  JsMap.get (fold_left (fun m k => JsMap.delete m k) args m) g
  = if existsb (fun k => bool_decide (k = g)) args then None
    else JsMap.get m g.
Proof.
  revert m. induction args as [|k args IH]; intros m; [done|].
  simpl. rewrite IH, get_delete.
  by destruct (bool_decide (k = g)), (existsb _ args).
Qed.

(** What a redraw event does to the window of a grid : among the entries of
    a position event the last one for the grid decides, a closed grid has no
    window, any other event leaves the table alone. *)
Theorem handleRedraw_event_window (b : BufferManager.t) (ev : RedrawEvent)
    (g : Z) :
  getWinIdForGridId (handleRedraw_event b ev) g
  = match ev with
    | win_pos args =>
        match List.find (fun a => bool_decide (wp_grid a = g)) (rev args) with
        | Some a => Some (wp_win a)
        | None => getWinIdForGridId b g
        end
    | win_external_pos args =>
        match List.find (fun a => bool_decide (a.1 = g)) (rev args) with
        | Some a => Some (a.2)
        | None => getWinIdForGridId b g
        end
    | win_close args =>
        if existsb (fun k => bool_decide (k = g)) args then None
        else getWinIdForGridId b g
    | _ => getWinIdForGridId b g
    end.
Proof.
  unfold getWinIdForGridId. rewrite handleRedraw_event_grids.
  destruct ev as [args|args|args|args|args|name]; cbn [grids set_grids];
    try done.
  - apply get_fold_delete.
  - rewrite (fold_left_ext _ (fun m a => JsMap.set m (a.1) (a.2)))
      by (by intros m [g0 w0]).
    apply (get_fold_set fst snd).
  - apply get_fold_set.
Qed.

End GridFacts.

(** ** Documents and buffers, editors and windows : the lookups both ways *)

Section AccessorFacts.
Import BufferManager.

(** The document found for a buffer id is not closed and is mapped to that
    id; a document that is not closed and is the only one mapped to its id
    is the one found for it; a closed document is never returned. *)
Theorem document_buffer_lookups (h : Host) (b : BufferManager.t) :
  NoDup (map fst (textDocumentToBufferId b)) ->
  (forall id doc,
     getTextDocumentForBufferId h b id = Some doc ->
     getBufferIdForTextDocument b doc = Some id
     /\ isClosed (documents h doc) = false)
  /\ (forall doc id,
        getBufferIdForTextDocument b doc = Some id ->
        isClosed (documents h doc) = false ->
        (forall doc', In (doc', id) (textDocumentToBufferId b) -> doc' = doc) ->
        getTextDocumentForBufferId h b id = Some doc).
Proof.
  intros Hn. unfold getTextDocumentForBufferId, getBufferIdForTextDocument.
  split.
  - intros id doc.
    destruct (JsMap.find _ _) as [[d i]|] eqn:Hf; [|done].
    apply jsmap_find_some in Hf as [Hin Hi].
    apply bool_decide_eq_true_1 in Hi. subst i.
    destruct (isClosed (documents h d)) eqn:Hc; [done|].
    intros [= <-]. split; [|done]. by apply jsmap_NoDup_In_get.
  - intros doc id Hg Hopen Honly. apply jsmap_get_In in Hg.
    destruct (JsMap.find _ _) as [[d i]|] eqn:Hf.
    + apply jsmap_find_some in Hf as [Hin Hi].
      apply bool_decide_eq_true_1 in Hi. subst i.
      rewrite (Honly d Hin). by rewrite Hopen.
    + exfalso. pose proof (jsmap_find_none _ _ Hf (doc, id) Hg) as Hno.
      simpl in Hno. by rewrite bool_decide_eq_true_2 in Hno.
Qed.

(** The editor found for a window id : an editor of [textEditorToWinId]
    mapped to that window when there is one, the first in insertion order,
    and only otherwise the entry of [winIdToEditor]. *)
Theorem editor_window_lookups (b : BufferManager.t) :
  NoDup (map fst (textEditorToWinId b)) ->
  (forall e w,
     getWinIdForTextEditor b e = Some w ->
     exists e', getEditorFromWinId b w = Some e'
                /\ getWinIdForTextEditor b e' = Some w)
  /\ (forall e w,
        getWinIdForTextEditor b e = Some w ->
        (forall e', In (e', w) (textEditorToWinId b) -> e' = e) ->
        getEditorFromWinId b w = Some e)
  /\ (forall w e,
        getEditorFromWinId b w = Some e ->
        getWinIdForTextEditor b e = Some w
        \/ ((forall e', getWinIdForTextEditor b e' ≠ Some w)
            /\ winIdToEditor b !! w = Some e)).
Proof.
  intros Hn. unfold getWinIdForTextEditor, getEditorFromWinId.
  assert (Hfound : forall w e0 w0,
            JsMap.find (fun '(_, id) => bool_decide (id = w))
              (textEditorToWinId b) = Some (e0, w0) ->
            JsMap.get (textEditorToWinId b) e0 = Some w).
  { intros w e0 w0 Hf. apply jsmap_find_some in Hf as [Hin Hi].
    apply bool_decide_eq_true_1 in Hi. subst w0.
    by apply jsmap_NoDup_In_get. }
  assert (Hnone : forall w e w',
            JsMap.find (fun '(_, id) => bool_decide (id = w))
              (textEditorToWinId b) = None ->
            JsMap.get (textEditorToWinId b) e = Some w' -> w' ≠ w).
  { intros w e w' Hf Hg%jsmap_get_In ->.
    pose proof (jsmap_find_none _ _ Hf (e, w) Hg) as Hno.
    simpl in Hno. by rewrite bool_decide_eq_true_2 in Hno. }
  split; [|split].
  - intros e w Hg.
    destruct (JsMap.find _ _) as [[e0 w0]|] eqn:Hf.
    + exists e0. split; [done|]. by apply (Hfound w e0 w0).
    + by destruct (Hnone w e w Hf Hg).
  - intros e w Hg Honly.
    destruct (JsMap.find _ _) as [[e0 w0]|] eqn:Hf.
    + pose proof (Hfound w e0 w0 Hf) as Hg0.
      apply jsmap_get_In in Hg0. by rewrite (Honly e0 Hg0).
    + by destruct (Hnone w e w Hf Hg).
  - intros w e.
    destruct (JsMap.find _ _) as [[e0 w0]|] eqn:Hf.
    + intros [= <-]. left. by apply (Hfound w e0 w0).
    + intros Hw. right. split; [|done].
      intros e' Hg. by destruct (Hnone w e' w Hf Hg).
Qed.
End AccessorFacts.

(** ** Viewports : redraw batches, scroll requests and the positions read *)

Section ViewportMoreFacts.
Import ViewportManager ViewportQueries.

Lemma getViewport_view (g : Z) (gv : GridViewport) :
  (getViewport g gv).1 = viewport_of gv g.
Proof. unfold getViewport, viewport_of. by destruct (gv !! g). Qed.

Lemma getViewport_lookup_at (g g' : Z) (gv : GridViewport) :
  (getViewport g gv).2 !! g'
  = if bool_decide (g' = g) then Some (viewport_of gv g) else gv !! g'.
Proof.
  unfold getViewport, viewport_of. case_bool_decide as E.
  - subst g'. destruct (gv !! g) eqn:Hg; simpl; [done|].
    by rewrite lookup_insert_eq.
  - destruct (gv !! g) eqn:Hg; simpl; [done|].
    by rewrite lookup_insert_ne.
Qed.

(** One entry of a "win_viewport" event, looked up. *)
Lemma win_viewport_entry_lookup (gv : GridViewport) (a : WinViewportArgs)
    (g : Z) :
  (let '(view, gv1) := getViewport (wv_grid a) gv in
   <[wv_grid a := mkViewport (wv_curline a) (wv_curcol a) (wv_topline a)
                    (wv_botline a) (leftcol view) (skipcol view)]> gv1) !! g
  = if bool_decide (wv_grid a = g)
    then Some (mkViewport (wv_curline a) (wv_curcol a) (wv_topline a)
                 (wv_botline a) (leftcol (viewport_of gv g))
                 (skipcol (viewport_of gv g)))
    else gv !! g.
Proof.
  case_bool_decide as E;
    pose proof (getViewport_view (wv_grid a) gv) as Hv;
    pose proof (getViewport_lookup_at (wv_grid a) g gv) as Hl;
    destruct (getViewport (wv_grid a) gv) as [view gv1]; simpl in Hv, Hl.
  - subst g. rewrite lookup_insert_eq. by rewrite Hv.
  - rewrite lookup_insert_ne by done. rewrite Hl.
    rewrite bool_decide_eq_false_2; [done|]. by intros ->.
Qed.

Lemma fold_delete_lookup (args : list Z) (gv : GridViewport) (g : Z) :
  fold_left (fun gv grid => base.delete grid gv) args gv !! g
  = if existsb (fun k => bool_decide (k = g)) args then None else gv !! g.
Proof.
  revert gv. induction args as [|k args IH]; intros gv; [done|].
  simpl. rewrite IH. case_bool_decide as E; simpl.
  - subst k. rewrite lookup_delete_eq. by destruct (existsb _ _).
  - by rewrite lookup_delete_ne.
Qed.

(** The viewport of a grid after one redraw event : the last entry of a
    "win_viewport" event for the grid gives line, column, top and bottom
    line, the horizontal scroll staying as it was (zero for a grid that had
    no viewport); "grid_destroy" removes it; nothing else touches it. *)
Theorem handleRedraw_event_viewport (gv : GridViewport) (ev : RedrawEvent)
    (g : Z) :
  ViewportManager.handleRedraw_event gv ev !! g
  = match ev with
    | win_viewport args =>
        match List.find (fun a => bool_decide (wv_grid a = g)) (rev args) with
        | Some a =>
            Some (mkViewport (wv_curline a) (wv_curcol a) (wv_topline a)
                    (wv_botline a) (leftcol (viewport_of gv g))
                    (skipcol (viewport_of gv g)))
        | None => gv !! g
        end
    | grid_destroy args =>
        if existsb (fun k => bool_decide (k = g)) args then None else gv !! g
    | _ => gv !! g
    end.
Proof.
  destruct ev as [| | |args|args|]; try done.
  - simpl. induction args as [|a args IH] using rev_ind; [done|].
    rewrite fold_left_app, rev_app_distr. simpl.
    rewrite win_viewport_entry_lookup.
    case_bool_decide as E; [|done].
    do 2 f_equal; unfold viewport_of; rewrite IH;
      by destruct (List.find _ _).
  - apply fold_delete_lookup.
Qed.

(** A "window-scroll" request, looked up. *)
Lemma handleExtensionRequest_lookup (bm : BufferManager.t) (name : string)
    (winId : Z) (sv : SaveView) (gv : GridViewport) (g : Z) :
  handleExtensionRequest bm name winId sv gv !! g
  = if bool_decide (name = "window-scroll") then
      match BufferManager.getGridIdForWinId bm winId with
      | None => gv !! g
      | Some gridId =>
          if bool_decide (gridId = 0) then gv !! g
          else if bool_decide (gridId = g) then
            Some (mkViewport (line (viewport_of gv g)) (col (viewport_of gv g))
                    (topline (viewport_of gv g)) (botline (viewport_of gv g))
                    (sv_leftcol sv) (sv_skipcol sv))
          else gv !! g
      end
    else gv !! g.
Proof.
  unfold handleExtensionRequest.
  case_bool_decide; [|done].
  destruct (BufferManager.getGridIdForWinId bm winId) as [gridId|]; [|done].
  case_bool_decide; [done|].
  case_bool_decide as E;
    pose proof (getViewport_view gridId gv) as Hv;
    pose proof (getViewport_lookup_at gridId g gv) as Hl;
    destruct (getViewport gridId gv) as [view gv1]; simpl in Hv, Hl.
  - subst g. rewrite lookup_insert_eq. by rewrite Hv.
  - rewrite lookup_insert_ne by done. rewrite Hl.
    rewrite bool_decide_eq_false_2; [done|]. by intros ->.
Qed.

(** A "window-scroll" request and a "win_viewport" event reach the same
    viewports in either order. *)
Theorem window_scroll_win_viewport_commute (bm : BufferManager.t)
    (name : string) (winId : Z) (sv : SaveView)
    (args : list WinViewportArgs) (gv : GridViewport) :
  handleExtensionRequest bm name winId sv
    (ViewportManager.handleRedraw_event gv (win_viewport args))
  = ViewportManager.handleRedraw_event
      (handleExtensionRequest bm name winId sv gv) (win_viewport args).
Proof.
  apply map_eq. intros g.
  rewrite handleExtensionRequest_lookup, !handleRedraw_event_viewport.
  rewrite handleExtensionRequest_lookup.
  unfold viewport_of.
  rewrite handleRedraw_event_viewport, handleExtensionRequest_lookup.
  case_bool_decide; [|done].
  destruct (BufferManager.getGridIdForWinId bm winId) as [gridId|]; [|done].
  case_bool_decide; [done|].
  case_bool_decide; by destruct (List.find _ _).
Qed.

(** The positions read after a scroll request followed by a viewport
    event : the cursor and the top line are those of the last entry for the
    grid, the left column is the one of the request, and reading changes
    nothing. *)
Theorem positions_after_scroll_and_viewport (bm : BufferManager.t)
    (winId g : Z) (sv : SaveView) (args : list WinViewportArgs)
    (a : WinViewportArgs) (gv : GridViewport) :
  BufferManager.getGridIdForWinId bm winId = Some g ->
  g ≠ 0 ->
  List.find (fun a => bool_decide (wv_grid a = g)) (rev args) = Some a ->
  let gv' := ViewportManager.handleRedraw_event
               (handleExtensionRequest bm "window-scroll" winId sv gv)
               (win_viewport args) in
  getCursorFromViewport g gv'
  = (mkPosition (wv_curline a) (wv_curcol a), gv')
  /\ getGridOffset g gv'
     = (mkPosition (wv_topline a) (sv_leftcol sv), gv').
Proof.
  intros Hg Hg0 Ha gv'.
  assert (Hl : gv' !! g
               = Some (mkViewport (wv_curline a) (wv_curcol a) (wv_topline a)
                         (wv_botline a) (sv_leftcol sv) (sv_skipcol sv))).
  { unfold gv'. rewrite handleRedraw_event_viewport, Ha.
    unfold viewport_of. rewrite handleExtensionRequest_lookup, Hg.
    rewrite bool_decide_eq_true_2 by done.
    rewrite bool_decide_eq_false_2 by done.
    by rewrite bool_decide_eq_true_2 by done. }
  unfold getCursorFromViewport, getGridOffset, getViewport.
  by rewrite Hl.
Qed.

(** A destroyed grid has no viewport : no scroll is sent for an editor on
    it, and the next read creates the viewport of [new Viewport()]. *)
Theorem destroyed_grid_viewport (h : Host) (extend : Z) (isInsertMode : bool)
    (bm : BufferManager.t) (gv : GridViewport) (args : list Z) (g : Z)
    (e : TextEditor) :
  In g args ->
  BufferManager.getGridIdFromEditor bm e = Some g ->
  let gv' := ViewportManager.handleRedraw_event gv (grid_destroy args) in
  gv' !! g = None
  /\ scrollNeovim h extend isInsertMode bm gv' (Some e) = []
  /\ getCursorFromViewport g gv'
     = (mkPosition 0 0, <[g := new_Viewport]> gv').
Proof.
  intros Hin Hg gv'.
  assert (Hl : gv' !! g = None).
  { unfold gv'. rewrite handleRedraw_event_viewport.
    destruct (existsb _ _) eqn:Hex; [done|].
    assert (existsb (fun k => bool_decide (k = g)) args = true) as Ht.
    { apply existsb_exists. exists g. split; [done|].
      by apply bool_decide_eq_true_2. }
    congruence. }
  split; [done|]. split.
  - unfold scrollNeovim. destruct isInsertMode; [done|].
    destruct (visibleRanges _) as [|r0 rs]; [done|].
    destruct (_ <=? _); [done|]. rewrite Hg. by rewrite Hl.
  - unfold getCursorFromViewport, getViewport. by rewrite Hl.
Qed.

(** Over a whole redraw batch the horizontal scroll of a grid is never
    changed : it is the one the grid had, or zero once the grid was
    destroyed in the batch. *)
Theorem handleRedraw_horizontal_scroll (data : list RedrawEvent)
    (gv : GridViewport) (g : Z) (v : Viewport) :
  ViewportManager.handleRedraw data gv !! g = Some v ->
  (leftcol v = leftcol (viewport_of gv g)
   /\ skipcol v = skipcol (viewport_of gv g))
  \/ ((exists args, In (grid_destroy args) data /\ In g args)
      /\ leftcol v = 0 /\ skipcol v = 0).
Proof.
  unfold ViewportManager.handleRedraw.
  revert v. induction data as [|ev data IH] using rev_ind; intros v.
  - simpl. unfold viewport_of. intros ->. by left.
  - rewrite fold_left_app. simpl. rewrite handleRedraw_event_viewport.
    set (gv1 := fold_left ViewportManager.handleRedraw_event data gv) in *.
    assert (Hold : (leftcol (viewport_of gv1 g) = leftcol (viewport_of gv g)
                    /\ skipcol (viewport_of gv1 g) = skipcol (viewport_of gv g))
                   \/ ((exists args, In (grid_destroy args) data /\ In g args)
                       /\ leftcol (viewport_of gv1 g) = 0
                       /\ skipcol (viewport_of gv1 g) = 0)).
    { unfold viewport_of at 1 3 5 6. destruct (gv1 !! g) as [v1|] eqn:H1.
      - apply (IH v1 eq_refl).
      - simpl. unfold viewport_of.
        destruct (gv !! g) as [v0|] eqn:H0; [|by left].
        right. split; [|done].
        (* the grid had a viewport and has none : it was destroyed *)
        clear IH v. subst gv1. revert H1.
        induction data as [|ev' data IH'] using rev_ind.
        + simpl. congruence.
        + rewrite fold_left_app. simpl. rewrite handleRedraw_event_viewport.
          intros H1.
          assert (Hrec : fold_left ViewportManager.handleRedraw_event data gv
                         !! g = None ->
                         exists args, In (grid_destroy args) (data ++ [ev'])
                                      /\ In g args).
          { intros Hn. destruct (IH' Hn) as (args & Hi & Hg).
            exists args. split; [|done]. apply in_or_app. by left. }
          destruct ev' as [| | |args|args|]; try by apply Hrec.
          * destruct (List.find _ _); [done|]. by apply Hrec.
          * destruct (existsb _ _) eqn:Hex; [|by apply Hrec].
            apply existsb_exists in Hex as (k & Hk & Hkg).
            apply bool_decide_eq_true_1 in Hkg. subst k.
            exists args. split; [|done]. apply in_or_app. right. by left. }
    assert (Hmono : (exists args, In (grid_destroy args) data /\ In g args) ->
                    exists args, In (grid_destroy args) (data ++ [ev])
                                 /\ In g args).
    { intros (args & Hi & Hg). exists args. split; [|done].
      apply in_or_app. by left. }
    assert (Hkeep : gv1 !! g = Some v ->
              (leftcol v = leftcol (viewport_of gv g)
               /\ skipcol v = skipcol (viewport_of gv g))
              \/ ((exists args, In (grid_destroy args) (data ++ [ev])
                                /\ In g args)
                  /\ leftcol v = 0 /\ skipcol v = 0)).
    { intros Hv. destruct (IH v Hv) as [?|(Hd & ?)]; [by left|].
      right. split; [by apply Hmono|done]. }
    destruct ev as [| | |args|args|]; try by apply Hkeep.
    + destruct (List.find _ _) as [a|]; [|by apply Hkeep].
      intros [= <-]. simpl.
      destruct Hold as [?|(Hd & ?)]; [by left|].
      right. split; [by apply Hmono|done].
    + destruct (existsb _ _); [done|]. by apply Hkeep.
Qed.
End ViewportMoreFacts.

(** ** The event bus : a registration and its disposal *)

Section SubscriptionFacts.
Context {Data Handler : Type}.
Import EventBus Subscriptions.

Lemma issued_empty : issued (@EventBus.empty Handler).
Proof. constructor. Qed.

Lemma filter_issued (ls : list (nat * Listener Handler)) (n : nat) :
  Forall (fun '(i, _) => (i < n)%nat) ls ->
  List.filter (fun '(i, _) => negb (bool_decide (i = n))) ls = ls.
Proof.
  induction 1 as [|[i l] ls Hi _ IH]; [done|].
  simpl. rewrite bool_decide_eq_false_2 by lia. simpl. by rewrite IH.
Qed.

(** A handler registered under [n] is called last when [n] is fired and not
    at all when another name is fired; disposing of the registration gives
    back the listeners that were there, so that the bus fires as it did
    before, and a second disposal changes nothing. *)
Theorem on_then_dispose (bus : EventBus.t Handler) (n : string)
    (hd : Handler) :
  issued bus ->
  let bus1 := (on bus n hd).1 in
  let id := (on bus n hd).2 in
  issued bus1
  /\ (forall n' (d : Data),
        fire bus1 n' d
        = (bus1, (fire bus n' d).2
                 ++ if bool_decide (n = n') then [(hd, d)] else []))
  /\ listeners (dispose_listener bus1 id) = listeners bus
  /\ issued (dispose_listener bus1 id)
  /\ dispose_listener (dispose_listener bus1 id) id = dispose_listener bus1 id
  /\ (forall n' (d : Data),
        (fire (dispose_listener bus1 id) n' d).2 = (fire bus n' d).2).
Proof.
  intros Hi bus1 id.
  assert (Hl : listeners (dispose_listener bus1 id) = listeners bus).
  { unfold dispose_listener, bus1, id, on. simpl.
    rewrite List.filter_app. simpl.
    rewrite bool_decide_eq_true_2 by done. simpl.
    rewrite filter_issued by done. by rewrite app_nil_r. }
  assert (Hi1 : issued bus1).
  { unfold issued, bus1, on. simpl. apply Forall_app. split.
    - eapply Forall_impl; [exact Hi|]. intros [i l]. simpl. lia.
    - constructor; [lia|constructor]. }
  split; [done|]. split; [|split; [done|split; [|split]]].
  - intros n' d. unfold fire, emitter_fire, bus1, on. simpl.
    rewrite flat_map_app. simpl. unfold call_listener at 2. simpl.
    by rewrite app_nil_r.
  - unfold issued. rewrite Hl. simpl.
    eapply Forall_impl; [exact Hi|]. intros [i l]. simpl. lia.
  - unfold dispose_listener at 1. rewrite Hl.
    unfold dispose_listener, id, bus1, on. simpl.
    rewrite List.filter_app. simpl.
    rewrite bool_decide_eq_true_2 by done. simpl.
    rewrite !filter_issued by done. by rewrite app_nil_r.
  - intros n' d. unfold fire, emitter_fire. cbn [snd]. by rewrite Hl.
Qed.
End SubscriptionFacts.

(** ** Tab options : a change is sent once *)

Section EditorOptionsFacts.
Import BufferManager EditorOptions.

(** A change of the options of an editor whose document has a buffer is
    recorded and sent as one atomic batch for that buffer, carrying the
    options of the editor; everything else of the manager stays; the same
    event a second time sends nothing and changes nothing.  Without a
    buffer (or with buffer 0) nothing happens at all. *)
Theorem onDidChangeEditorOptions_once (h : Host) (textEditor : TextEditor)
    (e_options : TextEditorOptions) (b : BufferManager.t) :
  exists b1 t1,
    onDidChangeEditorOptions h textEditor e_options b = (Returned tt, b1, t1)
    /\ onDidChangeEditorOptions h textEditor e_options b1
       = (Returned tt, b1, [])
    /\ b1 = set_editorTabConfiguration (editorTabConfiguration b1) b
    /\ match getBufferIdForTextDocument b (document (editors h textEditor)) with
       | None => b1 = b /\ t1 = []
       | Some bufId =>
           if bool_decide (bufId = 0) then b1 = b /\ t1 = []
           else
             editorTabConfiguration b1 !! textEditor
             = Some (mkTab (tabSize e_options) (insertSpaces e_options))
             /\ (forall e', e' ≠ textEditor ->
                   editorTabConfiguration b1 !! e'
                   = editorTabConfiguration b !! e')
             /\ (t1 = []
                 \/ t1 = [Client (CallAtomic
                            (tabOptions bufId
                               (insertSpaces (options (editors h textEditor)))
                               (tabSize (options (editors h textEditor)))))])
             /\ (t1 = [] <->
                 editorTabConfiguration b !! textEditor
                 = Some (mkTab (tabSize e_options) (insertSpaces e_options)))
       end.
Proof.
  unfold onDidChangeEditorOptions, getBufferIdForTextDocument.
  unfold bind at 1 3. unfold get_state at 1 2.
  destruct (JsMap.get (textDocumentToBufferId b) _) as [bufId|] eqn:Hb.
  2:{ exists b, []. rewrite Hb. by destruct b. }
  case_bool_decide as H0.
  { exists b, []. rewrite Hb, bool_decide_eq_true_2 by done. by destruct b. }
  destruct (editorTabConfiguration b !! textEditor) as [prev|] eqn:Hp.
  - destruct prev as [ts ins]. simpl.
    destruct (decide (ins = insertSpaces e_options)) as [Ei|Ei];
      [destruct (decide (ts = tabSize e_options)) as [Et|Et]|].
    + subst. rewrite !bool_decide_eq_true_2 by done. simpl.
      exists b, []. rewrite Hb, bool_decide_eq_false_2, Hp by done. simpl.
      rewrite !bool_decide_eq_true_2 by done. simpl.
      repeat split; try done; try by destruct b. by left.
    + rewrite (bool_decide_eq_false_2 (ts = _)) by done.
      rewrite orb_true_r.
      unfold bind, modify, resyncBufferTabOptions, emit. simpl.
      eexists _, _. split; [reflexivity|]. destruct b. simpl in *.
      rewrite Hb, bool_decide_eq_false_2, lookup_insert_eq by done. simpl.
      rewrite !bool_decide_eq_true_2 by done. simpl.
      repeat split; try done.
      * intros e' He. by rewrite lookup_insert_ne.
      * by right.
      * intros [= -> ->]. done.
    + rewrite (bool_decide_eq_false_2 (ins = _)) by done. simpl.
      unfold bind, modify, resyncBufferTabOptions, emit. simpl.
      eexists _, _. split; [reflexivity|]. destruct b. simpl in *.
      rewrite Hb, bool_decide_eq_false_2, lookup_insert_eq by done. simpl.
      rewrite !bool_decide_eq_true_2 by done. simpl.
      repeat split; try done.
      * intros e' He. by rewrite lookup_insert_ne.
      * by right.
      * intros [= -> ->]. done.
  - unfold bind, modify, resyncBufferTabOptions, emit. simpl.
    eexists _, _. split; [reflexivity|]. destruct b. simpl in *.
    rewrite Hb, bool_decide_eq_false_2, lookup_insert_eq by done. simpl.
    rewrite !bool_decide_eq_true_2 by done. simpl.
    repeat split; try done.
    + intros e' He. by rewrite lookup_insert_ne.
    + by right.
Qed.
End EditorOptionsFacts.

(** ** External buffers : the URI built for a buffer, and what is attached *)

Section ParseIntFacts.

Lemma digit_value_pretty (d : N) :
  (d < 10)%N -> digit_value (pretty_N_char d) = Some (Z.of_N d).
Proof.
  intros Hd.
  assert (d = 0 \/ d = 1 \/ d = 2 \/ d = 3 \/ d = 4 \/ d = 5 \/ d = 6
          \/ d = 7 \/ d = 8 \/ d = 9)%N as Hc by lia.
  repeat (destruct Hc as [->|Hc]; [done|]). by subst.
Qed.

Lemma parse_digits_pretty_N_go (x : N) (s : string) :
  (0 < x)%N ->
  parse_digits (pretty_N_go x s) None = parse_digits s (Some (Z.of_N x)).
Proof.
  revert s. induction (N.lt_wf_0 x) as [x _ IH]. intros s Hx.
  rewrite pretty_N_go_step by done.
  assert (Hm : (x `mod` 10 < 10)%N) by (apply N.mod_lt; lia).
  assert (Hdm : Z.of_N x = 10 * Z.of_N (x `div` 10) + Z.of_N (x `mod` 10)).
  { rewrite (N.div_mod x 10) at 1 by done. lia. }
  destruct (decide (x `div` 10 = 0)%N) as [E|E].
  - rewrite E, pretty_N_go_0. simpl. rewrite digit_value_pretty by done.
    simpl. rewrite Hdm, E. done.
  - rewrite IH; [|apply N.div_lt; lia|lia].
    simpl. rewrite digit_value_pretty by done. simpl. by rewrite Hdm.
Qed.

Lemma pretty_N_go_head (x : N) (s : string) :
  (0 < x)%N ->
  exists d r, (d < 10)%N /\ pretty_N_go x s = String (pretty_N_char d) r.
Proof.
  revert s. induction (N.lt_wf_0 x) as [x _ IH]. intros s Hx.
  rewrite pretty_N_go_step by done.
  assert (Hm : (x `mod` 10 < 10)%N) by (apply N.mod_lt; lia).
  destruct (decide (x `div` 10 = 0)%N) as [E|E].
  - rewrite E, pretty_N_go_0. eauto.
  - apply IH; [apply N.div_lt; lia|by apply N.neq_0_lt_0].
Qed.

Lemma parseInt_digit_head (d : N) (r : string) :
  (d < 10)%N ->
  parseInt (String (pretty_N_char d) r)
  = parse_digits (String (pretty_N_char d) r) None.
Proof.
  intros Hd.
  assert (d = 0 \/ d = 1 \/ d = 2 \/ d = 3 \/ d = 4 \/ d = 5 \/ d = 6
          \/ d = 7 \/ d = 8 \/ d = 9)%N as Hc by lia.
  repeat (destruct Hc as [->|Hc]; [done|]). by subst.
Qed.

(** [parseInt(id.toString(), 10)] is [id]. *)
Lemma parseInt_pretty (id : Z) : parseInt (pretty id) = Some id.
Proof.
  destruct id as [|p|p]; [done| |].
  - unfold pretty, pretty_Z, pretty, pretty_positive, pretty, pretty_N.
    rewrite decide_False by done.
    destruct (pretty_N_go_head (N.pos p) "") as (d & r & Hd & Hr); [lia|].
    rewrite Hr, parseInt_digit_head by done. rewrite <- Hr.
    rewrite parse_digits_pretty_N_go by lia. done.
  - unfold pretty, pretty_Z, pretty, pretty_positive, pretty, pretty_N.
    rewrite decide_False by done.
    unfold parseInt. simpl.
    change ("" +:+ pretty_N_go (N.pos p) "") with (pretty_N_go (N.pos p) "").
    rewrite parse_digits_pretty_N_go by lia. done.
Qed.
End ParseIntFacts.

Section ExternalBufferMoreFacts.
Import BufferManager.

(** The content provider, asked for the URI that [buildExternalBufferUri]
    makes for buffer [id], serves the lines of the buffer whose id is [id],
    whatever the name. *)
Theorem external_uri_served_by_its_buffer (be : Backend) (name : string)
    (id : Z) (isCancellationRequested : bool) :
  BufferProvider.find_buffer be
    (parseInt (authority (buildExternalBufferUri name id)))
  = List.find (fun '(bid, _) => bool_decide (bid = id)) (buffers be)
  /\ BufferProvider.provideTextDocumentContent be
       (buildExternalBufferUri name id) isCancellationRequested
     = match List.find (fun '(bid, _) => bool_decide (bid = id)) (buffers be) with
       | None => (None, [])
       | Some (bid, lines) =>
           if isCancellationRequested then (None, [])
           else if bool_decide (lines = []) || bool_decide (lines = [""])
           then (None, [])
           else (Some (join BufferProvider.newline lines),
                 [BufListen id "lines"; BufAttach id true])
       end.
Proof.
  assert (Hf : BufferProvider.find_buffer be
                 (parseInt (authority (buildExternalBufferUri name id)))
               = List.find (fun '(bid, _) => bool_decide (bid = id))
                   (buffers be)).
  { unfold BufferProvider.find_buffer, buildExternalBufferUri. simpl.
    rewrite parseInt_pretty.
    induction (buffers be) as [|[bid ls] l IH]; [done|]. simpl.
    rewrite IH.
    destruct (decide (bid = id)) as [->|Hne].
    - by rewrite !bool_decide_eq_true_2.
    - rewrite !bool_decide_eq_false_2; [done|done|congruence]. }
  split; [done|].
  unfold BufferProvider.provideTextDocumentContent. rewrite Hf.
  destruct (List.find _ _) as [[bid lines]|] eqn:Hfind; [|done].
  apply find_some in Hfind as [_ Hb]. apply bool_decide_eq_true_1 in Hb.
  subst bid.
  destruct isCancellationRequested; [done|].
  destruct lines as [|l0 rest]; [done|].
  rewrite (bool_decide_eq_false_2 (l0 :: rest = [])) by done. simpl.
  destruct (decide (rest = [])) as [->|Hr].
  - rewrite bool_decide_eq_true_2 by done. simpl.
    destruct (decide (l0 = "")) as [->|Hl].
    + by rewrite !bool_decide_eq_true_2.
    + rewrite !bool_decide_eq_false_2; [done|congruence|done].
  - rewrite (bool_decide_eq_false_2 (rest = [])) by done. simpl.
    rewrite bool_decide_eq_false_2; [done|congruence].
Qed.

(** The window [findCloseWinId] picks shows the buffer and has no editor;
    it is [0] when no window is such. *)
Lemma findCloseWinId_spec (b : BufferManager.t) (be : Backend) (id : Z) :
  let w := findCloseWinId b be id in
  (In (w, id) (windows be) /\ winIdToEditor b !! w = None)
  \/ (w = 0 /\ forall w', In (w', id) (windows be) ->
                          is_Some (winIdToEditor b !! w')).
Proof.
  unfold findCloseWinId.
  induction (windows be) as [|[winId bufId] l IH] using rev_ind.
  - right. split; [done|]. by intros w' [].
  - rewrite fold_left_app. simpl.
    destruct (decide (bufId = id)) as [->|Hne].
    + rewrite bool_decide_eq_true_2 by done. simpl.
      destruct (winIdToEditor b !! winId) as [e|] eqn:Hw.
      * rewrite bool_decide_eq_true_2 by eauto. simpl.
        destruct IH as [[Hin Hn]|[H0 Hall]].
        -- left. split; [|done]. apply in_or_app. by left.
        -- right. split; [done|]. intros w' Hin.
           apply in_app_or in Hin as [Hin|[[= <-]|[]]]; [by apply Hall|].
           rewrite Hw. eauto.
      * rewrite bool_decide_eq_false_2 by (intros [? ?]; congruence).
        simpl. left. split; [|done]. apply in_or_app. right. by left.
    + rewrite bool_decide_eq_false_2 by done. simpl.
      destruct IH as [[Hin Hn]|[H0 Hall]].
      * left. split; [|done]. apply in_or_app. by left.
      * right. split; [done|]. intros w' Hin.
        apply in_app_or in Hin as [Hin|[[= <- <-]|[]]]; [by apply Hall|done].
Qed.

(** Attaching an external buffer.  When the host cannot open the document,
    nothing is changed.  Otherwise the document is recorded as external and
    mapped to the buffer, also when showing it fails, in which case the
    method throws; when it is shown, the tab configuration of its editor
    is the one of the request.  A window is only ever scheduled for closing
    when it shows the buffer and hosts no editor. *)
Theorem attachNeovimExternalBuffer_spec (h : Host) (be : Backend)
    (name : string) (id : Z) (expandTab : bool) (tabStop : Z)
    (b : BufferManager.t) :
  exists res b' t,
    attachNeovimExternalBuffer h be name id expandTab tabStop b = (res, b', t)
    /\ (forall ms w i,
          In (SetTimeout ms (CloseWindow w i)) t ->
          ms = 5000 /\ i = id /\ w ≠ 0
          /\ In (w, id) (windows be) /\ winIdToEditor b !! w = None)
    /\ match openTextDocument h (OpenUri (buildExternalBufferUri name id)) with
       | None => res = Returned tt /\ b' = b
       | Some doc =>
           doc ∈ externalTextDocuments b'
           /\ getBufferIdForTextDocument b' doc = Some id
           /\ (forall d, d ≠ doc ->
                 getBufferIdForTextDocument b' d
                 = getBufferIdForTextDocument b d)
           /\ match showTextDocument h doc with
              | None => res = Threw
              | Some editor =>
                  res = Returned tt
                  /\ editorTabConfiguration b' !! editor
                     = Some (mkTab tabStop expandTab)
                  /\ In (SetEditorOptions editor expandTab tabStop) t
              end
       end.
Proof.
  unfold attachNeovimExternalBuffer.
  destruct (openTextDocument h _) as [doc|] eqn:Ho.
  2:{ eexists _, _, _. split; [reflexivity|]. simpl. split; [|done].
      intros ms w i [H|[]]. discriminate. }
  pose proof (findCloseWinId_spec
                (set_textDocumentToBufferId
                   (JsMap.set (textDocumentToBufferId b) doc id)
                   (set_externalTextDocuments
                      ({[doc]} ∪ externalTextDocuments b) b)) be id) as Hc.
  destruct (showTextDocument h doc) as [editor|] eqn:Hs.
  - destruct b. unfold getBufferIdForTextDocument.
    cbv beta iota zeta delta [bind emit modify get_state when ret throw] in *.
    simpl in *.
    destruct (onBufferInit0); simpl;
      (case_bool_decide as Hz; simpl;
       [eexists _, _, _; split; [reflexivity|]; simpl; split;
        [intros ms w i Hin; repeat (destruct Hin as [Hin|Hin]; [discriminate|]);
         by destruct Hin
        |split; [by apply elem_of_union_l, elem_of_singleton|]; split; [apply jsmap_get_set_eq|];
         split; [intros d Hd; by apply jsmap_get_set_ne|];
         split; [done|]; split; [by rewrite lookup_insert_eq|]; tauto]
       |eexists _, _, _; split; [reflexivity|]; simpl; split;
        [intros ms w i Hin;
         repeat (destruct Hin as [Hin|Hin];
                 [try discriminate; injection Hin as <- <- <-|]);
         [|by destruct Hin];
         destruct Hc as [[Hin' Hn]|[H0 _]]; [done|by rewrite H0 in Hz]
        |split; [by apply elem_of_union_l, elem_of_singleton|]; split; [apply jsmap_get_set_eq|];
         split; [intros d Hd; by apply jsmap_get_set_ne|];
         split; [done|]; split; [by rewrite lookup_insert_eq|]; tauto]]).
  - destruct b. unfold getBufferIdForTextDocument.
    cbv beta iota zeta delta [bind emit modify get_state when ret throw] in *.
    simpl in *.
    destruct (onBufferInit0); simpl;
      (eexists _, _, _; split; [reflexivity|]; simpl; split;
       [intros ms w i Hin; repeat (destruct Hin as [Hin|Hin]; [discriminate|]);
        by destruct Hin
       |split; [by apply elem_of_union_l, elem_of_singleton|]; split; [apply jsmap_get_set_eq|];
        split; [intros d Hd; by apply jsmap_get_set_ne|done]]).
Qed.
End ExternalBufferMoreFacts.

(** ** The active-editor sync and its cursor update *)

Section ActiveEditorMoreFacts.
Import BufferManager.

(** [syncActiveEditor] from the point where [waitForLayoutSync] has
    returned.  When the awaited cursor update resolves, the method is the
    one of [BufferManager] : it returns, clears [syncActiveEditorPromise] and
    resolves the pending promise, if any, as its last effect, a rejected
    [nvim_set_current_win] being caught and logged.  It is left by an
    exception in one case only, an active editor with a window whose cursor
    update rejects : then nothing is sent to the backend, the manager is as
    it was, [syncActiveEditorPromise] stays pending and no promise is
    resolved. *)
Theorem syncActiveEditor_finish_or_rejection (h : Host) (be : Backend)
    (cursor : ActiveEditor.CursorUpdate) (b : BufferManager.t) :
  exists res b' t,
    ActiveEditor.syncActiveEditor h be cursor b = (res, b', t)
    /\ ActiveEditor.syncActiveEditor h be ActiveEditor.CursorUpdated b
       = syncActiveEditor h be b
    /\ (res = Threw <->
        (exists message, cursor = ActiveEditor.CursorRejected message)
        /\ exists e w, activeTextEditor h = Some e
                       /\ JsMap.get (textEditorToWinId b) e = Some w
                       /\ w ≠ 0)
    /\ (res = Returned tt ->
        b' = set_syncActiveEditorPromise None b
        /\ exists t0,
             t = t0 ++ match syncActiveEditorPromise b with
                       | Some p => [PromiseResolve p]
                       | None => []
                       end
             /\ forall p, ~ In (PromiseResolve p) t0)
    /\ (res = Threw ->
        b' = b
        /\ (forall p, ~ In (PromiseResolve p) t)
        /\ (forall c, ~ In (Client c) t)).
Proof.
  unfold ActiveEditor.syncActiveEditor, syncActiveEditor.
  destruct (activeTextEditor h) as [e|].
  2:{ rewrite finish_run. eexists _, _, _. split; [reflexivity|].
      split; [done|]. split.
      { split; [done|]. by intros (_ & e & w & ? & _). }
      split; [|done]. intros _. split; [done|]. exists [].
      split; [done|]. by intros p []. }
  unfold bind at 1 2. unfold get_state at 1 2.
  destruct (JsMap.get (textEditorToWinId b) e) as [w|] eqn:Hw.
  2:{ unfold bind, emit. rewrite finish_run.
      eexists _, _, _. split; [reflexivity|]. split; [done|]. split.
      { split; [done|]. intros (_ & e' & w & [= <-] & Hg & _). congruence. }
      split; [|done]. intros _. split; [done|]. eexists [_].
      split; [done|]. intros p [?|[]]. discriminate. }
  case_bool_decide as Hz.
  { unfold bind, emit. rewrite finish_run.
    eexists _, _, _. split; [reflexivity|]. split; [done|]. split.
    { split; [done|]. intros (_ & e' & w' & [= <-] & Hg & Hne). congruence. }
    split; [|done]. intros _. split; [done|]. eexists [_].
    split; [done|]. intros p [?|[]]. discriminate. }
  destruct cursor as [|message].
  - destruct (nvim_set_current_win be w) as [msg|];
      unfold bind, emit, ret; rewrite finish_run;
      (eexists _, _, _; split; [reflexivity|]; split; [done|]; split;
       [split; [done|]; by intros ([? ?] & _)|];
       split; [|done]; intros _; split; [done|]).
    + eexists [_; _; _]. split; [done|].
      intros p Hin. simpl in Hin.
      repeat (destruct Hin as [Hin|Hin]; [discriminate|]). done.
    + eexists [_; _]. split; [done|].
      intros p Hin. simpl in Hin.
      repeat (destruct Hin as [Hin|Hin]; [discriminate|]). done.
  - unfold bind, emit, throw.
    eexists _, _, _. split; [reflexivity|]. split; [done|]. split.
    { split; [|done]. intros _. split; [by eexists|]. by exists e, w. }
    split; [done|]. intros _. split; [done|].
    split; intros x [?|[]]; discriminate.
Qed.

End ActiveEditorMoreFacts.

(** ** Buffer requests for documents of the host *)

Section HostDocumentFacts.
Import BufferManager.

Lemma try_catch_ret_run {S : Type} (m : M S unit) (s : S) :
  try_catch m (ret tt) s
  = let '(r, s1, t1) := m s in (Returned tt, s1, t1).
Proof.
  unfold try_catch, ret. destruct (m s) as [[[[]|] s1] t1]; [done|].
  by rewrite app_nil_r.
Qed.

(** A buffer request for a host-owned name never throws.  It changes the
    document -> buffer table and the tab configurations only; a document
    that has a buffer keeps it, and the one mapping it may add is to the
    buffer of the request. *)
Theorem showHostDocument_never_throws (h : Host) (be : Backend)
    (name : string) (id : Z) (b : BufferManager.t) :
  exists b' t,
    showHostDocument h be name id b = (Returned tt, b', t)
    /\ b' = set_editorTabConfiguration (editorTabConfiguration b')
              (set_textDocumentToBufferId (textDocumentToBufferId b') b)
    /\ (forall d v, getBufferIdForTextDocument b d = Some v ->
                    getBufferIdForTextDocument b' d = Some v)
    /\ (forall d v, getBufferIdForTextDocument b' d = Some v ->
          getBufferIdForTextDocument b d = Some v
          \/ (v = id /\ getBufferIdForTextDocument b d = None)).
Proof.
  unfold showHostDocument.
  set (normalizedName := if startsWith name BUFFER_NAME_PREFIX
                         then substring_from 18 name else name).
  clearbody normalizedName.
  assert (Hkeep : forall doc d v,
            JsMap.get (textDocumentToBufferId b) doc = None ->
            JsMap.get (textDocumentToBufferId b) d = Some v ->
            JsMap.get (JsMap.set (textDocumentToBufferId b) doc id) d = Some v).
  { intros doc d v Hn Hd. rewrite jsmap_get_set_ne; [done|]. congruence. }
  assert (Hnew : forall doc d v,
            JsMap.get (textDocumentToBufferId b) doc = None ->
            JsMap.get (JsMap.set (textDocumentToBufferId b) doc id) d = Some v ->
            JsMap.get (textDocumentToBufferId b) d = Some v
            \/ (v = id /\ JsMap.get (textDocumentToBufferId b) d = None)).
  { intros doc d v Hn Hd. destruct (decide (d = doc)) as [->|Hne].
    - rewrite jsmap_get_set_eq in Hd. injection Hd as <-. by right.
    - rewrite jsmap_get_set_ne in Hd by done. by left. }
  unfold getBufferIdForTextDocument.
  assert (Hrest : forall doc,
    exists r b' t,
         (let* b0 := get_state in
          let* forceTabOptions :=
            (if JsMap.has (textDocumentToBufferId b0) doc then ret false
             else
               let* found :=
                 match List.find (fun '(bid, _) => bool_decide (bid = id))
                         (buffers be) with
                 | Some _ => initBufferForDocument h doc id None ;;; ret true
                 | None => ret false
                 end in
               modify (fun b1 => set_textDocumentToBufferId
                                   (JsMap.set (textDocumentToBufferId b1) doc id)
                                   b1) ;;;
               ret found) in
          if bool_decide ((fun e => document (editors h e))
                          <$> activeTextEditor h = Some doc)
          then ret tt
          else
            emit (ShowTextDocument doc
                    match activeTextEditor h with
                    | Some e => viewColumn (editors h e)
                    | None => Some (-1)
                    end false) ;;;
            match showTextDocument h doc with
            | Some editor =>
                modify (fun b1 =>
                          set_editorTabConfiguration
                            (<[editor := mkTab (tabSize (options (editors h editor)))
                                           (insertSpaces
                                              (options (editors h editor)))]>
                               (editorTabConfiguration b1)) b1) ;;;
                when forceTabOptions (resyncBufferTabOptions h editor id)
            | None => throw
            end) b = (r, b', t)
      /\ b' = set_editorTabConfiguration (editorTabConfiguration b')
                (set_textDocumentToBufferId (textDocumentToBufferId b') b)
      /\ (forall d v, JsMap.get (textDocumentToBufferId b) d = Some v ->
                      JsMap.get (textDocumentToBufferId b') d = Some v)
      /\ (forall d v, JsMap.get (textDocumentToBufferId b') d = Some v ->
            JsMap.get (textDocumentToBufferId b) d = Some v
            \/ (v = id /\ JsMap.get (textDocumentToBufferId b) d = None))).
  { intros doc.
    unfold bind at 1. unfold get_state at 1.
    destruct (JsMap.has (textDocumentToBufferId b) doc) eqn:Hhas.
    - cbv beta iota zeta delta [bind ret emit modify when throw].
      case_bool_decide as Hact; [|destruct (showTextDocument h doc) as [editor|]].
      + eexists _, _, _. split; [reflexivity|].
        split; [by destruct b|]. split; [done|]. by left.
      + eexists _, _, _. split; [reflexivity|].
        split; [by destruct b|]. split; [done|]. by left.
      + eexists _, _, _. split; [reflexivity|].
        split; [by destruct b|]. split; [done|]. by left.
    - apply jsmap_has_false in Hhas.
      destruct (List.find _ (buffers be)) as [p|] eqn:Hfind.
      + unfold bind at 1 2 3.
        rewrite initBufferForDocument_run.
        cbv beta iota zeta delta [bind ret emit modify when throw
                                  resyncBufferTabOptions].
        case_bool_decide as Hact;
          [|destruct (showTextDocument h doc) as [editor|]];
          (eexists _, _, _; split; [reflexivity|];
           split; [by destruct b|]; split; [intros d v Hd; simpl; by apply (Hkeep doc)|];
           intros d v Hd; simpl in Hd; by apply (Hnew doc)).
      + cbv beta iota zeta delta [bind ret emit modify when throw].
        case_bool_decide as Hact;
          [|destruct (showTextDocument h doc) as [editor|]];
          (eexists _, _, _; split; [reflexivity|];
           split; [by destruct b|]; split; [intros d v Hd; simpl; by apply (Hkeep doc)|];
           intros d v Hd; simpl in Hd; by apply (Hnew doc)). }
  rewrite try_catch_ret_run.
  destruct (findDocFromUri h normalizedName) as [doc|] eqn:Hfd.
  - destruct (Hrest doc) as (r & b' & t & Hrun & Hspec).
    exists b', t. split; [|done].
    unfold bind at 1. unfold ret at 1. cbv beta iota. by rewrite Hrun.
  - destruct (openTextDocument h (OpenParsed normalizedName)) as [doc|].
    + destruct (Hrest doc) as (r & b' & t & Hrun & Hs1 & Hs2 & Hs3).
      exists b', (OpenTextDocument (OpenParsed normalizedName) :: t).
      split; [|done].
      unfold bind at 1 2. unfold emit at 1. unfold ret at 1.
      cbv beta iota. by rewrite Hrun.
    + exists b, [OpenTextDocument (OpenParsed normalizedName)].
      split; [done|]. split; [by destruct b|]. split; [done|]. by left.
Qed.
End HostDocumentFacts.

(** ** The typing manager : keys typed while a command is suspended *)

Section TypingCommandsFacts.
Context {CodeUnit : Type} `{EqDecision CodeUnit}.
Variable normalizeInputString : list CodeUnit -> bool -> list CodeUnit.
Variable normalizeInputString1 : list CodeUnit -> list CodeUnit.
Variable Esc : list CodeUnit.
Import TypingManager TypingCommands.

Lemma sent_app (a b : list (Action CodeUnit)) :
  sent (a ++ b) = sent a ++ sent b.
Proof.
  induction a as [|x a IH]; [done|]. destruct x; simpl; by rewrite ?IH.
Qed.

Lemma sent_map_Sent (l : list (TypingManager.Sent CodeUnit)) :
  sent (map Sent l) = l.
Proof. induction l as [|x l IH]; [done|]. simpl. by rewrite IH. Qed.

(** While the manager is exiting insert mode, a typed text is kept. *)
Lemma type_command_exiting (m : Mode) (blocking : bool)
    (text : list CodeUnit) (st : TypingManager.t CodeUnit) :
  typeHandlerDisposable st = true ->
  isEnteringInsertMode st = false ->
  isExitingInsertMode st = true ->
  type_command normalizeInputString m blocking text st
  = (set_pendingKeysAfterExit (pendingKeysAfterExit st ++ text) st, []).
Proof.
  intros Ht He Hx. destruct st. simpl in *. subst. done.
Qed.

Lemma send_run_exiting (key : list CodeUnit) (steps : list (Step CodeUnit)) :
  Forall (fun s => match s with
                   | Resumed _ blocking _ => blocking = false
                   | Typed _ _ _ => True
                   end) steps ->
  forall (st : TypingManager.t CodeUnit) out stage,
    typeHandlerDisposable st = true ->
    isEnteringInsertMode st = false ->
    isExitingInsertMode st = true ->
    exists st' out' stage',
      send_run normalizeInputString normalizeInputString1 key steps st out stage
      = (st', out', stage')
      /\ typeHandlerDisposable st' = true
      /\ isExitingInsertMode st' = true
      /\ match stage, stage' with
         | Some _, None =>
             exists before after,
               typed steps = before ++ after
               /\ sent out'
                  = sent out
                    ++ [Input (key ++ normalizeInputString1
                                        (pendingKeysAfterExit st ++ concat before))]
               /\ pendingKeysAfterExit st' = concat after
         | None, Some _ => False
         | _, _ =>
             sent out' = sent out
             /\ pendingKeysAfterExit st'
                = pendingKeysAfterExit st ++ concat (typed steps)
         end.
Proof.
  induction 1 as [|s steps Hs Hall IH]; intros st out stage Ht He Hx.
  - exists st, out, stage. split; [done|]. split; [done|]. split; [done|].
    simpl. rewrite app_nil_r. by destruct stage.
  - destruct s as [m blocking text|m blocking act].
    + simpl. rewrite type_command_exiting by done. simpl.
      rewrite app_nil_r.
      destruct (IH (set_pendingKeysAfterExit (pendingKeysAfterExit st ++ text) st)
                  out stage) as (st' & out' & stage' & Hrun & Ht' & Hx' & Hm);
        [by destruct st..|].
      exists st', out', stage'. split; [done|]. split; [done|]. split; [done|].
      assert (Hp : pendingKeysAfterExit
                     (set_pendingKeysAfterExit (pendingKeysAfterExit st ++ text) st)
                   = pendingKeysAfterExit st ++ text) by done.
      rewrite Hp in Hm.
      destruct stage as [sg|], stage' as [sg'|]; try done.
      * destruct Hm as [Hs' Hp']. split; [done|].
        by rewrite Hp', <- app_assoc.
      * destruct Hm as (before & after & Hty & Hs' & Hp').
        exists (text :: before), after. split; [by rewrite Hty|].
        split; [|done]. rewrite Hs'. simpl. by rewrite <- app_assoc.
      * destruct Hm as [Hs' Hp']. split; [done|].
        by rewrite Hp', <- app_assoc.
    + simpl in Hs. subst blocking. simpl.
      destruct stage as [sg|].
      * destruct sg; simpl.
        -- destruct (IH st (out ++ [WaitForUnlock]) (Some AwaitUnlock))
             as (st' & out' & stage' & Hrun & Ht' & Hx' & Hm); [done..|].
           exists st', out', stage'. rewrite sent_app in Hm. simpl in Hm.
           rewrite app_nil_r in Hm. by destruct stage'.
        -- destruct act; simpl.
           ++ destruct (IH st (out ++ [UpdateNeovimCursorPosition])
                          (Some AwaitCursorUpdate))
                as (st' & out' & stage' & Hrun & Ht' & Hx' & Hm); [done..|].
              exists st', out', stage'. rewrite sent_app in Hm. simpl in Hm.
              rewrite app_nil_r in Hm. by destruct stage'.
           ++ destruct (IH st (out ++ [SyncDotRepeatWithNeovim])
                          (Some AwaitDotRepeat))
                as (st' & out' & stage' & Hrun & Ht' & Hx' & Hm); [done..|].
              exists st', out', stage'. rewrite sent_app in Hm. simpl in Hm.
              rewrite app_nil_r in Hm. by destruct stage'.
        -- destruct (IH st (out ++ [SyncDotRepeatWithNeovim])
                       (Some AwaitDotRepeat))
             as (st' & out' & stage' & Hrun & Ht' & Hx' & Hm); [done..|].
           exists st', out', stage'. rewrite sent_app in Hm. simpl in Hm.
           rewrite app_nil_r in Hm. by destruct stage'.
        -- destruct (IH (set_pendingKeysAfterExit [] st)
                       (out ++ [Sent (Input (key ++ normalizeInputString1
                                                      (pendingKeysAfterExit st)))])
                       None)
             as (st' & out' & stage' & Hrun & Ht' & Hx' & Hm);
             [by destruct st..|].
           exists st', out', stage'. split; [done|]. split; [done|].
           split; [done|]. destruct stage' as [sg'|]; [done|].
           destruct Hm as [Hs' Hp']. exists [], (typed steps).
           split; [done|]. rewrite Hs', sent_app. simpl.
           rewrite app_nil_r. split; [done|]. rewrite Hp'. by destruct st.
      * destruct (IH st out None)
          as (st' & out' & stage' & Hrun & Ht' & Hx' & Hm); [done..|].
        exists st', out', stage'. by destruct stage'.
Qed.



(** While the manager is entering insert mode, a typed text is kept. *)
Lemma type_command_entering (m : Mode) (blocking : bool)
    (text : list CodeUnit) (st : TypingManager.t CodeUnit) :
  typeHandlerDisposable st = true ->
  isEnteringInsertMode st = true ->
  type_command normalizeInputString m blocking text st
  = (set_pendingKeysAfterEnter (pendingKeysAfterEnter st ++ text) st, []).
Proof. intros Ht He. destruct st. simpl in *. subst. done. Qed.

(** When the handler is not registered, the host types by itself. *)
Lemma type_command_disposed (m : Mode) (blocking : bool)
    (text : list CodeUnit) (st : TypingManager.t CodeUnit) :
  typeHandlerDisposable st = false ->
  type_command normalizeInputString m blocking text st = (st, []).
Proof. intros Ht. unfold type_command. by rewrite Ht. Qed.

Lemma enter_run_spec (steps : list (Step CodeUnit)) :
  Forall (fun s => match s with
                   | Resumed m' _ _ => isInsertMode m' = true
                   | Typed _ _ _ => True
                   end) steps ->
  forall (st : TypingManager.t CodeUnit) out stage,
    match stage with
    | Some AwaitCursor =>
        typeHandlerDisposable st = true /\ isEnteringInsertMode st = true
    | _ =>
        typeHandlerDisposable st = false
        /\ replacePrevCharHandlerDisposable st = false
        /\ (stage = None ->
            isEnteringInsertMode st = false /\ pendingKeysAfterEnter st = [])
    end ->
    exists st' out' stage',
      enter_run normalizeInputString steps st out stage = (st', out', stage')
      /\ match stage, stage' with
         | Some AwaitCursor, Some AwaitCursor =>
             out' = out
             /\ isEnteringInsertMode st' = true
             /\ pendingKeysAfterEnter st'
                = pendingKeysAfterEnter st ++ concat (typed steps)
         | Some AwaitCursor, _ =>
             exists before after,
               typed steps = before ++ after
               /\ out' = out ++ match pendingKeysAfterEnter st
                                      ++ concat before with
                                | [] => []
                                | keys => [Sent (DefaultType keys)]
                                end
               /\ typeHandlerDisposable st' = false
               /\ replacePrevCharHandlerDisposable st' = false
               /\ (stage' = None ->
                   isEnteringInsertMode st' = false
                   /\ pendingKeysAfterEnter st' = [])
         | _, Some AwaitCursor => False
         | _, _ =>
             out' = out
             /\ typeHandlerDisposable st' = false
             /\ replacePrevCharHandlerDisposable st' = false
             /\ (stage' = None ->
                 isEnteringInsertMode st' = false
                 /\ pendingKeysAfterEnter st' = [])
         end.
Proof.
  induction 1 as [|s steps Hs Hall IH]; intros st out stage Hinv.
  - exists st, out, stage. split; [done|]. simpl. rewrite app_nil_r.
    destruct stage as [[]|]; [by destruct Hinv|done..].
  - destruct s as [m blocking text|m blocking act]; simpl.
    + destruct stage as [[]|].
      * destruct Hinv as [Ht He].
        rewrite type_command_entering by done. simpl. rewrite app_nil_r.
        destruct (IH (set_pendingKeysAfterEnter
                        (pendingKeysAfterEnter st ++ text) st)
                    out (Some AwaitCursor))
          as (st' & out' & stage' & Hrun & Hm); [by destruct st|].
        exists st', out', stage'. split; [done|].
        assert (Hp : pendingKeysAfterEnter
                       (set_pendingKeysAfterEnter
                          (pendingKeysAfterEnter st ++ text) st)
                     = pendingKeysAfterEnter st ++ text) by done.
        rewrite Hp in Hm.
        destruct stage' as [[]|].
        -- destruct Hm as (? & ? & ->). by rewrite <- app_assoc.
        -- destruct Hm as (before & after & Hty & Ho & Hrest).
           exists (text :: before), after. split; [by rewrite Hty|].
           split; [|done]. rewrite Ho. simpl. by rewrite <- app_assoc.
        -- destruct Hm as (before & after & Hty & Ho & Hrest).
           exists (text :: before), after. split; [by rewrite Hty|].
           split; [|done]. rewrite Ho. simpl. by rewrite <- app_assoc.
      * rewrite type_command_disposed by (by destruct Hinv). simpl.
        rewrite app_nil_r. by apply (IH st out (Some AwaitReplay)).
      * rewrite type_command_disposed by (by destruct Hinv). simpl.
        rewrite app_nil_r. by apply (IH st out None).
    + simpl in Hs. destruct stage as [[]|].
      * destruct Hinv as [Ht He]. simpl. rewrite Hs.
        assert (Hd : pendingKeysAfterEnter
                       (disposeReplacePrevChar (disposeType st))
                     = pendingKeysAfterEnter st).
        { unfold disposeReplacePrevChar, disposeType.
          by destruct st as [[] [] ? ? ? ? ? ? ?]. }
        rewrite Hd.
        destruct (pendingKeysAfterEnter st) as [|k keys] eqn:Hp.
        -- simpl. rewrite app_nil_r.
           destruct (IH (set_isEnteringInsertMode false
                           (disposeReplacePrevChar (disposeType st)))
                       out None)
             as (st' & out' & stage' & Hrun & Hm).
           { unfold disposeReplacePrevChar, disposeType.
             destruct st as [[] [] ? ? ? ? ? ? ?]; simpl in *; by subst. }
           exists st', out', stage'. split; [done|].
           destruct stage' as [[]|]; [done| |].
           ++ exists [], (typed steps). simpl. by rewrite app_nil_r.
           ++ exists [], (typed steps). simpl. by rewrite app_nil_r.
        -- simpl.
           destruct (IH (disposeReplacePrevChar (disposeType st))
                       (out ++ [Sent (DefaultType (k :: keys))])
                       (Some AwaitReplay))
             as (st' & out' & stage' & Hrun & Hm).
           { unfold disposeReplacePrevChar, disposeType.
             destruct st as [[] [] ? ? ? ? ? ? ?]; simpl in *; by subst. }
           exists st', out', stage'. split; [done|].
           destruct stage' as [[]|]; [done| |].
           ++ exists [], (typed steps). simpl. by rewrite app_nil_r.
           ++ exists [], (typed steps). simpl. by rewrite app_nil_r.
      * simpl. rewrite app_nil_r.
        apply (IH (set_isEnteringInsertMode false
                     (set_pendingKeysAfterEnter [] st)) out None).
        destruct Hinv as (? & ? & _). by destruct st.
      * by apply (IH st out None).
Qed.

End TypingCommandsFacts.

(** ** Highlight namespaces : what is set, and that it is set once *)

Section HighlightFacts.
Import Highlight.

Lemma curr_ns_insert_eq (vars : gmap Z LuaValue) (win n : Z) :
  curr_ns (<[win := LNumber n]> vars) win = LNumber n.
Proof. unfold curr_ns. by rewrite lookup_insert_eq. Qed.

Lemma curr_ns_insert_ne (vars : gmap Z LuaValue) (win win' : Z) (v : LuaValue) :
  win' ≠ win -> curr_ns (<[win := v]> vars) win' = curr_ns vars win'.
Proof. intros Hne. unfold curr_ns. by rewrite lookup_insert_ne. Qed.

Lemma set_win_hl_ns_fold (NS : Z) (nv : Nvim) (l : list Z)
    (vars : gmap Z LuaValue) (calls : list ApiCall) :
  exists vars' new,
    fold_left
      (fun acc win =>
         if bool_decide (curr_ns (fst acc) win
                         ≠ LNumber (target_ns NS nv win)) then
           (<[win := LNumber (target_ns NS nv win)]> (fst acc),
            snd acc ++ [nvim_win_set_var win "_vscode_hl_ns"
                          (LNumber (target_ns NS nv win));
                        nvim_win_set_hl_ns win (target_ns NS nv win)])
         else acc)
      l (vars, calls) = (vars', calls ++ new)
    /\ (forall win, In win l ->
          curr_ns vars' win = LNumber (target_ns NS nv win))
    /\ (forall win,
          ~ In win l \/ curr_ns vars win = LNumber (target_ns NS nv win) ->
          vars' !! win = vars !! win)
    /\ (forall c, In c new ->
          exists win,
            In win l
            /\ curr_ns vars win ≠ LNumber (target_ns NS nv win)
            /\ (c = nvim_win_set_var win "_vscode_hl_ns"
                      (LNumber (target_ns NS nv win))
                \/ c = nvim_win_set_hl_ns win (target_ns NS nv win)))
    /\ ((forall win, In win l ->
           curr_ns vars win = LNumber (target_ns NS nv win)) ->
        vars' = vars /\ new = []).
Proof.
  revert vars calls. induction l as [|w l IH]; intros vars calls.
  - exists vars, []. simpl. rewrite app_nil_r. repeat split; done.
  - simpl. case_bool_decide as Hc.
    + destruct (IH (<[w := LNumber (target_ns NS nv w)]> vars)
                  (calls ++ [nvim_win_set_var w "_vscode_hl_ns"
                               (LNumber (target_ns NS nv w));
                             nvim_win_set_hl_ns w (target_ns NS nv w)]))
        as (vars' & new & Hrun & Hin & Hout & Hcalls & Hidle).
      exists vars', ([nvim_win_set_var w "_vscode_hl_ns"
                        (LNumber (target_ns NS nv w));
                      nvim_win_set_hl_ns w (target_ns NS nv w)] ++ new).
      split; [by rewrite Hrun, <- app_assoc|].
      assert (Hw : curr_ns vars' w = LNumber (target_ns NS nv w)).
      { destruct (in_dec Z.eq_dec w l) as [Hl|Hl]; [by apply Hin|].
        unfold curr_ns. rewrite Hout by (by left).
        by rewrite lookup_insert_eq. }
      split; [|split; [|split]].
      * intros win [<-|Hl]; [done|by apply Hin].
      * intros win Hwin.
        assert (win ≠ w) as Hne.
        { intros ->. destruct Hwin as [Hn|Hn]; [apply Hn; by left|done]. }
        rewrite Hout, lookup_insert_ne; [done|done|].
        destruct Hwin as [Hn|Hn].
        -- left. intros Hl. apply Hn. by right.
        -- right. by rewrite curr_ns_insert_ne.
      * intros c Hc'. apply in_app_or in Hc' as [Hc'|Hc'].
        -- exists w. split; [by left|]. split; [done|].
           destruct Hc' as [<-|[<-|[]]]; [by left|by right].
        -- destruct (Hcalls c Hc') as (win & Hl & Hne & Hcs).
           exists win. split; [by right|]. split; [|done].
           destruct (decide (win = w)) as [->|Hww].
           ++ by rewrite curr_ns_insert_eq in Hne.
           ++ by rewrite curr_ns_insert_ne in Hne.
      * intros Hall. exfalso. apply Hc, Hall. by left.
    + destruct (IH vars calls) as (vars' & new & Hrun & Hin & Hout & Hcalls & Hidle).
      exists vars', new. split; [done|].
      split; [|split; [|split]].
      * intros win [<-|Hl]; [|by apply Hin].
        unfold curr_ns. rewrite Hout by (by right). apply Hc.
      * intros win Hwin. apply Hout. destruct Hwin as [Hn|Hn]; [|by right].
        left. intros Hl. apply Hn. by right.
      * intros c Hc'. destruct (Hcalls c Hc') as (win & Hl & Hrest).
        exists win. split; [by right|done].
      * intros Hall. apply Hidle. intros win Hl. apply Hall. by right.
Qed.

(** [set_win_hl_ns] brings the variable of every window to its target
    namespace, calling the editor only for the windows that are not there
    yet, and leaves the other windows alone; run again, it calls nothing
    and changes nothing. *)
Theorem set_win_hl_ns_settles (NS : Z) (nv : Nvim) (vars : gmap Z LuaValue) :
  exists vars' calls,
    set_win_hl_ns NS nv vars = (vars', calls)
    /\ set_win_hl_ns NS nv vars' = (vars', [])
    /\ (forall win, In win (nvim_list_wins nv) ->
          curr_ns vars' win = LNumber (target_ns NS nv win))
    /\ (forall win,
          ~ In win (nvim_list_wins nv)
          \/ curr_ns vars win = LNumber (target_ns NS nv win) ->
          vars' !! win = vars !! win)
    /\ (forall c, In c calls ->
          exists win,
            In win (nvim_list_wins nv)
            /\ curr_ns vars win ≠ LNumber (target_ns NS nv win)
            /\ (c = nvim_win_set_var win "_vscode_hl_ns"
                      (LNumber (target_ns NS nv win))
                \/ c = nvim_win_set_hl_ns win (target_ns NS nv win))).
Proof.
  unfold set_win_hl_ns.
  destruct (set_win_hl_ns_fold NS nv (nvim_list_wins nv) vars [])
    as (vars' & new & Hrun & Hin & Hout & Hcalls & _).
  exists vars', new. split; [exact Hrun|]. split; [|done].
  destruct (set_win_hl_ns_fold NS nv (nvim_list_wins nv) vars' [])
    as (vars2 & new2 & Hrun2 & _ & _ & _ & Hidle).
  destruct (Hidle Hin) as [-> ->]. exact Hrun2.
Qed.

Lemma set_names_app (a b : list ApiCall) :
  set_names (a ++ b) = set_names a ++ set_names b.
Proof.
  induction a as [|c a IH]; [done|]. destruct c; simpl; by rewrite ?IH.
Qed.

Lemma set_hl_call (id : Z) (name : string) (value : HlValue) :
  exists v, set_hl id name value = nvim_set_hl id name v
            /\ (value = [] -> v = [hl_link "VSCodeNone"]).
Proof. unfold set_hl. destruct value; simpl; eauto. by eexists. Qed.

(** A loop that defines a group unless it is in the table of the groups
    already defined, and then enters it there. *)
Lemma once_fold {A : Type} (NS : Z) (key : A -> option string)
    (value : A -> HlValue) (l : list A) (seen : gset string)
    (calls : list ApiCall) :
  exists seen' new,
    fold_left
      (fun acc x =>
         match key x with
         | Some k =>
             if bool_decide (k ∈ fst acc) then acc
             else ({[k]} ∪ fst acc, snd acc ++ [set_hl NS k (value x)])
         | None => acc
         end)
      l (seen, calls) = (seen', calls ++ new)
    /\ (forall k, (k ∈ seen') <->
                  (k ∈ seen \/ exists x, In x l /\ key x = Some k))
    /\ NoDup (set_names new)
    /\ (forall c, In c new ->
          exists x k, In x l /\ key x = Some k /\ (k ∉ seen)
                      /\ c = set_hl NS k (value x))
    /\ ((forall x k, In x l -> key x = Some k -> k ∈ seen) ->
        seen' = seen /\ new = []).
Proof.
  revert seen calls. induction l as [|x l IH]; intros seen calls.
  - exists seen, []. simpl. rewrite app_nil_r.
    split; [done|]. split; [|split; [constructor|split; [done|done]]].
    intros k. split; [by left|]. by intros [?|(? & [] & _)].
  - simpl. destruct (key x) as [k|] eqn:Hk; [case_bool_decide as Hin|].
    + destruct (IH seen calls) as (seen' & new & Hrun & Hmem & Hnd & Hc & Hidle).
      exists seen', new. split; [done|].
      split; [|split; [done|split]].
      * intros k'. rewrite Hmem. split.
        -- intros [?|(y & Hy & Hky)]; [by left|]. right. exists y.
           split; [by right|done].
        -- intros [?|(y & [<-|Hy] & Hky)]; [by left| |].
           ++ left. congruence.
           ++ right. by exists y.
      * intros c Hcin. destruct (Hc c Hcin) as (y & k' & Hy & Hrest).
        exists y, k'. split; [by right|done].
      * intros Hall. apply Hidle. intros y k' Hy. apply Hall. by right.
    + destruct (IH ({[k]} ∪ seen) (calls ++ [set_hl NS k (value x)]))
        as (seen' & new & Hrun & Hmem & Hnd & Hc & Hidle).
      exists seen', (set_hl NS k (value x) :: new).
      split; [by rewrite Hrun, <- app_assoc|].
      split; [|split; [|split]].
      * intros k'. rewrite Hmem, elem_of_union, elem_of_singleton. split.
        -- intros [[->|?]|(y & Hy & Hky)].
           ++ right. exists x. split; [by left|done].
           ++ by left.
           ++ right. exists y. split; [by right|done].
        -- intros [?|(y & [<-|Hy] & Hky)].
           ++ left. by right.
           ++ left. left. congruence.
           ++ right. by exists y.
      * destruct (set_hl_call NS k (value x)) as (v & -> & _). simpl.
        apply NoDup_cons. split; [|done].
        intros Hkin. apply list_elem_of_In in Hkin.
        assert (Hex : exists c, In c new /\ exists ns v', c = nvim_set_hl ns k v').
        { clear -Hkin. induction new as [|c new IHn]; [done|].
          destruct c as [ns n v'| |]; simpl in Hkin.
          - destruct Hkin as [->|Hkin].
            + exists (nvim_set_hl ns k v'). split; [by left|eauto].
            + destruct (IHn Hkin) as (c & ? & ?). exists c. split; [by right|done].
          - destruct (IHn Hkin) as (c & ? & ?). exists c. split; [by right|done].
          - destruct (IHn Hkin) as (c & ? & ?). exists c. split; [by right|done]. }
        destruct Hex as (c & Hcin & ns & v' & ->).
        destruct (Hc _ Hcin) as (y & k' & Hy & Hky & Hnin & Heq).
        destruct (set_hl_call NS k' (value y)) as (v2 & Hv2 & _).
        rewrite Hv2 in Heq. injection Heq as -> -> ->.
        apply Hnin. apply elem_of_union_l. by apply elem_of_singleton.
      * intros c [<-|Hcin].
        -- exists x, k. split; [by left|done].
        -- destruct (Hc c Hcin) as (y & k' & Hy & Hky & Hnin & Heq).
           exists y, k'. split; [by right|]. split; [done|]. split; [|done].
           intros Hs. apply Hnin. by apply elem_of_union_r.
      * intros Hall. exfalso. apply Hin. apply (Hall x k); [by left|done].
    + destruct (IH seen calls) as (seen' & new & Hrun & Hmem & Hnd & Hc & Hidle).
      exists seen', new. split; [done|].
      split; [|split; [done|split]].
      * intros k'. rewrite Hmem. split.
        -- intros [?|(y & Hy & Hky)]; [by left|]. right. exists y.
           split; [by right|done].
        -- intros [?|(y & [<-|Hy] & Hky)]; [by left|congruence|].
           right. by exists y.
      * intros c Hcin. destruct (Hc c Hcin) as (y & k' & Hy & Hrest).
        exists y, k'. split; [by right|done].
      * intros Hall. apply Hidle. intros y k' Hy. apply Hall. by right.
Qed.

(** In that loop a group that was not in the table is defined : the call is
    among those made. *)
Lemma once_fold_made {A : Type} (NS : Z) (key : A -> option string)
    (value : A -> HlValue) (l : list A) (seen : gset string)
    (calls : list ApiCall) (x : A) (k : string) :
  In x l -> key x = Some k -> k ∉ seen ->
  exists y,
    In y l /\ key y = Some k
    /\ In (set_hl NS k (value y))
         (snd (fold_left
                 (fun acc x =>
                    match key x with
                    | Some k =>
                        if bool_decide (k ∈ fst acc) then acc
                        else ({[k]} ∪ fst acc,
                              snd acc ++ [set_hl NS k (value x)])
                    | None => acc
                    end)
                 l (seen, calls))).
Proof.
  revert seen calls. induction l as [|x0 l IH]; intros seen calls Hx Hk Hn;
    [done|].
  cbn [fold_left]. destruct (key x0) as [k0|] eqn:Hk0.
  - cbn [fst snd]. case_bool_decide as Hin.
    + destruct Hx as [->|Hx]; [congruence|].
      destruct (IH seen calls Hx Hk Hn) as (y & Hy & Hky & Hc).
      exists y. split; [by right|done].
    + destruct (decide (k = k0)) as [->|Hne].
      * exists x0. split; [by left|]. split; [done|].
        destruct (once_fold NS key value l ({[k0]} ∪ seen)
                    (calls ++ [set_hl NS k0 (value x0)]))
          as (seen' & new & -> & _).
        cbn [snd]. apply in_or_app. left. apply in_or_app. right. by left.
      * destruct Hx as [->|Hx]; [congruence|].
        destruct (IH ({[k0]} ∪ seen) (calls ++ [set_hl NS k0 (value x0)])
                    Hx Hk) as (y & Hy & Hky & Hc).
        { rewrite elem_of_union, elem_of_singleton. by intros [?|?]. }
        exists y. split; [by right|done].
  - destruct Hx as [->|Hx]; [congruence|].
    destruct (IH seen calls Hx Hk Hn) as (y & Hy & Hky & Hc).
    exists y. split; [by right|done].
Qed.

(** [setup_overrides], whatever the order of the traversal : every group of
    the table is entered in [overridden]; every group of the traversal that
    was not there is linked to [VSCodeNone] in the namespace, no group is
    linked twice and no other call is made; run again, it calls nothing and
    changes nothing. *)
Theorem setup_overrides_once (NS : Z) (pairs : list (string * HlValue))
    (overridden : gset string) :
  (forall p, In p pairs -> In p overrides) ->
  exists overridden' calls,
    setup_overrides NS pairs overridden = (overridden', calls)
    /\ setup_overrides NS pairs overridden' = (overridden', [])
    /\ (forall name, (name ∈ overridden') <->
                     (name ∈ overridden \/ In name (map fst pairs)))
    /\ (forall name, In name (map fst pairs) -> name ∉ overridden ->
          In (nvim_set_hl NS name [hl_link "VSCodeNone"]) calls)
    /\ NoDup (set_names calls)
    /\ (forall c, In c calls ->
          exists name,
            In name (map fst pairs) /\ (name ∉ overridden)
            /\ c = nvim_set_hl NS name [hl_link "VSCodeNone"]).
Proof.
  intros Hsub. unfold setup_overrides.
  assert (Hempty : forall p, In p pairs -> snd p = []).
  { intros p Hp. pose proof (Hsub p Hp) as Hov. unfold overrides in Hov.
    apply in_map_iff in Hov as (n & <- & _). done. }
  destruct (once_fold NS (fun p => Some (fst p)) snd pairs overridden [])
    as (ov' & new & Hrun & Hmem & Hnd & Hc & _).
  assert (Hmem' : forall name, (name ∈ ov') <->
                    (name ∈ overridden \/ In name (map fst pairs))).
  { intros name. rewrite Hmem, in_map_iff. split.
    - intros [?|(p & Hp & [= Hk])]; [by left|]. right. by exists p.
    - intros [?|(p & Hk & Hp)]; [by left|]. right. exists p. by rewrite Hk. }
  exists ov', new. split; [exact Hrun|].
  split; [|split; [done|split; [|split; [done|]]]].
  - destruct (once_fold NS (fun p => Some (fst p)) snd pairs ov' [])
      as (ov2 & new2 & Hrun2 & _ & _ & _ & Hidle).
    destruct Hidle as [-> ->]; [|exact Hrun2].
    intros p k Hp [= <-]. apply Hmem'. right. apply in_map_iff. by exists p.
  - intros name (p & <- & Hp)%in_map_iff Hnin.
    destruct (once_fold_made NS (fun p => Some (fst p)) snd pairs overridden
                [] p (fst p) Hp eq_refl Hnin) as (y & Hy & [= Hky] & Hmade).
    cbv beta in Hrun, Hmade. rewrite Hrun in Hmade. cbn [snd app] in Hmade.
    unfold set_hl in Hmade. by rewrite (Hempty y Hy) in Hmade.
  - intros c Hcin. destruct (Hc c Hcin) as (p & k & Hp & [= <-] & Hnin & ->).
    exists (fst p). split; [apply in_map_iff; by exists p|]. split; [done|].
    unfold set_hl. by rewrite (Hempty p Hp).
Qed.

(** *** The pattern *)

Lemma max_expand_some {A : Type} (rest : nat -> option A) (i : nat) (r : A) :
  max_expand rest i = Some r -> exists j, (j <= i)%nat /\ rest j = Some r.
Proof.
  induction i as [|i IH]; simpl.
  - destruct (rest 0%nat) eqn:E; [|done]. intros [= <-]. by exists 0%nat.
  - destruct (rest (S i)) eqn:E.
    + intros [= <-]. by exists (S i).
    + intros Hm. destruct (IH Hm) as (j & Hj & Hr). exists j. split; [lia|done].
Qed.

Lemma max_expand_top {A : Type} (rest : nat -> option A) (i : nat) (r : A) :
  rest i = Some r -> max_expand rest i = Some r.
Proof. intros Hr. destruct i; simpl; by rewrite Hr. Qed.

Lemma append_cons (c : ascii) (a b : string) :
  String c a +:+ b = String c (a +:+ b).
Proof. done. Qed.

Lemma append_nil (b : string) : "" +:+ b = b.
Proof. done. Qed.

Lemma span_take (p : ascii -> bool) (s : string) (j : nat) :
  (j <= span p s)%nat ->
  string_forall p (string_take j s) = true
  /\ string_take j s +:+ string_drop j s = s.
Proof.
  revert s. induction j as [|j IH]; intros s Hj.
  - by destruct s.
  - destruct s as [|c r]; simpl in Hj; [lia|].
    destruct (p c) eqn:Hp; [|lia].
    destruct (IH r ltac:(lia)) as [Hf Ha]. simpl. rewrite Hp, Hf.
    split; [done|]. by rewrite append_cons, Ha.
Qed.

Lemma span_app (p : ascii -> bool) (a : string) (c : ascii) (b : string) :
  string_forall p a = true -> p c = false ->
  span p (a +:+ String c b) = String.length a.
Proof.
  intros Ha Hc. induction a as [|x a IH].
  - rewrite append_nil. simpl. by rewrite Hc.
  - simpl in Ha. apply andb_true_iff in Ha as [Hx Ha].
    rewrite append_cons. simpl. rewrite Hx. by rewrite IH.
Qed.

Lemma string_drop_app (a b : string) :
  string_drop (String.length a) (a +:+ b) = b.
Proof.
  induction a as [|x a IH]; [by destruct b|].
  rewrite append_cons. simpl. exact IH.
Qed.

Lemma string_take_app (a b : string) :
  string_take (String.length a) (a +:+ b) = a.
Proof.
  induction a as [|x a IH]; [by destruct b|].
  rewrite append_cons. simpl. by rewrite IH.
Qed.

Lemma prefix_cons (a b : ascii) (s1 s2 : string) :
  String.prefix (String a s1) (String b s2)
  = if Ascii.ascii_dec a b then String.prefix s1 s2 else false.
Proof. done. Qed.

Lemma prefix_xxx (s : string) :
  String.prefix "xxx" s = true <-> exists post, s = "xxx" +:+ post.
Proof.
  split.
  - intros H.
    destruct s as [|a s]; [done|]. rewrite prefix_cons in H.
    destruct (Ascii.ascii_dec _ a) as [<-|]; [|done].
    destruct s as [|b s]; [done|]. rewrite prefix_cons in H.
    destruct (Ascii.ascii_dec _ b) as [<-|]; [|done].
    destruct s as [|c s]; [done|]. rewrite prefix_cons in H.
    destruct (Ascii.ascii_dec _ c) as [<-|]; [|done].
    by exists s.
  - intros [post ->]. rewrite !append_cons, append_nil, !prefix_cons.
    repeat (destruct (Ascii.ascii_dec _ _) as [_|n]; [|by destruct n]).
    by destruct post.
Qed.

Lemma space_not_group (c : ascii) :
  is_space c = true -> is_group_char c = false.
Proof.
  destruct c as [b0 b1 b2 b3 b4 b5 b6 b7].
  by destruct b0, b1, b2, b3, b4, b5, b6, b7.
Qed.

Lemma match_spaces_xxx_sound (s : string) :
  match_spaces_xxx s = true ->
  exists ws post,
    s = ws +:+ "xxx" +:+ post
    /\ ws ≠ "" /\ string_forall is_space ws = true.
Proof.
  unfold match_spaces_xxx. destruct s as [|c r]; [done|].
  destruct (is_space c) eqn:Hc; [|done].
  destruct (max_expand _ _) as [[]|] eqn:Hm; [|done]. intros _.
  apply max_expand_some in Hm as (j & Hj & Hr).
  destruct (String.prefix "xxx" (string_drop j r)) eqn:Hp; [|done].
  apply prefix_xxx in Hp as [post Hp].
  destruct (span_take is_space r j Hj) as [Hf Ha].
  exists (String c (string_take j r)), post.
  split; [|split; [done|]].
  - by rewrite append_cons, <- Hp, Ha.
  - simpl. by rewrite Hc, Hf.
Qed.

Lemma match_at_sound (s g : string) :
  match_at s = Some g ->
  exists ws post,
    s = g +:+ ws +:+ "xxx" +:+ post
    /\ g ≠ "" /\ string_forall is_group_char g = true
    /\ ws ≠ "" /\ string_forall is_space ws = true.
Proof.
  unfold match_at. destruct s as [|c r]; [done|].
  destruct (is_group_char c) eqn:Hc; [|done]. intros Hm.
  apply max_expand_some in Hm as (i & Hi & Hr).
  destruct (match_spaces_xxx (string_drop i r)) eqn:Hs; [|done].
  injection Hr as <-.
  destruct (match_spaces_xxx_sound _ Hs) as (ws & post & Hd & Hw & Hwf).
  destruct (span_take is_group_char r i Hi) as [Hf Ha].
  exists ws, post. split; [|split; [done|split; [|done]]].
  - by rewrite append_cons, <- Hd, Ha.
  - simpl. by rewrite Hc, Hf.
Qed.

Lemma match_group_cons (c : ascii) (r : string) :
  match_group (String c r)
  = match match_at (String c r) with
    | Some g => Some g
    | None => match_group r
    end.
Proof. done. Qed.

Lemma match_group_sound (item g : string) :
  match_group item = Some g ->
  exists pre ws post,
    item = pre +:+ g +:+ ws +:+ "xxx" +:+ post
    /\ g ≠ "" /\ string_forall is_group_char g = true
    /\ ws ≠ "" /\ string_forall is_space ws = true.
Proof.
  revert g. induction item as [|c r IH]; intros g.
  - done.
  - rewrite match_group_cons.
    destruct (match_at (String c r)) as [g'|] eqn:Hm.
    + intros [= ->]. destruct (match_at_sound _ _ Hm) as (ws & post & Hs).
      by exists "", ws, post.
    + intros Hr. destruct (IH g Hr) as (pre & ws & post & -> & Hs).
      by exists (String c pre), ws, post.
Qed.

(** What [item:match] captures is a group name followed in the item by
    white space and [xxx]; an item that begins with a group name, white
    space and [xxx] gives that name. *)
Theorem match_group_captures_name :
  (forall item g,
     match_group item = Some g ->
     exists pre ws post,
       item = pre +:+ g +:+ ws +:+ "xxx" +:+ post
       /\ g ≠ "" /\ string_forall is_group_char g = true
       /\ ws ≠ "" /\ string_forall is_space ws = true)
  /\ (forall g ws post,
        g ≠ "" -> string_forall is_group_char g = true ->
        ws ≠ "" -> string_forall is_space ws = true ->
        match_group (g +:+ ws +:+ "xxx" +:+ post) = Some g).
Proof.
  split.
  - intros item g Hm. by apply match_group_sound.
  - intros g ws post Hg Hgf Hw Hwf.
    destruct g as [|c name]; [done|]. destruct ws as [|c' ws]; [done|].
    simpl in Hgf, Hwf.
    apply andb_true_iff in Hgf as [Hc Hgf].
    apply andb_true_iff in Hwf as [Hc' Hwf].
    assert (Hat : match_at (String c name +:+ String c' ws +:+ "xxx" +:+ post)
                  = Some (String c name)).
    { rewrite append_cons. unfold match_at. rewrite Hc.
      rewrite append_cons.
      rewrite span_app by (by auto using space_not_group).
      apply max_expand_top.
      rewrite string_drop_app, string_take_app.
      unfold match_spaces_xxx. rewrite Hc'.
      change ("xxx" +:+ post) with (String "x" ("xx" +:+ post)).
      rewrite span_app by done.
      rewrite (max_expand_top _ _ tt); [done|].
      rewrite string_drop_app.
      change (String "x" ("xx" +:+ post)) with ("xxx" +:+ post).
      assert (String.prefix "xxx" ("xxx" +:+ post) = true) as ->; [|done].
      apply prefix_xxx. by exists post. }
    rewrite append_cons in *. rewrite match_group_cons. by rewrite Hat.
Qed.

(** [setup_syntax_groups] clears each group that [:syntax] lists at most
    once, over any number of runs : the groups linked to [VSCodeNone] are
    names captured from the lines, not cleared before, and none twice; run
    again on the same output, it calls nothing and changes nothing. *)
Theorem setup_syntax_groups_once (NS : Z) (output : string)
    (cleared : gset string) :
  exists cleared' calls,
    setup_syntax_groups NS output cleared = (cleared', calls)
    /\ setup_syntax_groups NS output cleared' = (cleared', [])
    /\ (forall g, g ∈ cleared -> g ∈ cleared')
    /\ NoDup (set_names calls)
    /\ (forall c, In c calls ->
          exists item g,
            In item (split (String (Ascii.ascii_of_nat 10) EmptyString) output)
            /\ match_group item = Some g
            /\ (g ∉ cleared)
            /\ g ≠ "" /\ string_forall is_group_char g = true
            /\ c = nvim_set_hl NS g [hl_link "VSCodeNone"]).
Proof.
  unfold setup_syntax_groups.
  set (items := split _ output).
  destruct (once_fold NS match_group (fun _ => []) items cleared [])
    as (cl' & new & Hrun & Hmem & Hnd & Hc & _).
  exists cl', new. split; [exact Hrun|].
  split; [|split; [|split; [done|]]].
  - destruct (once_fold NS match_group (fun _ => []) items cl' [])
      as (cl2 & new2 & Hrun2 & _ & _ & _ & Hidle).
    destruct Hidle as [-> ->]; [|exact Hrun2].
    intros item g Hi Hg. apply Hmem. right. by exists item.
  - intros g Hg. apply Hmem. by left.
  - intros c Hcin. destruct (Hc c Hcin) as (item & g & Hi & Hg & Hnin & ->).
    exists item, g. split; [done|]. split; [done|]. split; [done|].
    destruct (match_group_sound item g Hg) as (pre & ws & post & _ & Hne & Hf & _).
    done.
Qed.
End HighlightFacts.

(** ** The further properties on concrete cases *)

Section FurtherExamples.
Import Scenario Cases.

(** Two columns, grid 4 closed and grid 6 opened on window 12 : the lookups
    agree. *)
Lemma grid_lookups_two_columns :
  let b' := BufferManager.handleRedraw redraw_batch manager_two_columns in
  NoDup (map fst (BufferManager.grids b'))
  /\ (forall w g, BufferManager.getGridIdForWinId b' w = Some g ->
                  BufferManager.getWinIdForGridId b' g = Some w)
  /\ (forall g w, BufferManager.getWinIdForGridId b' g = Some w ->
                  exists g', BufferManager.getGridIdForWinId b' w = Some g'
                             /\ BufferManager.getWinIdForGridId b' g' = Some w)
  /\ b' = BufferManager.set_grids (BufferManager.grids b') manager_two_columns.
Proof.
  apply (handleRedraw_grid_lookups redraw_batch manager_two_columns).
  apply (bool_decide_unpack _). vm_compute. exact I.
Defined.

(** Document A has buffer 2, and buffer 2 is document A's. *)
Lemma document_lookups_two_columns :
  BufferManager.getTextDocumentForBufferId host_two_columns
    manager_two_columns 2 = Some 1%positive
  /\ BufferManager.getBufferIdForTextDocument manager_two_columns 1%positive
     = Some 2
  /\ isClosed (documents host_two_columns 1%positive) = false.
Proof.
  assert (Hn : NoDup (map fst (BufferManager.textDocumentToBufferId
                                 manager_two_columns))).
  { apply (bool_decide_unpack _). vm_compute. exact I. }
  destruct (document_buffer_lookups host_two_columns manager_two_columns Hn)
    as (H & _).
  split; [reflexivity|]. apply (H 2 1%positive). reflexivity.
Defined.

(** Editor 2 has window 11, and window 11 is editor 2's. *)
Lemma editor_lookups_two_columns :
  BufferManager.getWinIdForTextEditor manager_two_columns 2%positive = Some 11
  /\ BufferManager.getEditorFromWinId manager_two_columns 11 = Some 2%positive.
Proof.
  assert (Hn : NoDup (map fst (BufferManager.textEditorToWinId
                                 manager_two_columns))).
  { apply (bool_decide_unpack _). vm_compute. exact I. }
  destruct (editor_window_lookups manager_two_columns Hn) as (_ & H & _).
  split; [reflexivity|]. apply (H 2%positive 11); [reflexivity|].
  intros e' [Hin|[Hin|[]]]; congruence.
Defined.

(** Window 10 scrolled to column 7, then the viewport of its grid is
    reported : the cursor is at (21, 2), the offset at (6, 7). *)
Lemma positions_grid_4 :
  let gv' := ViewportManager.handleRedraw_event
               (ViewportManager.handleExtensionRequest manager_two_columns
                  "window-scroll" 10 scrolled viewports)
               (win_viewport [viewport_4]) in
  ViewportQueries.getCursorFromViewport 4 gv'
  = (ViewportQueries.mkPosition 21 2, gv')
  /\ ViewportQueries.getGridOffset 4 gv'
     = (ViewportQueries.mkPosition 6 7, gv').
Proof.
  apply (positions_after_scroll_and_viewport manager_two_columns 10 4 scrolled
           [viewport_4] viewport_4 viewports).
  - reflexivity.
  - lia.
  - reflexivity.
Defined.

(** Grid 4 destroyed : no scroll is sent for editor 1. *)
Lemma destroyed_grid_4 :
  let gv' := ViewportManager.handleRedraw_event viewports (grid_destroy [4]) in
  gv' !! 4 = None
  /\ ViewportManager.scrollNeovim host_two_columns 0 false manager_two_columns
       gv' (Some 1%positive) = []
  /\ ViewportQueries.getCursorFromViewport 4 gv'
     = (ViewportQueries.mkPosition 0 0,
        <[4 := ViewportManager.new_Viewport]> gv').
Proof.
  apply (destroyed_grid_viewport host_two_columns 0 false manager_two_columns
           viewports [4] 4 1%positive).
  - simpl. left. reflexivity.
  - reflexivity.
Defined.

(** A grid scrolled to column 7, destroyed and reported again, is back at
    column 0. *)
Lemma horizontal_scroll_after_destroy :
  (ViewportManager.leftcol (ViewportManager.mkViewport 21 2 6 46 0 0)
   = ViewportManager.leftcol (ViewportQueries.viewport_of viewports_scrolled 4)
   /\ ViewportManager.skipcol (ViewportManager.mkViewport 21 2 6 46 0 0)
      = ViewportManager.skipcol (ViewportQueries.viewport_of viewports_scrolled 4))
  \/ ((exists args, In (grid_destroy args) destroy_then_report /\ In 4 args)
      /\ ViewportManager.leftcol (ViewportManager.mkViewport 21 2 6 46 0 0) = 0
      /\ ViewportManager.skipcol (ViewportManager.mkViewport 21 2 6 46 0 0) = 0).
Proof.
  apply (handleRedraw_horizontal_scroll destroy_then_report viewports_scrolled
           4 (ViewportManager.mkViewport 21 2 6 46 0 0)).
  vm_compute. reflexivity.
Defined.

Lemma issued_bus_redraw : Subscriptions.issued bus_redraw.
Proof. repeat constructor. Qed.

(** A second handler registered and disposed of : handler 7 is the one
    listener again. *)
Lemma second_handler_disposed :
  EventBus.listeners
    (EventBus.dispose_listener (EventBus.on bus_redraw "redraw" 8%nat).1
       (EventBus.on bus_redraw "redraw" 8%nat).2)
  = EventBus.listeners bus_redraw.
Proof.
  destruct (@on_then_dispose nat nat bus_redraw "redraw" 8%nat
              issued_bus_redraw) as (_ & _ & H & _).
  exact H.
Defined.

(** The table traversed in the order it is written. *)
Lemma overrides_traversed_in_order :
  exists overridden' calls,
    Highlight.setup_overrides 5 Highlight.overrides ∅ = (overridden', calls)
    /\ Highlight.setup_overrides 5 Highlight.overrides overridden'
       = (overridden', [])
    /\ (forall name, (name ∈ overridden') <->
                     (name ∈ (∅ : gset string)
                      \/ In name (map fst Highlight.overrides)))
    /\ (forall name, In name (map fst Highlight.overrides) ->
          name ∉ (∅ : gset string) ->
          In (Highlight.nvim_set_hl 5 name [Highlight.hl_link "VSCodeNone"])
            calls)
    /\ NoDup (Highlight.set_names calls)
    /\ (forall c, In c calls ->
          exists name,
            In name (map fst Highlight.overrides)
            /\ (name ∉ (∅ : gset string))
            /\ c = Highlight.nvim_set_hl 5 name [Highlight.hl_link "VSCodeNone"]).
Proof.
  apply (setup_overrides_once 5 Highlight.overrides ∅).
  intros p Hp. exact Hp.
Defined.



End FurtherExamples.

(** ** The text of a document and the lines of its buffer *)

Section BufferTextFacts.
Import BufferManager.

Lemma prefix_append (sep s : string) :
  String.prefix sep s = true ->
  s = sep +:+ substring_from (String.length sep) s.
Proof.
  revert s. induction sep as [|a sep IH]; intros s.
  - intros _. by destruct s.
  - destruct s as [|b s]; [done|]. rewrite prefix_cons.
    destruct (Ascii.ascii_dec a b) as [<-|]; [|done].
    intros Hp. rewrite append_cons. simpl. by rewrite <- IH.
Qed.

Lemma split_go_String (sep : string) (skip : nat) (cur : string)
    (c : ascii) (r : string) :
  split_go sep skip cur (String c r)
  = match skip with
    | S k => split_go sep k cur r
    | O =>
        if String.prefix sep (String c r)
        then cur :: split_go sep (String.length sep - 1) "" r
        else split_go sep 0 (cur +:+ String c "") r
    end.
Proof. done. Qed.

Lemma split_go_cons (sep : string) (skip : nat) (cur s : string) :
  exists x l, split_go sep skip cur s = x :: l.
Proof.
  revert skip cur. induction s as [|c r IH]; intros skip cur.
  - by exists cur, [].
  - rewrite split_go_String. destruct skip as [|k]; [|apply IH].
    destruct (String.prefix sep (String c r)); [|apply IH].
    by eexists _, _.
Qed.

Lemma join_cons (sep x : string) (l : list string) :
  l ≠ [] -> join sep (x :: l) = x +:+ sep +:+ join sep l.
Proof. by destruct l. Qed.

Lemma append_assoc (a b c : string) : (a +:+ b) +:+ c = a +:+ (b +:+ c).
Proof.
  induction a as [|x a IH]; [done|]. rewrite !append_cons. by rewrite IH.
Qed.

Lemma append_nil_r (a : string) : a +:+ "" = a.
Proof. induction a as [|x a IH]; [done|]. rewrite append_cons. by rewrite IH. Qed.

Lemma join_split_go (sep : string) :
  sep ≠ "" ->
  forall (s : string) (skip : nat) (cur : string),
    join sep (split_go sep skip cur s) = cur +:+ substring_from skip s.
Proof.
  intros Hsep. induction s as [|c r IH]; intros skip cur.
  - simpl. destruct skip; by rewrite append_nil_r.
  - rewrite split_go_String. destruct skip as [|k]; [|apply IH].
    destruct (String.prefix sep (String c r)) eqn:Hp.
    + destruct (split_go_cons sep (String.length sep - 1) "" r)
        as (x & l & Hx).
      rewrite join_cons by (by rewrite Hx).
      rewrite IH, append_nil.
      pose proof (prefix_append _ _ Hp) as Hs.
      destruct sep as [|a sep]; [done|].
      change (substring_from (String.length (String a sep)) (String c r))
        with (substring_from (String.length sep) r) in Hs.
      change (String.length (String a sep) - 1)%nat
        with (String.length sep - 0)%nat.
      rewrite Nat.sub_0_r.
      change (substring_from 0 (String c r)) with (String c r).
      by rewrite Hs.
    + rewrite IH. simpl. rewrite append_assoc. done.
Qed.

(** [s.split(sep).join(sep)] is [s], for a separator that is not empty. *)
Lemma join_split (sep s : string) : sep ≠ "" -> join sep (split sep s) = s.
Proof.
  intros Hsep. unfold split. rewrite join_split_go by done.
  by destruct s.
Qed.

(** The batch that initialises a buffer fills it with lines which, joined
    with the end of line of the document, are the text of the document;
    it names the buffer after the URI of the document, marks it as
    controlled, and makes it listed and of type nofile. *)
Theorem initRequests_fill_buffer (h : Host) (b : BufferManager.t)
    (doc : TextDocument) (bufId : Z) (editor : option TextEditor) :
  exists lines rest,
    initRequests h b doc bufId editor
    = ("nvim_buf_set_lines",
       [AInt bufId; AInt 0; AInt (-1); ABool false; AStrs lines]) :: rest
    /\ lines ≠ []
    /\ join (eol_string (eol (documents h doc))) lines
       = getText (documents h doc)
    /\ In ("nvim_buf_set_name",
           [AInt bufId;
            AStr (BUFFER_NAME_PREFIX +:+ uri_toString (documents h doc))]) rest
    /\ In ("nvim_buf_set_var",
           [AInt bufId; AStr "vscode_controlled"; ABool true]) rest
    /\ (forall lines', ~ In ("nvim_buf_set_lines",
                             [AInt bufId; AInt 0; AInt (-1); ABool false;
                              AStrs lines']) rest).
Proof.
  unfold initRequests. cbv zeta.
  eexists _, _. split; [reflexivity|].
  split; [|split; [|split; [|split]]].
  - unfold split.
    destruct (split_go_cons (eol_string (eol (documents h doc))) 0 ""
                (getText (documents h doc))) as (x & l & ->). done.
  - apply join_split. by destruct (eol (documents h doc)).
  - simpl. tauto.
  - simpl. tauto.
  - intros lines' Hin. simpl in Hin.
    repeat (destruct Hin as [Hin|Hin]; [discriminate|]). done.
Qed.
End BufferTextFacts.

(** ** The name given to a buffer, and the request that carries it back *)

Section BufferNameFacts.
Import BufferManager.

Lemma prefix_app (a p s : string) :
  String.prefix (a +:+ p) (a +:+ s) = String.prefix p s.
Proof.
  induction a as [|x a IH]; [done|].
  rewrite !append_cons, prefix_cons.
  by destruct (Ascii.ascii_dec x x).
Qed.

Lemma prefix_nil (s : string) : String.prefix "" s = true.
Proof. by destruct s. Qed.

Lemma includes_app (sub a s : string) :
  includes sub s = true -> includes sub (a +:+ s) = true.
Proof.
  intros Hs. induction a as [|x a IH]; [done|].
  rewrite append_cons. simpl. rewrite IH. apply orb_true_r.
Qed.

Lemma substring_from_app (a s : string) :
  substring_from (String.length a) (a +:+ s) = s.
Proof.
  induction a as [|x a IH]; [by destruct s|].
  rewrite append_cons. exact IH.
Qed.

Lemma find_In {A : Type} (p : A -> bool) (l : list A) (x : A) :
  In x l -> p x = true -> exists y, List.find p l = Some y /\ p y = true.
Proof.
  intros Hin Hp. destruct (List.find p l) as [y|] eqn:Hf.
  - exists y. split; [done|]. by apply find_some in Hf as [_ ?].
  - pose proof (find_none _ _ Hf x Hin). congruence.
Qed.

(** A buffer that [initBufferForDocument] named after a document of the
    workspace comes back in an "external-buffer" request : the request is
    dropped for an output document; for a name with [://] it is handled as
    a host document and never attached as an external buffer; the prefix
    is cut off to give the URI back, and a document with that URI is
    found. *)
Theorem own_buffer_name_resolved (h : Host) (be : Backend)
    (doc : TextDocument) (idStr : string) (id expandTab tabStop : Z) :
  In doc (textDocuments h) ->
  parseInt idStr = Some id ->
  let u := uri_toString (documents h doc) in
  let name := BUFFER_NAME_PREFIX +:+ u in
  (startsWith u "output:" = true ->
   handleExtensionRequest_external_buffer h be name idStr expandTab tabStop
   = Some (ret tt))
  /\ (startsWith u "output:" = false -> includes "://" u = true ->
      handleExtensionRequest_external_buffer h be name idStr expandTab tabStop
      = Some (showHostDocument h be name id))
  /\ startsWith name BUFFER_NAME_PREFIX = true
  /\ substring_from 18 name = u
  /\ (startsWith u "/search-editor" = false ->
      exists d, findDocFromUri h u = Some d
                /\ uri_toString (documents h d) = u).
Proof.
  intros Hin Hid u name.
  assert (Hout : startsWith name (BUFFER_NAME_PREFIX +:+ "output:")
                 = startsWith u "output:").
  { unfold startsWith, name. apply prefix_app. }
  split; [|split; [|split; [|split]]].
  - intros Ho. unfold handleExtensionRequest_external_buffer.
    by rewrite Hout, Ho.
  - intros Ho Hi. unfold handleExtensionRequest_external_buffer.
    rewrite Hout, Ho, Hid. simpl.
    assert (isVscodeUriName name = true) as ->.
    { unfold isVscodeUriName, name. by rewrite includes_app. }
    done.
  - unfold startsWith, name.
    rewrite <- (append_nil_r BUFFER_NAME_PREFIX) at 1.
    rewrite prefix_app. apply prefix_nil.
  - apply (substring_from_app BUFFER_NAME_PREFIX u).
  - intros Hs. unfold findDocFromUri. rewrite Hs.
    destruct (find_In (fun d => bool_decide (uri_toString (documents h d) = u))
                (textDocuments h) doc Hin) as (d & Hf & Hd).
    { by apply bool_decide_eq_true_2. }
    exists d. split; [done|]. by apply bool_decide_eq_true_1 in Hd.
Qed.
End BufferNameFacts.

Section BufferNameExamples.
Import Scenario.

(** Buffer 3 named after [file:///a.txt]. *)
Lemma own_buffer_name_file :
  BufferManager.handleExtensionRequest_external_buffer host_file backend_empty
    (BufferManager.BUFFER_NAME_PREFIX +:+ "file:///a.txt") "3" 1 4
  = Some (BufferManager.showHostDocument host_file backend_empty
            (BufferManager.BUFFER_NAME_PREFIX +:+ "file:///a.txt") 3)
  /\ BufferManager.findDocFromUri host_file "file:///a.txt" = Some 1%positive.
Proof.
  destruct (own_buffer_name_resolved host_file backend_empty 1%positive "3" 3
              1 4) as (_ & H & _ & _ & _).
  - simpl. left. reflexivity.
  - reflexivity.
  - split; [|reflexivity]. apply H; reflexivity.
Defined.
End BufferNameExamples.
